(** * dlxtrade-ws / ml-service: inference path and backtest simulator

    A shallow embedding of [ml-service/app.py] (bundle registry, feature
    alignment, prediction response, explanation ranking) and of
    [ml-service/backtest.py] ([simulate_trades]).

    Numbers.  The Python code computes on binary64 floats.  Every function
    below is written once, over a small interface [PyNum] of the float
    operations the code uses, and is run at two instances:
    - [Q]: exact rational arithmetic, the idealisation (no rounding, no NaN,
      no infinities) in which the laws that rest on the order and the
      arithmetic of the numbers are proved;
    - [float]: Rocq's primitive binary64 numbers, bit-exact with Python's
      [float] and NumPy's [float64], used to evaluate concrete scenarios.
    Laws that do not depend on the arithmetic are proved for every instance,
    and a few are carried over to binary64 under the proviso that no NaN
    arises.

    Exceptions are values of [Result]; the process-wide dictionaries of
    [app.py] and the file system are fields of an explicit state. *)

From Stdlib Require Import ZArith QArith Qabs Qround Lqa Floats.
From Stdlib Require Import List String Ascii.
From stdpp Require Import base option list gmap strings pretty sorting.

Set Warnings "-inexact-float".
Local Open Scope string_scope.
Local Open Scope list_scope.

(* ===================================================================== *)
(** ** Python exceptions *)
(* ===================================================================== *)

Inductive Exn : Type :=
  | IndexError
  | ValueError
  | OverflowError
  | TypeError
  | LibraryError (msg : string).

Inductive Result (A : Type) : Type :=
  | Ok (a : A)
  | Raise (e : Exn).
Arguments Ok {A} a.
Arguments Raise {A} e.

Definition rbind {A B} (m : Result A) (k : A -> Result B) : Result B :=
  match m with
  | Ok a => k a
  | Raise e => Raise e
  end.

Notation "'let!' x ':=' m 'in' k" := (rbind m (fun x => k))
  (at level 10, x pattern, m at level 100, k at level 200).

(** [xs[i]] for a non-negative index. *)
Definition py_index {A} (xs : list A) (i : nat) : Result A :=
  match xs !! i with
  | Some x => Ok x
  | None => Raise IndexError
  end.

(** [xs[-1]]. *)
Definition py_last {A} (xs : list A) : Result A :=
  match last xs with
  | Some x => Ok x
  | None => Raise IndexError
  end.

(** [xs[-n:]]: the last [n] elements, the whole list when it is shorter. *)
Definition py_suffix {A} (n : nat) (xs : list A) : list A :=
  drop (length xs - n) xs.

(* ===================================================================== *)
(** ** The numeric interface *)
(* ===================================================================== *)

Class PyNum (F : Type) : Type := {
  of_int : Z -> F;                  (* int -> float, as in [0 + x], [float(0)] *)
  lit_1e_9 : F;                     (* the literal [1e-9] *)
  fadd : F -> F -> F;
  fsub : F -> F -> F;
  fmul : F -> F -> F;
  fdiv : F -> F -> F;
  fabs : F -> F;
  fltb : F -> F -> bool;            (* [a < b] *)
  fleb : F -> F -> bool;            (* [a <= b] *)
  feqb : F -> F -> bool;            (* [a == b] *)
  fisnan : F -> bool;
  to_int : F -> Result Z;           (* [int(x)]: truncation toward zero *)
  to_Q : F -> option Q;             (* the exact value, when finite *)
}.

(** *** Exact rationals *)

Definition Qltb (a b : Q) : bool := negb (Qle_bool b a).

(** [int(x)] rounds toward zero. *)
Definition Qtruncate (x : Q) : Z := Z.quot (Qnum x) (Zpos (Qden x)).

#[export] Instance Q_PyNum : PyNum Q := {|
  of_int := inject_Z;
  lit_1e_9 := 1 # 1000000000;
  fadd := Qplus;
  fsub := Qminus;
  fmul := Qmult;
  fdiv := Qdiv;
  fabs := Qabs;
  fltb := Qltb;
  fleb := Qle_bool;
  feqb := Qeq_bool;
  fisnan := fun _ => false;
  to_int := fun x => Ok (Qtruncate x);
  to_Q := Some;
|}.

(** *** binary64 *)

Module Binary64.

Definition of_int (z : Z) : float :=
  match z with
  | Z0 => PrimFloat.zero
  | Zpos _ => PrimFloat.of_uint63 (Uint63.of_Z z)
  | Zneg _ => PrimFloat.opp (PrimFloat.of_uint63 (Uint63.of_Z (Z.opp z)))
  end.

(** The value [(-1)^s * m * 2^e] of a finite float. *)
Definition SF2Q (x : spec_float) : option Q :=
  match x with
  | S754_zero _ => Some (0 # 1)
  | S754_finite s m e =>
      let mag : Q :=
        match e with
        | Z0 => Zpos m # 1
        | Zpos p => Zpos (m * 2 ^ p) # 1
        | Zneg p => Zpos m # (2 ^ p)
        end in
      Some (if s then Qopp mag else mag)
  | S754_infinity _ | S754_nan => None
  end.

Definition to_Q (x : float) : option Q := SF2Q (Prim2SF x).

Definition to_int (x : float) : Result Z :=
  match Prim2SF x with
  | S754_nan => Raise ValueError
  | S754_infinity _ => Raise OverflowError
  | sf => match SF2Q sf with
          | Some q => Ok (Qtruncate q)
          | None => Raise ValueError
          end
  end.

End Binary64.

#[export] Instance float_PyNum : PyNum float := {|
  of_int := Binary64.of_int;
  lit_1e_9 := 1e-9%float;
  fadd := PrimFloat.add;
  fsub := PrimFloat.sub;
  fmul := PrimFloat.mul;
  fdiv := PrimFloat.div;
  fabs := PrimFloat.abs;
  fltb := PrimFloat.ltb;
  fleb := PrimFloat.leb;
  feqb := PrimFloat.eqb;
  fisnan := PrimFloat.is_nan;
  to_int := Binary64.to_int;
  to_Q := Binary64.to_Q;
|}.

(** Python truthiness of a float: false exactly for zero. *)
Definition truthy {F} `{PyNum F} (x : F) : bool := negb (feqb x (of_int 0)).

(** [a or b] on floats. *)
Definition py_or {F} `{PyNum F} (a b : F) : F := if truthy a then a else b.

(** The builtin [sum]: left to right, starting from the integer [0]. *)
Definition py_sum {F} `{PyNum F} (xs : list F) : F :=
  fold_left fadd xs (of_int 0).

(** [np.maximum] and [np.minimum] on scalars: NumPy's loops compute
    [(a >= b || isnan(a)) ? a : b] and [(a <= b || isnan(a)) ? a : b]. *)
Definition np_maximum {F} `{PyNum F} (a b : F) : F :=
  if fleb b a || fisnan a then a else b.

Definition np_minimum {F} `{PyNum F} (a b : F) : F :=
  if fleb a b || fisnan a then a else b.

(** [np.maximum.accumulate]: [out[0] = x[0]], [out[i] = maximum(out[i-1], x[i])]. *)
Fixpoint accumulate_from {F} `{PyNum F} (acc : F) (xs : list F) : list F :=
  match xs with
  | [] => []
  | x :: rest => let m := np_maximum acc x in m :: accumulate_from m rest
  end.

Definition np_maximum_accumulate {F} `{PyNum F} (xs : list F) : list F :=
  match xs with
  | [] => []
  | x :: rest => x :: accumulate_from x rest
  end.

(** [arr.min()]: a reduction with [np.minimum]; an empty array raises. *)
Definition np_min {F} `{PyNum F} (xs : list F) : Result F :=
  match xs with
  | [] => Raise ValueError
  | x :: rest => Ok (fold_left np_minimum rest x)
  end.

(* ===================================================================== *)
(** ** backtest.py *)
(* ===================================================================== *)

Module Backtest.
Section simulate.
Context {F : Type} `{PyNum F}.

(** A row of the data frame: column name to value.  [row.get(key, d)]. *)
Definition row_get (row : gmap string F) (key : string) (d : F) : F :=
  default d (row !! key).

Record TradeResult : Type := { pnl : F; direction : string }.

Record Summary : Type := {
  profitFactor : F;
  maxDrawdown : F;
  totalPnl : F;
  equityCurve : list F;
}.

(** The body of the loop of [simulate_trades] between [pnl = 0.0] and
    [pnl -= ...]: the row's PnL net of costs. *)
Definition row_pnl (row : gmap string F) (pred : string)
    (fee slippage funding : F) : F :=
  let pnl := of_int 0 in
  let pnl :=
    if String.eqb pred "BUY" then
      row_get row "max_future_return" (of_int 0)
    else if String.eqb pred "SELL" then
      fabs (row_get row "min_future_return" (of_int 0))
    else pnl in
  fsub pnl (fdiv (fadd (fadd fee slippage) funding) (of_int 10000)).

(** The [for] loop, from row [i] on, threading [(equity_curve, trades)]. *)
Fixpoint trade_loop (df : list (gmap string F)) (i : nat)
    (predictions : list string) (fee slippage funding : F)
    (equity_curve : list F) (trades : list TradeResult)
    : Result (list F * list TradeResult) :=
  match df with
  | [] => Ok (equity_curve, trades)
  | row :: rest =>
      let! pred := py_index predictions i in
      let pnl := row_pnl row pred fee slippage funding in
      let trades := trades ++ [ {| pnl := pnl; direction := pred |} ] in
      let! prev := py_last equity_curve in
      let equity_curve := equity_curve ++ [fadd prev pnl] in
      trade_loop rest (S i) predictions fee slippage funding equity_curve trades
  end.

Definition simulate_trades (df : list (gmap string F))
    (predictions : list string) (fee slippage funding : F) : Result Summary :=
  let! (equity_curve, trades) :=
    trade_loop df 0 predictions fee slippage funding [of_int 0] [] in
  let equity_series := equity_curve in
  let peak := np_maximum_accumulate equity_series in
  let drawdown := zip_with fsub equity_series peak in
  let! max_drawdown := np_min drawdown in
  let gains :=
    py_sum (map pnl (filter (fun t => fltb (of_int 0) (pnl t)) trades)) in
  let losses :=
    py_or (fabs (py_sum (map pnl (filter (fun t => fltb (pnl t) (of_int 0)) trades))))
          lit_1e_9 in
  let profit_factor := fdiv gains losses in
  let! total_pnl := py_last equity_series in
  Ok {| profitFactor := profit_factor;
        maxDrawdown := max_drawdown;
        totalPnl := total_pnl;
        equityCurve := equity_series |}.

End simulate.
Arguments TradeResult : clear implicits.
Arguments Summary : clear implicits.
End Backtest.


(* ===================================================================== *)
(** ** app.py *)
(* ===================================================================== *)

Module App.

(** *** Strings *)

(** [str.lower] on ASCII letters.  A string is a sequence of bytes here;
    feature names are taken to be ASCII, as the column names of the
    training data are.  Python's [str.lower] also maps letters outside
    ASCII, which this function leaves as they are; only the direction tag
    that [get_signal_from_feature] renders depends on it. *)
Definition lower_ascii (c : ascii) : ascii :=
  let n := nat_of_ascii c in
  if (65 <=? n)%nat && (n <=? 90)%nat then ascii_of_nat (n + 32) else c.

Fixpoint lower (s : string) : string :=
  match s with
  | EmptyString => EmptyString
  | String c rest => String (lower_ascii c) (lower rest)
  end.

(** [needle in s] on strings. *)
Fixpoint contains (needle s : string) : bool :=
  String.prefix needle s ||
  match s with
  | EmptyString => false
  | String _ rest => contains needle rest
  end.

Definition get_signal_from_feature (feature_name : string) : string :=
  if contains "rsi" (lower feature_name) || contains "oversold" (lower feature_name)
  then "LONG"
  else if contains "overbought" (lower feature_name)
  then "SHORT"
  else if contains "imbalance" (lower feature_name) && contains "buy" (lower feature_name)
  then "LONG"
  else if contains "imbalance" (lower feature_name) && contains "sell" (lower feature_name)
  then "SHORT"
  else "signal".

(** [f"{value:.3f}"] of an exact value: round half to even at the third
    decimal, keep the sign of the argument. *)
Definition round_half_even (x : Q) : Z :=
  let fl := Qfloor x in
  match Qcompare (x - inject_Z fl) (1 # 2) with
  | Lt => fl
  | Gt => (fl + 1)%Z
  | Eq => if Z.even fl then fl else (fl + 1)%Z
  end.

Definition pad3 (s : string) : string :=
  match String.length s with
  | 0%nat => "000" +:+ s
  | 1%nat => "00" +:+ s
  | 2%nat => "0" +:+ s
  | _ => s
  end.

Definition Q_format_3f (x : Q) : string :=
  let n := round_half_even (Qabs x * inject_Z 1000) in
  (if Qltb x 0 then "-" else "") +:+
  pretty (n / 1000)%Z +:+ "." +:+ pad3 (pretty (n mod 1000)%Z).

Section app.
Context {F : Type} `{PyNum F}.

Definition format_3f (x : F) : string :=
  match to_Q x with
  | Some q => Q_format_3f q
  | None => if fisnan x then "nan"
            else if fltb x (of_int 0) then "-inf" else "inf"
  end.

(** *** format_explanations *)

(** [list.sort(key=lambda x: x[1], reverse=True)]: a stable sort into
    descending order of the second component, as an insertion sort: an
    element is placed after the elements strictly greater than it and
    before every element it is not smaller than. *)
Fixpoint insert_desc (x : string * F) (l : list (string * F)) : list (string * F) :=
  match l with
  | [] => [x]
  | y :: rest => if fltb (snd x) (snd y) then y :: insert_desc x rest else x :: l
  end.

Definition sort_desc (l : list (string * F)) : list (string * F) :=
  foldr insert_desc [] l.

Definition sorted_contribs (feature_names : list string) (contributions : list F)
    : list (string * F) :=
  sort_desc (zip feature_names contributions).

Definition top_positive (feature_contribs : list (string * F)) : list (string * F) :=
  take 6 (filter (fun fc => fltb (of_int 0) (snd fc)) feature_contribs).

Definition top_negative (feature_contribs : list (string * F)) : list (string * F) :=
  py_suffix 3 (filter (fun fc => fltb (snd fc) (of_int 0)) feature_contribs).

Definition render_supports (fc : string * F) : string :=
  fst fc +:+ " contributes +" +:+ format_3f (snd fc) +:+ " — supports " +:+
  get_signal_from_feature (fst fc).

Definition render_reduces (fc : string * F) : string :=
  fst fc +:+ " contributes " +:+ format_3f (snd fc) +:+ " — reduces confidence".

Definition format_explanations (feature_names : list string) (contributions : list F)
    : list string :=
  let feature_contribs := sorted_contribs feature_names contributions in
  let explanations :=
    map render_supports (top_positive feature_contribs) ++
    map render_reduces (top_negative feature_contribs) in
  take 6 explanations.

(** The same list before rendering: each entry with its category, its
    feature and its contribution. *)
Inductive Explanation : Type :=
  | Supports (name : string) (value : F) (signal : string)
  | Reduces (name : string) (value : F).

Definition supports_of (fc : string * F) : Explanation :=
  Supports (fst fc) (snd fc) (get_signal_from_feature (fst fc)).

Definition reduces_of (fc : string * F) : Explanation :=
  Reduces (fst fc) (snd fc).

Definition render (e : Explanation) : string :=
  match e with
  | Supports name value signal =>
      name +:+ " contributes +" +:+ format_3f value +:+ " — supports " +:+ signal
  | Reduces name value =>
      name +:+ " contributes " +:+ format_3f value +:+ " — reduces confidence"
  end.

Definition explanation_entries (feature_names : list string) (contributions : list F)
    : list Explanation :=
  let feature_contribs := sorted_contribs feature_names contributions in
  take 6 (map supports_of (top_positive feature_contribs) ++
          map reduces_of (top_negative feature_contribs)).

Definition contribution (e : Explanation) : F :=
  match e with
  | Supports _ value _ => value
  | Reduces _ value => value
  end.

Definition is_supports (e : Explanation) : bool :=
  match e with Supports _ _ _ => true | Reduces _ _ => false end.


(** *** LabelEncoder, argmax *)

(** [np.argmax]: the scan keeps the first maximum and stops at a NaN. *)
Fixpoint argmax_scan (mp : F) (max_ind i : nat) (xs : list F) : nat :=
  match xs with
  | [] => max_ind
  | x :: rest =>
      if fisnan mp then max_ind
      else if negb (fleb x mp) then argmax_scan x i (S i) rest
      else argmax_scan mp max_ind (S i) rest
  end.

Definition np_argmax (xs : list F) : Result nat :=
  match xs with
  | [] => Raise ValueError
  | x :: rest => Ok (argmax_scan x 0 1 rest)
  end.

(** Position of the first occurrence of [label]. *)
Fixpoint index_of (label : string) (classes : list string) : option nat :=
  match classes with
  | [] => None
  | c :: rest => if String.eqb c label then Some 0%nat
                 else S <$> index_of label rest
  end.

(** [label_encoder.transform([label])[0]]. *)
Definition transform (classes_ : list string) (label : string) : Result nat :=
  match index_of label classes_ with
  | Some i => Ok i
  | None => Raise ValueError
  end.

(** [label_encoder.inverse_transform([idx])[0]]. *)
Definition inverse_transform (classes_ : list string) (idx : nat) : Result string :=
  match classes_ !! idx with
  | Some c => Ok c
  | None => Raise ValueError
  end.

(** *** The bundle and the explainer *)

(** What [explainer.shap_values(scaled)] returns: a Python list with one
    array per class, or a single array; each array has one row per sample. *)
Inductive ShapValues : Type :=
  | ShapList (per_class : list (list (list F)))
  | ShapArray (rows : list (list F)).

Inductive ExpectedValue : Type :=
  | ExpectedList (l : list F)
  | ExpectedScalar (v : F)
  | ExpectedNone.

Record Explainer : Type := {
  shap_values : list F -> Result ShapValues;
  expected_value : ExpectedValue;
}.

(** The dictionary stored in the joblib file.  The library objects are
    represented by what the code asks of them: [scaler] is
    [scaler.transform] on one row, [model] is [model.predict_proba] on one
    row, [label_encoder] is [classes_], and [lightgbm] is the sub-model
    [base_models['lightgbm']] when present, given as the outcome of
    [shap.TreeExplainer(lightgbm_model, data=background)]. *)
Record Bundle : Type := {
  feature_names : option (list string);
  scaler : list F -> Result (list F);
  model : list F -> Result (list F);
  label_encoder : list string;
  metadata : option (gmap string string);
  lightgbm : option (Result Explainer);
}.

(** *** The process: module globals, environment, file system *)

Inductive Artifact : Type :=
  | Pickled (bundle : Bundle)
  | Unreadable.

(** Files are stored under their absolute path; [abspath] is
    [os.path.abspath] for the working directory of the process. *)
Record FileSystem : Type := {
  abspath : string -> string;
  files : gmap string Artifact;
}.

Inductive IOEvent : Type :=
  | FileRead (absolute_path : string)
  | ShapInitFailed (exc : Exn).     (* [print(f'SHAP initialization failed: {exc}')] *)

Record Process : Type := {
  fs : FileSystem;
  environ : gmap string string;
  DEFAULT_MODEL_PATH : string;
  model_bundles : gmap string Bundle;
  shap_explainers : gmap string (option Explainer);
  io_log : list IOEvent;
}.

Definition os_getenv (p : Process) (key dflt : string) : string :=
  default dflt (environ p !! key).

Definition os_path_exists (p : Process) (path : string) : bool :=
  bool_decide (is_Some (files (fs p) !! abspath (fs p) path)).

Definition log_event (ev : IOEvent) (p : Process) : Process :=
  {| fs := fs p; environ := environ p; DEFAULT_MODEL_PATH := DEFAULT_MODEL_PATH p;
     model_bundles := model_bundles p; shap_explainers := shap_explainers p;
     io_log := io_log p ++ [ev] |}.

Definition set_bundle (path : string) (b : Bundle) (p : Process) : Process :=
  {| fs := fs p; environ := environ p; DEFAULT_MODEL_PATH := DEFAULT_MODEL_PATH p;
     model_bundles := <[path := b]> (model_bundles p);
     shap_explainers := shap_explainers p; io_log := io_log p |}.

Definition set_explainer (path : string) (e : option Explainer) (p : Process) : Process :=
  {| fs := fs p; environ := environ p; DEFAULT_MODEL_PATH := DEFAULT_MODEL_PATH p;
     model_bundles := model_bundles p;
     shap_explainers := <[path := e]> (shap_explainers p); io_log := io_log p |}.

(** [joblib.load(path)]: reads the file. *)
Definition joblib_load (path : string) (p : Process) : Result Bundle * Process :=
  let p' := log_event (FileRead (abspath (fs p) path)) p in
  match files (fs p) !! abspath (fs p) path with
  | Some (Pickled b) => (Ok b, p')
  | Some Unreadable => (Raise (LibraryError "joblib.load"), p')
  | None => (Raise (LibraryError "FileNotFoundError"), p)
  end.

Definition load_model (model_path : string) (p : Process)
    : Result (option Bundle) * Process :=
  match model_bundles p !! model_path with
  | Some cached => (Ok (Some cached), p)
  | None =>
      if negb (os_path_exists p model_path) then (Ok None, p)
      else
        match joblib_load model_path p with
        | (Raise e, p) => (Raise e, p)
        | (Ok bundle, p) =>
            let p := set_bundle model_path bundle p in
            let p :=
              match lightgbm bundle with
              | Some (Ok explainer) => set_explainer model_path (Some explainer) p
              | Some (Raise exc) =>
                  set_explainer model_path None (log_event (ShapInitFailed exc) p)
              | None => set_explainer model_path None p
              end in
            (Ok (Some bundle), p)
        end
  end.

(** *** predict *)

Record Request : Type := {
  features : option (list F);
  featureNames : option (list string);
}.

Record ShapPayload : Type := {
  shap_featureNames : list string;
  shap_values_list : list F;
  shap_baseValue : option F;
}.

Record Prediction : Type := {
  signal : string;
  probability : F;
  confidence : Z;
  accuracyRange : option string;
  explanations : list string;
  probabilities : gmap string (option F);
  shap : option ShapPayload;
}.

Inductive Body : Type :=
  | ErrorMessage (error : string)
  | ErrorOf (e : Exn)                (* [{'error': str(e)}] *)
  | PredictionBody (r : Prediction).

Record Response : Type := { body : Body; status : nat }.

(** A list is true when it is present and not empty. *)
Definition names_given (requested_names : option (list string)) : bool :=
  match requested_names with
  | Some (_ :: _) => true
  | _ => false
  end.

(** [{name: idx for idx, name in enumerate(requested_names)}]. *)
Definition build_index_map (requested_names : list string) : gmap string Z :=
  fold_left (fun m (p : nat * string) => <[p.2 := Z.of_nat p.1]> m)
            (imap pair requested_names) ∅.

Fixpoint rmapM {A B} (f : A -> Result B) (l : list A) : Result (list B) :=
  match l with
  | [] => Ok []
  | x :: rest => let! y := f x in let! ys := rmapM f rest in Ok (y :: ys)
  end.

(** One element of the comprehension of line 119:
    [features[index_map.get(name, -1)] if index_map.get(name, -1) >= 0 else 0]. *)
Definition aligned_value (features : list F) (index_map : gmap string Z)
    (name : string) : Result F :=
  if (0 <=? default (-1) (index_map !! name))%Z
  then py_index features (Z.to_nat (default (-1) (index_map !! name)))%Z
  else Ok (of_int 0).

(** Lines 117-122: the feature vector handed to the scaler. *)
Definition align_features (features : list F)
    (requested_names : option (list string)) (feature_names : list string)
    : Result (list F) :=
  if names_given requested_names then
    let index_map := build_index_map (default [] requested_names) in
    rmapM (aligned_value features index_map) feature_names
  else Ok features.

(** One entry of the ['probabilities'] dictionary. *)
Definition class_probability (classes_ : list string) (probabilities : list F)
    (label : string) : Result (option F) :=
  if bool_decide (label ∈ classes_) then
    let! idx := transform classes_ label in
    let! p := py_index probabilities idx in
    Ok (Some p)
  else Ok None.

Definition default_feature_names (n : nat) : list string :=
  map (fun i => "feature_" +:+ pretty i) (seq 0 n).

(** The [if explainer is not None] block: explanations and SHAP payload. *)
Definition explain (explainer : Explainer) (feature_names : list string)
    (scaled : list F) (prediction_idx : nat)
    : Result (list string * option ShapPayload) :=
  let! sv := shap_values explainer scaled in
  let! (contributions, base_value) :=
    match sv with
    | ShapList per_class =>
        let! for_class := py_index per_class prediction_idx in
        let! contributions := py_index for_class 0 in
        let! base_value :=
          match expected_value explainer with
          | ExpectedList l => let! b := py_index l prediction_idx in Ok (Some b)
          | ExpectedScalar v => Ok (Some v)
          | ExpectedNone => Ok None
          end in
        Ok (contributions, base_value)
    | ShapArray rows =>
        let! contributions := py_index rows 0 in
        let! base_value :=
          match expected_value explainer with
          | ExpectedList l => Raise TypeError
          | ExpectedScalar v => Ok (Some v)
          | ExpectedNone => Ok None
          end in
        Ok (contributions, base_value)
    end in
  Ok (format_explanations feature_names contributions,
      Some {| shap_featureNames := feature_names;
              shap_values_list := contributions;
              shap_baseValue := base_value |}).

Definition jsonify (b : Body) (code : nat) : Response := {| body := b; status := code |}.

(** Lines 117-165: from the alignment to the response, for the bundle
    and the explainer registered under the model path. *)
Definition respond (bundle : Bundle) (explainer : option Explainer)
    (features : list F) (requested_names : option (list string))
    (feature_names : list string) : Result Response :=
  let! feature_vector := align_features features requested_names feature_names in
  let classes_ := label_encoder bundle in
  let! scaled := scaler bundle feature_vector in
  let! probabilities := model bundle scaled in
  let! prediction_idx := np_argmax probabilities in
  let! signal := inverse_transform classes_ prediction_idx in
  let! probability := py_index probabilities prediction_idx in
  let! (explanations, shap_payload) :=
    match explainer with
    | Some explainer => explain explainer feature_names scaled prediction_idx
    | None => Ok ([], None)
    end in
  let metadata := default ∅ (metadata bundle) in
  let! confidence := to_int (fmul probability (of_int 100)) in
  let! buy := class_probability classes_ probabilities "BUY" in
  let! sell := class_probability classes_ probabilities "SELL" in
  let! hold := class_probability classes_ probabilities "HOLD" in
  Ok (jsonify (PredictionBody
        {| signal := signal;
           probability := probability;
           confidence := confidence;
           accuracyRange := metadata !! "accuracyRange";
           explanations := explanations;
           probabilities := {[ "BUY" := buy; "SELL" := sell; "HOLD" := hold ]};
           shap := shap_payload |}) 200).

(** The body of the [try] block. *)
Definition predict_try (data : Request) (p : Process) : Result Response * Process :=
  let features := default [] (features data) in
  let requested_names := featureNames data in
  if bool_decide (length features = 0%nat) then
    (Ok (jsonify (ErrorMessage "No features provided") 400), p)
  else
    let model_path := os_getenv p "MODEL_BUNDLE_PATH" (DEFAULT_MODEL_PATH p) in
    match load_model model_path p with
    | (Raise e, p) => (Raise e, p)
    | (Ok None, p) => (Ok (jsonify (ErrorMessage "Model not ready") 503), p)
    | (Ok (Some bundle), p) =>
        let feature_names :=
          default (default_feature_names (length features)) (feature_names bundle) in
        if names_given requested_names
           && negb (bool_decide (length (default [] requested_names) = length features))
        then (Ok (jsonify (ErrorMessage "Feature count mismatch") 400), p)
        else
          (respond bundle (default None (shap_explainers p !! model_path))
                   features requested_names feature_names, p)
    end.

(** [except Exception as e: return jsonify({'error': str(e)}), 500]. *)
Definition predict (data : Request) (p : Process) : Response * Process :=
  match predict_try data p with
  | (Ok response, p) => (response, p)
  | (Raise e, p) => (jsonify (ErrorOf e) 500, p)
  end.

End app.
End App.

(* ===================================================================== *)
(** ** app.py: the probes [/health] and [/ready] *)
(* ===================================================================== *)

Module Probes.
Section probes.
Context {F : Type} `{PyNum F}.

Record Health : Type := {
  health_status : string;
  models_loaded : nat;
  modelVersion : option string;
  timestamp : string;
}.

(** The pair [jsonify({'status': ...}), code] of [/ready]. *)
Record Readiness : Type := { ready_status : string; ready_code : nat }.

(** [health()]; [now] is [datetime.now().isoformat()].  The bundle is a
    dictionary with entries, hence true when it is not [None].  The route
    has no [try]: an exception of [load_model] leaves it. *)
Definition health (now : string) (p : App.Process (F:=F))
    : Result Health * App.Process (F:=F) :=
  match App.load_model (App.DEFAULT_MODEL_PATH p) p with
  | (Raise e, p) => (Raise e, p)
  | (Ok bundle, p) =>
      let status := match bundle with Some _ => "ready" | None => "unavailable" end in
      let model_version :=
        match bundle with
        | Some b => default ∅ (App.metadata b) !! "modelVersion"
        | None => None
        end in
      (Ok {| health_status := status;
             models_loaded := size (App.model_bundles p);
             modelVersion := model_version;
             timestamp := now |}, p)
  end.

(** [ready()]. *)
Definition ready (p : App.Process (F:=F)) : Result Readiness * App.Process (F:=F) :=
  match App.load_model (App.DEFAULT_MODEL_PATH p) p with
  | (Raise e, p) => (Raise e, p)
  | (Ok (Some _), p) => (Ok {| ready_status := "ready"; ready_code := 200 |}, p)
  | (Ok None, p) => (Ok {| ready_status := "unavailable"; ready_code := 503 |}, p)
  end.

End probes.
End Probes.

(* ===================================================================== *)
(** ** backtest.py: the evaluation window *)
(* ===================================================================== *)

Module Window.
Section window.
Context {F : Type} `{PyNum F}.

(** A data frame: its column labels and its rows, in order.  Every row has
    a value for every column; a cell without a value (a key absent from the
    row, or a NaN) is a missing value. *)
Record DataFrame : Type := {
  columns : list string;
  rows : list (gmap string F);
}.

(** [Series.max()]: the largest value, missing values skipped; [None] is
    the NaN returned when nothing is left. *)
Definition series_max (values : list F) : option F :=
  fold_left (fun acc x =>
               if fisnan x then acc
               else match acc with
                    | None => Some x
                    | Some m => Some (if fleb m x then x else m)
                    end) values None.

(** The mask [df['timestamp'] >= cutoff] on one row; a comparison with a
    missing value is false. *)
Definition in_window (cutoff : F) (row : gmap string F) : bool :=
  match row !! "timestamp" with
  | Some t => fleb cutoff t
  | None => false
  end.

Definition filter_last_days (df : DataFrame) (days : Z) : DataFrame :=
  if negb (bool_decide ("timestamp" ∈ columns df)) then df
  else
    match series_max (omap (fun row => row !! "timestamp") (rows df)) with
    | Some latest =>
        let cutoff := fsub latest (of_int (days * 24 * 60 * 60 * 1000)) in
        {| columns := columns df;
           rows := filter (fun row => in_window cutoff row) (rows df) |}
    | None => {| columns := columns df; rows := [] |}
    end.

End window.
Arguments DataFrame : clear implicits.
End Window.

(* ===================================================================== *)
(** ** backtest.py: loading the bundle *)
(* ===================================================================== *)

Module Runner.
Section runner.
Context {F : Type} `{PyNum F}.

(** [load_bundle]: raises [FileNotFoundError] unless the file exists, and
    unpickles it otherwise; the registry of the service plays no part. *)
Definition load_bundle (bundle_path : string) (p : App.Process (F:=F))
    : Result (App.Bundle (F:=F)) * App.Process (F:=F) :=
  if negb (App.os_path_exists p bundle_path)
  then (Raise (LibraryError "FileNotFoundError"), p)
  else App.joblib_load bundle_path p.

End runner.
End Runner.

(* ===================================================================== *)
(** ** train_model.py *)
(* ===================================================================== *)

Module Train.

(** [df.iloc[:k]] and [df.iloc[k:]] on the rows of a frame: a negative
    bound counts from the end, and bounds beyond either end are clipped. *)
Definition iloc_to {A} (k : Z) (df : list A) : list A :=
  if (0 <=? k)%Z then take (Z.to_nat k) df
  else take (length df - Z.to_nat (- k)) df.

Definition iloc_from {A} (k : Z) (df : list A) : list A :=
  if (0 <=? k)%Z then drop (Z.to_nat k) df
  else drop (length df - Z.to_nat (- k)) df.

Definition train_val_split {F} `{PyNum F} {A} (df : list A) (test_ratio : F)
    : Result (list A * list A) :=
  let! split_index :=
    to_int (fmul (of_int (Z.of_nat (length df))) (fsub (of_int 1) test_ratio)) in
  Ok (iloc_to split_index df, iloc_from split_index df).

Definition accuracy_range (accuracy : float) : string :=
  if (0.95 <=? accuracy)%float then "95-99%"
  else if (0.9 <=? accuracy)%float then "90-95%"
  else if (0.85 <=? accuracy)%float then "85-90%"
  else if (0.8 <=? accuracy)%float then "80-85%"
  else if (0.75 <=? accuracy)%float then "75-80%"
  else "70-75%".

End Train.

(* ===================================================================== *)
(** ** Derived descriptions used in the statements *)
(* ===================================================================== *)

(** Running totals [e0 + x1], [e0 + x1 + x2], ... *)
Fixpoint running_total {F} `{PyNum F} (e0 : F) (xs : list F) : list F :=
  match xs with
  | [] => []
  | x :: rest => fadd e0 x :: running_total (fadd e0 x) rest
  end.

(** The trades of a data frame under a parallel list of predictions. *)
Definition trades_of {F} `{PyNum F} (df : list (gmap string F))
    (predictions : list string) (fee slippage funding : F)
    : list (Backtest.TradeResult F) :=
  zip_with (fun row pred =>
              {| Backtest.pnl := Backtest.row_pnl row pred fee slippage funding;
                 Backtest.direction := pred |}) df predictions.

(** The per-row PnL of a data frame under a parallel list of predictions. *)
Definition row_pnls {F} `{PyNum F} (df : list (gmap string F))
    (predictions : list string) (fee slippage funding : F) : list F :=
  zip_with (fun row pred => Backtest.row_pnl row pred fee slippage funding) df predictions.

(** The sum of a list of rationals. *)
Definition Qsum (xs : list Q) : Q := foldr Qplus 0%Q xs.

Definition gains_of (pnls : list Q) : Q := Qsum (filter (fun x => Qltb 0 x) pnls).
Definition losses_of (pnls : list Q) : Q := Qsum (filter (fun x => Qltb x 0) pnls).

(** The profit factor as the specification words it: the denominator, the
    absolute sum of the losses, floored to [eps]. *)
Definition profit_factor_floored (eps : Q) (pnls : list Q) : Q :=
  (gains_of pnls / (if Qle_bool eps (Qabs (losses_of pnls))
                    then Qabs (losses_of pnls) else eps))%Q.

(** What a call may change in the process: nothing on disk, nothing in the
    environment; cached bundles stay as they are and at most [path] is
    added; an explainer entry changes at most under [path]; the log grows at
    its end. *)
Definition extends_at {F : Type} `{PyNum F} (path : string)
    (p p' : App.Process (F:=F)) : Prop :=
  App.fs p' = App.fs p /\
  App.environ p' = App.environ p /\
  App.DEFAULT_MODEL_PATH p' = App.DEFAULT_MODEL_PATH p /\
  App.model_bundles p ⊆ App.model_bundles p' /\
  dom (App.model_bundles p') ⊆ dom (App.model_bundles p) ∪ {[ path ]} /\
  (forall other, other <> path ->
     App.shap_explainers p' !! other = App.shap_explainers p !! other) /\
  App.io_log p `prefix_of` App.io_log p'.

(** The two registries of the process have the same keys. *)
Definition lockstep {F : Type} `{PyNum F} (p : App.Process (F:=F)) : Prop :=
  dom (App.shap_explainers p) = dom (App.model_bundles p).

(** The bands of [accuracy_range], from the lowest to the highest. *)
Definition band_rank (label : string) : nat :=
  if String.eqb label "95-99%" then 5
  else if String.eqb label "90-95%" then 4
  else if String.eqb label "85-90%" then 3
  else if String.eqb label "80-85%" then 2
  else if String.eqb label "75-80%" then 1
  else 0.

(** Agreement to five decimals: the exact value is within half a unit of
    the fifth decimal place of [d]. *)
Definition close_5dp {F} `{PyNum F} (x : F) (d : Q) : bool :=
  match to_Q x with
  | Some q => Qltb (Qabs (q - d)) (5 # 1000000)
  | None => false
  end.

Definition all_close_5dp {F} `{PyNum F} (xs : list F) (ds : list Q) : bool :=
  bool_decide (length xs = length ds) && forallb (fun p => close_5dp p.1 p.2) (zip xs ds).

(* ===================================================================== *)
(** ** Concrete inputs *)
(* ===================================================================== *)

(** The three-row backtest scenario: predictions BUY, SELL, HOLD, a maximum
    future return of 0.02 on the first row, a minimum future return of -0.03
    on the second, costs of 7.5, 5 and 1 basis points.  The fields the
    scenario leaves open are parameters; [None] is an absent column. *)
Module Scenario.

Definition row_of {F} (mx mn : option F) : gmap string F :=
  let row : gmap string F :=
    match mx with
    | Some v => {[ "max_future_return" := v ]}
    | None => ∅
    end in
  match mn with
  | Some v => <["min_future_return" := v]> row
  | None => row
  end.

Definition rows {F} (mx1 mn2 : F) (mx2 mx3 mn1 mn3 : option F) : list (gmap string F) :=
  [row_of (Some mx1) mn1; row_of mx2 (Some mn2); row_of mx3 mn3].

Definition predictions : list string := ["BUY"; "SELL"; "HOLD"].

Definition rows_float := rows 0.02%float (-0.03)%float.
Definition fee_float : float := 7.5%float.
Definition slippage_float : float := 5%float.
Definition funding_float : float := 1%float.

Definition rows_Q := rows (2 # 100)%Q (-3 # 100)%Q.
Definition fee_Q : Q := 75 # 10.
Definition slippage_Q : Q := 5 # 1.
Definition funding_Q : Q := 1 # 1.

Definition row_pnls : list Q := [1865 # 100000; 2865 # 100000; -135 # 100000]%Q.
Definition equity : list Q := [0; 1865 # 100000; 4730 # 100000; 4595 # 100000]%Q.

End Scenario.

(** Two small backtests without costs: one BUY row gaining 2%, alone and
    followed by a BUY row whose maximum future return is [-1e-10]. *)
Module TinyLoss.

Definition winning_rows : list (gmap string Q) :=
  [Scenario.row_of (Some (2 # 100)%Q) None].
Definition winning_predictions : list string := ["BUY"].

Definition rows : list (gmap string Q) :=
  [Scenario.row_of (Some (2 # 100)%Q) None;
   Scenario.row_of (Some (-1 # 10000000000)%Q) None].
Definition predictions : list string := ["BUY"; "BUY"].

End TinyLoss.

(** A request naming one feature twice. *)
Module Duplicates.

Definition features : list Q := [1; 2; 3]%Q.
Definition names : list string := ["a"; "b"; "a"].
Definition trained : list string := ["a"; "b"; "c"].

End Duplicates.

(** Descending order of contribution. *)
Definition by_contribution_desc (x y : string * Q) : Prop := (snd y <= snd x)%Q.

(** The sign an entry's category announces. *)
Definition sign_matches (e : App.Explanation) : Prop :=
  if App.is_supports e then (0 < App.contribution e)%Q else (App.contribution e < 0)%Q.

(** A service with one bundle on disk, trained on the labels BUY and HOLD
    only, and three requests. *)
Module Service.

Definition cwd : string := "/srv/ml-service".

(** [os.path.abspath] for relative paths of the forms [name] and [./name]. *)
Definition sample_abspath (path : string) : string :=
  if String.prefix "/" path then path
  else if String.prefix "./" path
       then cwd +:+ "/" +:+ String.substring 2 (String.length path - 2) path
       else cwd +:+ "/" +:+ path.

Definition bundle_file : string := "/srv/ml-service/models/latest/model_bundle.joblib".

Definition sample_bundle : App.Bundle (F:=Q) :=
  {| App.feature_names := Some ["a"; "b"; "c"];
     App.scaler := fun x => Ok x;
     App.model := fun _ => Ok [7 # 10; 3 # 10]%Q;
     App.label_encoder := ["BUY"; "HOLD"];
     App.metadata := None;
     App.lightgbm := None |}.

Definition disk : App.FileSystem (F:=Q) :=
  {| App.abspath := sample_abspath;
     App.files := {[ bundle_file := App.Pickled sample_bundle ]} |}.

Definition empty_disk : App.FileSystem (F:=Q) :=
  {| App.abspath := sample_abspath; App.files := ∅ |}.

(** A fresh process with the bundle on disk. *)
Definition fresh : App.Process (F:=Q) :=
  {| App.fs := disk; App.environ := ∅;
     App.DEFAULT_MODEL_PATH := "./models/latest/model_bundle.joblib";
     App.model_bundles := ∅; App.shap_explainers := ∅; App.io_log := [] |}.

(** A fresh process without any bundle file. *)
Definition cold : App.Process (F:=Q) :=
  {| App.fs := empty_disk; App.environ := ∅;
     App.DEFAULT_MODEL_PATH := "./models/latest/model_bundle.joblib";
     App.model_bundles := ∅; App.shap_explainers := ∅; App.io_log := [] |}.

(** A process that loaded the bundle before its file was removed. *)
Definition stale : App.Process (F:=Q) :=
  {| App.fs := empty_disk; App.environ := ∅;
     App.DEFAULT_MODEL_PATH := "./models/latest/model_bundle.joblib";
     App.model_bundles := {[ "./models/latest/model_bundle.joblib" := sample_bundle ]};
     App.shap_explainers := {[ "./models/latest/model_bundle.joblib" := None ]};
     App.io_log := [App.FileRead bundle_file] |}.

Definition three_values : App.Request (F:=Q) :=
  {| App.features := Some [1; 2; 3]%Q; App.featureNames := None |}.

Definition two_names_three_values : App.Request (F:=Q) :=
  {| App.features := Some [1; 2; 3]%Q; App.featureNames := Some ["a"; "b"] |}.

Definition no_names_three_values : App.Request (F:=Q) :=
  {| App.features := Some [1; 2; 3]%Q; App.featureNames := Some [] |}.

Definition no_values : App.Request (F:=Q) :=
  {| App.features := Some []; App.featureNames := None |}.

End Service.

(** A probability. *)
Definition in_unit (q : Q) : Prop := (0 <= q <= 1)%Q.

(** The classifier of a bundle is calibrated when every vector it returns
    consists of probabilities; a process is, when every bundle it holds or
    can load is. *)
Definition calibrated (b : App.Bundle (F:=Q)) : Prop :=
  forall x probs, App.model b x = Ok probs -> Forall in_unit probs.

Definition calibrated_process (p : App.Process (F:=Q)) : Prop :=
  (forall k b, App.model_bundles p !! k = Some b -> calibrated b) /\
  (forall k b, App.files (App.fs p) !! k = Some (App.Pickled b) -> calibrated b).

(** Bundles with a LightGBM base model, for the explainer. *)
Module Explained.

Definition explainer : App.Explainer (F:=Q) :=
  {| App.shap_values := fun _ =>
       Ok (App.ShapList [[[1 # 2; -1 # 4; 0]]; [[-1 # 2; 1 # 4; 0]]]%Q);
     App.expected_value := App.ExpectedList [1 # 10; 2 # 10]%Q |}.

(** An explainer whose [shap_values] raises. *)
Definition failing_explainer : App.Explainer (F:=Q) :=
  {| App.shap_values := fun _ => Raise (LibraryError "shap_values");
     App.expected_value := App.ExpectedNone |}.

Definition with_lightgbm (outcome : Result (App.Explainer (F:=Q))) : App.Bundle (F:=Q) :=
  {| App.feature_names := App.feature_names Service.sample_bundle;
     App.scaler := App.scaler Service.sample_bundle;
     App.model := App.model Service.sample_bundle;
     App.label_encoder := App.label_encoder Service.sample_bundle;
     App.metadata := Some {[ "accuracyRange" := "80-85%" ]};
     App.lightgbm := Some outcome |}.

(** A fresh process whose bundle file holds the given bundle. *)
Definition fresh_with (b : App.Bundle (F:=Q)) : App.Process (F:=Q) :=
  {| App.fs := {| App.abspath := Service.sample_abspath;
                  App.files := {[ Service.bundle_file := App.Pickled b ]} |};
     App.environ := ∅;
     App.DEFAULT_MODEL_PATH := "./models/latest/model_bundle.joblib";
     App.model_bundles := ∅; App.shap_explainers := ∅; App.io_log := [] |}.

(** A fresh process whose bundle file cannot be unpickled. *)
Definition corrupt : App.Process (F:=Q) :=
  {| App.fs := {| App.abspath := Service.sample_abspath;
                  App.files := {[ Service.bundle_file := App.Unreadable ]} |};
     App.environ := ∅;
     App.DEFAULT_MODEL_PATH := "./models/latest/model_bundle.joblib";
     App.model_bundles := ∅; App.shap_explainers := ∅; App.io_log := [] |}.

(** The process after it has loaded a bundle whose explainer was built. *)
Definition warm (explainer : App.Explainer (F:=Q)) : App.Process (F:=Q) :=
  (App.load_model "./models/latest/model_bundle.joblib"
     (fresh_with (with_lightgbm (Ok explainer)))).2.

End Explained.

(** A prediction with the two explainer fields cleared. *)
Definition without_explanations {F : Type} `{PyNum F}
    (r : App.Prediction (F:=F)) : App.Prediction (F:=F) :=
  {| App.signal := App.signal r;
     App.probability := App.probability r;
     App.confidence := App.confidence r;
     App.accuracyRange := App.accuracyRange r;
     App.explanations := [];
     App.probabilities := App.probabilities r;
     App.shap := None |}.

(** The scenario's rows with a column the simulator does not read, and its
    predictions followed by one more. *)
Module Wider.

Definition rows : list (gmap string Q) :=
  map (fun row => <["binance_volume" := (5 # 1)%Q]> row)
      (Scenario.rows_Q None None None None).
Definition predictions : list string := Scenario.predictions ++ ["BUY"].

(** Three rows with predictions that open no position; the second is a
    lower-case spelling, which the simulator does not recognise. *)
Definition flat_predictions : list string := ["HOLD"; "buy"; "HOLD"].

End Wider.

(** A frame of five rows, one per day, the third without a timestamp. *)
Module Ticks.

Definition day : Z := 24 * 60 * 60 * 1000.

Definition tick (d : Z) : gmap string Q :=
  {[ "timestamp" := inject_Z (1704067200000 + d * day); "binance_close" := 40000%Q ]}.

Definition frame : Window.DataFrame Q :=
  {| Window.columns := ["timestamp"; "binance_close"];
     Window.rows := [tick 0; tick 1; {[ "binance_close" := 40000%Q ]}; tick 3; tick 4] |}.

End Ticks.

(** A probability, in binary64. *)
Definition in_unit_binary64 (x : float) : Prop :=
  (0 <=? x)%float = true /\ (x <=? 1)%float = true.

(** The same capability of the classifier, for the bundles of a service
    that runs on binary64. *)
Definition calibrated_binary64 (b : App.Bundle (F:=float)) : Prop :=
  forall x probs, App.model b x = Ok probs -> Forall in_unit_binary64 probs.

Definition calibrated_process_binary64 (p : App.Process (F:=float)) : Prop :=
  (forall k b, App.model_bundles p !! k = Some b -> calibrated_binary64 b) /\
  (forall k b, App.files (App.fs p) !! k = Some (App.Pickled b) -> calibrated_binary64 b).

(** The service of [Service] on binary64: the classifier returns the
    probabilities 0.7 and 0.3. *)
Module Service64.

Definition sample_bundle : App.Bundle (F:=float) :=
  {| App.feature_names := Some ["a"; "b"; "c"];
     App.scaler := fun x => Ok x;
     App.model := fun _ => Ok [0.7; 0.3]%float;
     App.label_encoder := ["BUY"; "HOLD"];
     App.metadata := None;
     App.lightgbm := None |}.

Definition fresh : App.Process (F:=float) :=
  {| App.fs := {| App.abspath := Service.sample_abspath;
                  App.files := {[ Service.bundle_file := App.Pickled sample_bundle ]} |};
     App.environ := ∅;
     App.DEFAULT_MODEL_PATH := "./models/latest/model_bundle.joblib";
     App.model_bundles := ∅; App.shap_explainers := ∅; App.io_log := [] |}.

Definition three_values : App.Request (F:=float) :=
  {| App.features := Some [1; 2; 3]%float; App.featureNames := None |}.

End Service64.

(** Two BUY rows without costs, the second with a NaN in its
    [max_future_return]. *)
Module NaNReturn.

Definition rows : list (gmap string float) :=
  [Scenario.row_of (Some 0.02%float) None; Scenario.row_of (Some PrimFloat.nan) None].
Definition predictions : list string := ["BUY"; "BUY"].

End NaNReturn.

(* ===================================================================== *)
(** * Proofs *)
(* ===================================================================== *)

(** ** The error monad and list helpers *)

Lemma py_last_snoc {A} (xs : list A) (x : A) : py_last (xs ++ [x]) = Ok x.
Proof. unfold py_last. by rewrite last_snoc. Qed.

Lemma py_index_lookup {A} (xs : list A) (i : nat) (x : A) :
  xs !! i = Some x -> py_index xs i = Ok x.
Proof. unfold py_index. by intros ->. Qed.

Lemma running_total_length {F} `{PyNum F} (e0 : F) (xs : list F) :
  length (running_total e0 xs) = length xs.
Proof. revert e0. induction xs as [|x xs IH]; intros e0; simpl; [done|]. by rewrite IH. Qed.

Lemma running_total_step {F} `{PyNum F} (e0 : F) (xs : list F) (k : nat) (e x : F) :
  (e0 :: running_total e0 xs) !! k = Some e ->
  xs !! k = Some x ->
  (e0 :: running_total e0 xs) !! S k = Some (fadd e x).
Proof.
  revert e0 k. induction xs as [|y xs IH]; intros e0 k He Hx; [done|].
  destruct k as [|k]; simpl in *.
  - by simplify_eq.
  - by apply IH.
Qed.

(** ** backtest.py: the loop *)

Section trade_loop.
Context {F : Type} `{PyNum F}.
Implicit Types (df : list (gmap string F)) (predictions : list string).

Lemma trade_loop_unfold df i predictions fee slippage funding curve e0 trades :
  (i + length df <= length predictions)%nat ->
  last curve = Some e0 ->
  Backtest.trade_loop df i predictions fee slippage funding curve trades =
  Ok (curve ++ running_total e0
                 (map Backtest.pnl (trades_of df (drop i predictions) fee slippage funding)),
      trades ++ trades_of df (drop i predictions) fee slippage funding).
Proof.
  revert i curve e0 trades.
  induction df as [|row df IH]; intros i curve e0 trades Hlen Hlast; simpl.
  - unfold trades_of. simpl. by rewrite !app_nil_r.
  - simpl in Hlen.
    destruct (lookup_lt_is_Some_2 predictions i) as [pred Hpred]; [lia|].
    rewrite (py_index_lookup _ _ _ Hpred). simpl.
    unfold py_last. rewrite Hlast. simpl.
    rewrite (IH (S i) _ (fadd e0 (Backtest.row_pnl row pred fee slippage funding)));
      [|lia|by rewrite last_snoc].
    rewrite (drop_S _ _ _ Hpred). unfold trades_of. simpl.
    by rewrite <- !app_assoc.
Qed.

Lemma trades_of_length df predictions fee slippage funding :
  (length df <= length predictions)%nat ->
  length (trades_of df predictions fee slippage funding) = length df.
Proof. intros Hlen. unfold trades_of. rewrite length_zip_with. lia. Qed.

Lemma trades_of_lookup df predictions fee slippage funding i row pred :
  df !! i = Some row -> predictions !! i = Some pred ->
  trades_of df predictions fee slippage funding !! i =
  Some {| Backtest.pnl := Backtest.row_pnl row pred fee slippage funding;
          Backtest.direction := pred |}.
Proof. intros Hrow Hpred. unfold trades_of. rewrite lookup_zip_with, Hrow. simpl. by rewrite Hpred. Qed.

(** The loop never raises when there is a prediction for every row. *)
Lemma trade_loop_parallel df predictions fee slippage funding :
  (length df <= length predictions)%nat ->
  Backtest.trade_loop df 0 predictions fee slippage funding [of_int 0] [] =
  Ok (of_int 0 :: running_total (of_int 0)
                    (map Backtest.pnl (trades_of df predictions fee slippage funding)),
      trades_of df predictions fee slippage funding).
Proof.
  intros Hlen.
  rewrite (trade_loop_unfold df 0 predictions fee slippage funding [of_int 0] (of_int 0) []);
    [|lia|done].
  by rewrite drop_0.
Qed.

Lemma row_pnl_cases (row : gmap string F) pred fee slippage funding :
  let cost := fdiv (fadd (fadd fee slippage) funding) (of_int 10000) in
  (pred = "BUY" ->
     Backtest.row_pnl row pred fee slippage funding =
     fsub (default (of_int 0) (row !! "max_future_return")) cost) /\
  (pred = "SELL" ->
     Backtest.row_pnl row pred fee slippage funding =
     fsub (fabs (default (of_int 0) (row !! "min_future_return"))) cost) /\
  (pred <> "BUY" -> pred <> "SELL" ->
     Backtest.row_pnl row pred fee slippage funding = fsub (of_int 0) cost).
Proof.
  intros cost. unfold Backtest.row_pnl, Backtest.row_get. repeat split.
  - intros ->. reflexivity.
  - intros ->. reflexivity.
  - intros Hb Hs.
    destruct (String.eqb_spec pred "BUY"); [done|].
    destruct (String.eqb_spec pred "SELL"); done.
Qed.

End trade_loop.

(** C1. With a prediction for every row, the loop returns one trade per
    row; each carries that row's prediction and its PnL net of the flat cost
    [(fee + slippage + funding) / 10000]: the row's
    [max_future_return] (0 when the column is absent) for BUY, the absolute
    value of its [min_future_return] (0 when absent) for SELL, and 0 for any
    other prediction; the cost is subtracted in all three cases.  The
    statement holds for both number instances. *)
Theorem row_pnl_by_prediction {F : Type} `{PyNum F}
    (df : list (gmap string F)) (predictions : list string) (fee slippage funding : F) :
  (length df <= length predictions)%nat ->
  exists curve trades,
    Backtest.trade_loop df 0 predictions fee slippage funding [of_int 0] [] = Ok (curve, trades) /\
    length trades = length df /\
    forall i row, df !! i = Some row ->
      exists pred t,
        predictions !! i = Some pred /\ trades !! i = Some t /\
        Backtest.direction t = pred /\
        let cost := fdiv (fadd (fadd fee slippage) funding) (of_int 10000) in
        (pred = "BUY" ->
           Backtest.pnl t = fsub (default (of_int 0) (row !! "max_future_return")) cost) /\
        (pred = "SELL" ->
           Backtest.pnl t = fsub (fabs (default (of_int 0) (row !! "min_future_return"))) cost) /\
        (pred <> "BUY" -> pred <> "SELL" -> Backtest.pnl t = fsub (of_int 0) cost).
Proof.
  intros Hlen. eexists _, _. split; [by apply trade_loop_parallel|].
  split; [by apply trades_of_length|].
  intros i row Hrow.
  destruct (lookup_lt_is_Some_2 predictions i) as [pred Hpred].
  { apply lookup_lt_Some in Hrow. lia. }
  exists pred, {| Backtest.pnl := Backtest.row_pnl row pred fee slippage funding;
                  Backtest.direction := pred |}.
  split; [done|]. split; [by apply trades_of_lookup|]. split; [done|].
  apply row_pnl_cases.
Qed.

Lemma row_pnl_by_prediction_witness :
  exists curve trades,
    Backtest.trade_loop (Scenario.rows_float None None None None) 0 Scenario.predictions
      Scenario.fee_float Scenario.slippage_float Scenario.funding_float [of_int 0] [] =
      Ok (curve, trades) /\
    length trades = 3%nat.
Proof.
  destruct (row_pnl_by_prediction (Scenario.rows_float None None None None)
              Scenario.predictions Scenario.fee_float Scenario.slippage_float
              Scenario.funding_float ltac:(simpl; lia))
    as (curve & trades & Hloop & Hlen & _).
  exists curve, trades. split; [exact Hloop | exact Hlen].
Defined.

(** ** Exact arithmetic: the operations of [Q_PyNum] *)

Lemma Qltb_lt (a b : Q) : Qltb a b = true <-> (a < b)%Q.
Proof.
  unfold Qltb. rewrite negb_true_iff, <- not_true_iff_false, Qle_bool_iff.
  split; [apply Qnot_le_lt | apply Qlt_not_le].
Qed.

Lemma Qltb_ge (a b : Q) : Qltb a b = false <-> (b <= a)%Q.
Proof. unfold Qltb. by rewrite negb_false_iff, Qle_bool_iff. Qed.

Lemma Qle_bool_gt (a b : Q) : Qle_bool a b = false <-> (b < a)%Q.
Proof.
  rewrite <- not_true_iff_false, Qle_bool_iff.
  split; [apply Qnot_le_lt | apply Qlt_not_le].
Qed.

Lemma np_maximum_Q (a b : Q) : np_maximum a b = if Qle_bool b a then a else b.
Proof. unfold np_maximum. simpl. by rewrite orb_false_r. Qed.

Lemma np_minimum_Q (a b : Q) : np_minimum a b = if Qle_bool a b then a else b.
Proof. unfold np_minimum. simpl. by rewrite orb_false_r. Qed.

(** The running maximum dominates the start value and every element seen
    so far, and is one of them. *)
Lemma accumulate_from_lookup (xs : list Q) (acc : Q) (i : nat) (p : Q) :
  accumulate_from acc xs !! i = Some p ->
  (acc <= p)%Q /\
  (forall j x, (j <= i)%nat -> xs !! j = Some x -> (x <= p)%Q) /\
  (p = acc \/ exists j, (j <= i)%nat /\ xs !! j = Some p).
Proof.
  revert acc i. induction xs as [|y xs IH]; intros acc i Hp; [done|].
  simpl in Hp. rewrite np_maximum_Q in Hp.
  destruct i as [|i]; simpl in Hp.
  - injection Hp as <-.
    destruct (Qle_bool y acc) eqn:Hle.
    + apply Qle_bool_iff in Hle. split; [lra|]. split; [|by left].
      intros j x Hj Hx. assert (j = 0)%nat as -> by lia. simpl in Hx. injection Hx as <-. done.
    + apply Qle_bool_gt in Hle. split; [lra|]. split.
      * intros j x Hj Hx. assert (j = 0)%nat as -> by lia. simpl in Hx. injection Hx as <-. lra.
      * right. exists 0%nat. split; [lia|done].
  - apply IH in Hp as (Hacc & Hub & Hmem).
    destruct (Qle_bool y acc) eqn:Hle.
    + apply Qle_bool_iff in Hle. split; [done|]. split.
      * intros [|j] x Hj Hx; simpl in Hx.
        -- injection Hx as <-. lra.
        -- apply (Hub j); [lia|done].
      * destruct Hmem as [->|(j & Hj & Hx)]; [by left|].
        right. exists (S j). split; [lia|done].
    + apply Qle_bool_gt in Hle. split; [lra|]. split.
      * intros [|j] x Hj Hx; simpl in Hx.
        -- by injection Hx as <-.
        -- apply (Hub j); [lia|done].
      * right. destruct Hmem as [->|(j & Hj & Hx)].
        -- exists 0%nat. split; [lia|done].
        -- exists (S j). split; [lia|done].
Qed.

Lemma np_maximum_accumulate_lookup (xs : list Q) (i : nat) (p : Q) :
  np_maximum_accumulate xs !! i = Some p ->
  (forall j x, (j <= i)%nat -> xs !! j = Some x -> (x <= p)%Q) /\
  (exists j, (j <= i)%nat /\ xs !! j = Some p).
Proof.
  destruct xs as [|x0 xs]; [done|]. simpl.
  destruct i as [|i]; simpl.
  - intros [= <-]. split.
    + intros j x Hj Hx. assert (j = 0)%nat as -> by lia. simpl in Hx. injection Hx as <-. lra.
    + exists 0%nat. split; [lia|done].
  - intros (Hacc & Hub & Hmem)%accumulate_from_lookup. split.
    + intros [|j] x Hj Hx; simpl in Hx.
      * by injection Hx as <-.
      * apply (Hub j); [lia|done].
    + destruct Hmem as [->|(j & Hj & Hx)].
      * exists 0%nat. split; [lia|done].
      * exists (S j). split; [lia|done].
Qed.

Lemma np_maximum_accumulate_length {F} `{PyNum F} (xs : list F) :
  length (np_maximum_accumulate xs) = length xs.
Proof.
  destruct xs as [|x xs]; [done|]. simpl. f_equal.
  generalize x. induction xs as [|y xs IH]; intros acc; simpl; [done|]. by rewrite IH.
Qed.

(** The reduction with [np.minimum] returns an element below all others. *)
Lemma fold_np_minimum_spec (rest : list Q) (x : Q) :
  ((fold_left np_minimum rest x <= x)%Q /\
   Forall (fun y => (fold_left np_minimum rest x <= y)%Q) rest) /\
  (fold_left np_minimum rest x = x \/ fold_left np_minimum rest x ∈ rest).
Proof.
  revert x. induction rest as [|y rest IH]; intros x; simpl.
  - split; [split; [lra|constructor]|by left].
  - rewrite np_minimum_Q.
    destruct (Qle_bool x y) eqn:Hle.
    + apply Qle_bool_iff in Hle.
      destruct (IH x) as ((Hx & Hall) & Hmem).
      split; [split; [done|constructor; [lra|done]]|].
      destruct Hmem as [->|Hin]; [by left|]. right. by apply list_elem_of_further.
    + apply Qle_bool_gt in Hle.
      destruct (IH y) as ((Hy & Hall) & Hmem).
      split; [split; [lra|constructor; done]|].
      right. destruct Hmem as [->|Hin]; [apply list_elem_of_here | by apply list_elem_of_further].
Qed.

Lemma np_min_spec (xs : list Q) (m : Q) :
  np_min xs = Ok m -> Forall (fun y => (m <= y)%Q) xs /\ m ∈ xs.
Proof.
  destruct xs as [|x rest]; [done|]. simpl. intros [= <-].
  destruct (fold_np_minimum_spec rest x) as ((Hx & Hall) & Hmem).
  split; [by constructor|].
  destruct Hmem as [->|Hin]; [apply list_elem_of_here | by apply list_elem_of_further].
Qed.

(** The minimum of [equity - running peak]: a lower bound of every
    [e_i - e_j] with [j <= i], attained by one of them. *)
Lemma drawdown_min_spec (curve : list Q) (md : Q) :
  np_min (zip_with Qminus curve (np_maximum_accumulate curve)) = Ok md ->
  (forall i j ei ej, (j <= i)%nat -> curve !! i = Some ei -> curve !! j = Some ej ->
     (md <= ei - ej)%Q) /\
  (exists i j ei ej, (j <= i)%nat /\ curve !! i = Some ei /\ curve !! j = Some ej /\
     md = (ei - ej)%Q).
Proof.
  intros (Hall & Hmem)%np_min_spec. split.
  - intros i j ei ej Hji Hi Hj.
    destruct (lookup_lt_is_Some_2 (np_maximum_accumulate curve) i) as [pk Hpk].
    { rewrite np_maximum_accumulate_length. by eapply lookup_lt_Some. }
    rewrite Forall_lookup in Hall.
    assert (zip_with Qminus curve (np_maximum_accumulate curve) !! i = Some (ei - pk)%Q) as Hd.
    { rewrite lookup_zip_with, Hi. simpl. by rewrite Hpk. }
    apply Hall in Hd.
    apply np_maximum_accumulate_lookup in Hpk as (Hub & _).
    specialize (Hub j ej Hji Hj). lra.
  - apply list_elem_of_lookup in Hmem as (i & Hd).
    rewrite lookup_zip_with in Hd.
    destruct (curve !! i) as [ei|] eqn:Hi; [|done]. simpl in Hd.
    destruct (np_maximum_accumulate curve !! i) as [pk|] eqn:Hpk; [|done]. simpl in Hd.
    injection Hd as <-.
    apply np_maximum_accumulate_lookup in Hpk as (_ & j & Hji & Hj).
    by exists i, j, ei, pk.
Qed.

(** ** backtest.py: the summary *)

Section summary.
Context {F : Type} `{PyNum F}.

Lemma simulate_trades_parallel (df : list (gmap string F)) (predictions : list string)
    (fee slippage funding : F) :
  (length df <= length predictions)%nat ->
  let trades := trades_of df predictions fee slippage funding in
  let curve := of_int 0 :: running_total (of_int 0) (map Backtest.pnl trades) in
  Backtest.simulate_trades df predictions fee slippage funding =
  (let! max_drawdown := np_min (zip_with fsub curve (np_maximum_accumulate curve)) in
   let! total_pnl := py_last curve in
   Ok {| Backtest.profitFactor :=
           fdiv (py_sum (map Backtest.pnl
                           (filter (fun t => fltb (of_int 0) (Backtest.pnl t)) trades)))
                (py_or (fabs (py_sum (map Backtest.pnl
                           (filter (fun t => fltb (Backtest.pnl t) (of_int 0)) trades))))
                       lit_1e_9);
         Backtest.maxDrawdown := max_drawdown;
         Backtest.totalPnl := total_pnl;
         Backtest.equityCurve := curve |}).
Proof.
  intros Hlen trades curve. unfold Backtest.simulate_trades.
  by rewrite trade_loop_parallel.
Qed.

Lemma py_last_cons (x : F) (xs : list F) : exists y, py_last (x :: xs) = Ok y.
Proof.
  unfold py_last. destruct (last (x :: xs)) as [y|] eqn:Hlast; [by exists y|].
  by apply last_None in Hlast.
Qed.

Lemma np_min_cons (x : F) (xs : list F) : exists m, np_min (x :: xs) = Ok m.
Proof. simpl. eauto. Qed.

(** With a prediction for every row the simulator returns a summary whose
    curve is the running total of the trades' PnL. *)
Lemma simulate_trades_returns (df : list (gmap string F)) (predictions : list string)
    (fee slippage funding : F) :
  (length df <= length predictions)%nat ->
  exists s,
    Backtest.simulate_trades df predictions fee slippage funding = Ok s /\
    Backtest.equityCurve s =
      of_int 0 :: running_total (of_int 0)
        (map Backtest.pnl (trades_of df predictions fee slippage funding)) /\
    np_min (zip_with fsub (Backtest.equityCurve s)
              (np_maximum_accumulate (Backtest.equityCurve s))) =
      Ok (Backtest.maxDrawdown s) /\
    Backtest.profitFactor s =
      fdiv (py_sum (map Backtest.pnl
              (filter (fun t => fltb (of_int 0) (Backtest.pnl t))
                      (trades_of df predictions fee slippage funding))))
           (py_or (fabs (py_sum (map Backtest.pnl
              (filter (fun t => fltb (Backtest.pnl t) (of_int 0))
                      (trades_of df predictions fee slippage funding)))))
                  lit_1e_9).
Proof.
  intros Hlen. rewrite simulate_trades_parallel by done.
  set (curve := of_int 0 :: running_total _ _).
  destruct (np_min_cons (fsub (of_int 0) (of_int 0))
              (zip_with fsub (running_total (of_int 0)
                 (map Backtest.pnl (trades_of df predictions fee slippage funding)))
                 (accumulate_from (of_int 0) (running_total (of_int 0)
                    (map Backtest.pnl (trades_of df predictions fee slippage funding))))))
    as [md Hmd].
  change (np_min (zip_with fsub curve (np_maximum_accumulate curve)) = Ok md) in Hmd.
  destruct (py_last_cons (of_int 0) (running_total (of_int 0)
              (map Backtest.pnl (trades_of df predictions fee slippage funding))))
    as [total Htotal].
  change (py_last curve = Ok total) in Htotal.
  rewrite Hmd, Htotal. simpl. eexists. split; [reflexivity|]. simpl. done.
Qed.

(** With fewer predictions than rows, [predictions[i]] raises. *)
Lemma trade_loop_short (df : list (gmap string F)) (i : nat) (predictions : list string)
    (fee slippage funding : F) (curve : list F) (e0 : F)
    (trades : list (Backtest.TradeResult F)) :
  (i <= length predictions)%nat -> (length predictions < i + length df)%nat ->
  last curve = Some e0 ->
  Backtest.trade_loop df i predictions fee slippage funding curve trades = Raise IndexError.
Proof.
  revert i curve e0 trades.
  induction df as [|row df IH]; intros i curve e0 trades Hi Hshort Hlast; simpl in *; [lia|].
  unfold py_index. destruct (predictions !! i) as [pred|] eqn:Hpred; simpl; [|done].
  unfold py_last. rewrite Hlast. simpl.
  apply lookup_lt_Some in Hpred.
  eapply IH; [lia|lia|by rewrite last_snoc].
Qed.

Lemma simulate_trades_short (df : list (gmap string F)) (predictions : list string)
    (fee slippage funding : F) :
  (length predictions < length df)%nat ->
  Backtest.simulate_trades df predictions fee slippage funding = Raise IndexError.
Proof.
  intros Hshort. unfold Backtest.simulate_trades.
  by rewrite (trade_loop_short df 0 predictions fee slippage funding [of_int 0] (of_int 0) [])
    by (simpl; lia || done).
Qed.

(** The shape of the equity curve, for both number instances: one entry
    more than there are rows, the first one 0, each next one the previous
    plus the row's net PnL. *)
Lemma equity_curve_shape (df : list (gmap string F)) (predictions : list string)
    (fee slippage funding : F) (s : Backtest.Summary F) :
  (length df <= length predictions)%nat ->
  Backtest.simulate_trades df predictions fee slippage funding = Ok s ->
  length (Backtest.equityCurve s) = (length df + 1)%nat /\
  Backtest.equityCurve s !! 0%nat = Some (of_int 0) /\
  (forall i row pred e,
     df !! i = Some row -> predictions !! i = Some pred ->
     Backtest.equityCurve s !! i = Some e ->
     Backtest.equityCurve s !! S i =
       Some (fadd e (Backtest.row_pnl row pred fee slippage funding))).
Proof.
  intros Hlen Hs.
  destruct (simulate_trades_returns df predictions fee slippage funding Hlen)
    as (s' & Hs' & Hcurve & _).
  rewrite Hs in Hs'. injection Hs' as <-.
  split.
  { rewrite Hcurve. simpl.
    rewrite running_total_length, length_map, trades_of_length by done. lia. }
  split; [by rewrite Hcurve|].
  intros i row pred e Hrow Hpred He. rewrite Hcurve in He |- *.
  apply running_total_step; [done|].
  by rewrite list_lookup_fmap, (trades_of_lookup _ _ _ _ _ _ _ _ Hrow Hpred).
Qed.

End summary.

(** The simulator in exact arithmetic, where there is neither rounding nor
    NaN.  With a prediction for every row (with fewer, [predictions[i]]
    raises [IndexError]) it returns a summary whose equity curve has one
    entry more than there are rows, starts at 0, and grows at each row by
    that row's net PnL; the reported maximum drawdown is the minimum of
    equity minus running peak (a lower bound of every [e_i - e_j] with
    [j <= i], attained by one of them), is not positive, and is 0 when the
    curve never decreases.  What holds of the binary64 run, where a NaN can
    arise, is proved with the binary64 lemmas further on. *)
Theorem equity_curve_and_drawdown_exact
    (df : list (gmap string Q)) (predictions : list string) (fee slippage funding : Q) :
  (length df <= length predictions)%nat ->
  exists s,
    Backtest.simulate_trades df predictions fee slippage funding = Ok s /\
    length (Backtest.equityCurve s) = (length df + 1)%nat /\
    Backtest.equityCurve s !! 0%nat = Some 0%Q /\
    (forall i row pred e,
       df !! i = Some row -> predictions !! i = Some pred ->
       Backtest.equityCurve s !! i = Some e ->
       Backtest.equityCurve s !! S i =
         Some (e + Backtest.row_pnl row pred fee slippage funding)%Q) /\
    (Backtest.maxDrawdown s <= 0)%Q /\
    (forall i j ei ej, (j <= i)%nat ->
       Backtest.equityCurve s !! i = Some ei -> Backtest.equityCurve s !! j = Some ej ->
       (Backtest.maxDrawdown s <= ei - ej)%Q) /\
    (exists i j ei ej, (j <= i)%nat /\
       Backtest.equityCurve s !! i = Some ei /\ Backtest.equityCurve s !! j = Some ej /\
       Backtest.maxDrawdown s = (ei - ej)%Q) /\
    ((forall i a b, Backtest.equityCurve s !! i = Some a ->
        Backtest.equityCurve s !! S i = Some b -> (a <= b)%Q) ->
     (Backtest.maxDrawdown s == 0)%Q).
Proof.
  intros Hlen.
  destruct (simulate_trades_returns df predictions fee slippage funding Hlen)
    as (s & Hs & Hcurve & Hmd & _).
  exists s. split; [done|].
  apply drawdown_min_spec in Hmd as (Hlow & Hatt).
  destruct (equity_curve_shape df predictions fee slippage funding s Hlen Hs)
    as (Hlength & H0 & Hstep).
  assert (Backtest.maxDrawdown s <= 0)%Q as Hneg.
  { specialize (Hlow 0%nat 0%nat 0%Q 0%Q (le_n 0) H0 H0). lra. }
  split; [done|]. split; [done|]. split; [exact Hstep|].
  split; [done|]. split; [done|]. split; [done|].
  intros Hmono.
  destruct Hatt as (i & j & ei & ej & Hji & Hi & Hj & Hmd).
  rewrite Hmd in Hneg |- *.
  assert (ej <= ei)%Q; [|lra].
  clear Hlow Hneg Hmd. revert ei Hi. induction Hji as [|i Hji IH]; intros ei Hi.
  - rewrite Hj in Hi. injection Hi as ->. lra.
  - destruct (lookup_lt_is_Some_2 (Backtest.equityCurve s) i) as [e' He'].
    { apply lookup_lt_Some in Hi. lia. }
    specialize (IH e' He'). specialize (Hmono i e' ei He' Hi). lra.
Qed.

Lemma equity_curve_and_drawdown_exact_witness :
  exists s,
    Backtest.simulate_trades (Scenario.rows_Q None None None None) Scenario.predictions
      Scenario.fee_Q Scenario.slippage_Q Scenario.funding_Q = Ok s /\
    length (Backtest.equityCurve s) = 4%nat /\
    (Backtest.maxDrawdown s <= 0)%Q.
Proof.
  destruct (equity_curve_and_drawdown_exact (Scenario.rows_Q None None None None)
              Scenario.predictions Scenario.fee_Q Scenario.slippage_Q Scenario.funding_Q
              ltac:(simpl; lia)) as (s & Hs & Hlen & _ & _ & Hneg & _).
  exists s. split; [exact Hs|]. split; [exact Hlen | exact Hneg].
Defined.

(** ** The three-row scenario *)

(** C2, as the code runs it.  In binary64, whatever the fields the scenario
    leaves open, the row PnLs are 0.01865, 0.02865, -0.00135 and the equity
    curve is 0, 0.01865, 0.0473, 0.04595 to five decimals, and the maximum
    drawdown is -0.00135 to five decimals: the last step falls below the
    peak.  In exact arithmetic the same values are reached exactly. *)
Theorem scenario_values (mx2 mx3 mn1 mn3 : option float) (mx2' mx3' mn1' mn3' : option Q) :
  (exists curve trades s,
     Backtest.trade_loop (Scenario.rows_float mx2 mx3 mn1 mn3) 0 Scenario.predictions
       Scenario.fee_float Scenario.slippage_float Scenario.funding_float [of_int 0] [] =
       Ok (curve, trades) /\
     Backtest.simulate_trades (Scenario.rows_float mx2 mx3 mn1 mn3) Scenario.predictions
       Scenario.fee_float Scenario.slippage_float Scenario.funding_float = Ok s /\
     all_close_5dp (map Backtest.pnl trades) Scenario.row_pnls = true /\
     all_close_5dp (Backtest.equityCurve s) Scenario.equity = true /\
     close_5dp (Backtest.maxDrawdown s) (-135 # 100000) = true) /\
  (exists curve trades s,
     Backtest.trade_loop (Scenario.rows_Q mx2' mx3' mn1' mn3') 0 Scenario.predictions
       Scenario.fee_Q Scenario.slippage_Q Scenario.funding_Q [of_int 0] [] =
       Ok (curve, trades) /\
     Backtest.simulate_trades (Scenario.rows_Q mx2' mx3' mn1' mn3') Scenario.predictions
       Scenario.fee_Q Scenario.slippage_Q Scenario.funding_Q = Ok s /\
     Forall2 Qeq (map Backtest.pnl trades) Scenario.row_pnls /\
     Forall2 Qeq (Backtest.equityCurve s) Scenario.equity /\
     (Backtest.maxDrawdown s == -135 # 100000)%Q).
Proof.
  split.
  - destruct mx2, mx3, mn1, mn3;
      (eexists _, _, _; split; [vm_compute; reflexivity|];
       split; [vm_compute; reflexivity|];
       split; [vm_compute; reflexivity|];
       split; vm_compute; reflexivity).
  - destruct mx2', mx3', mn1', mn3';
      (eexists _, _, _; split; [vm_compute; reflexivity|];
       split; [vm_compute; reflexivity|];
       split; [repeat constructor|];
       split; [repeat constructor|]; reflexivity).
Qed.

(** C2, as stated, fails: the maximum drawdown of the scenario is not 0 to
    five decimals, neither in binary64 nor in exact arithmetic. *)
Lemma scenario_drawdown_not_zero :
  ~ (exists s,
       Backtest.simulate_trades (Scenario.rows_float None None None None) Scenario.predictions
         Scenario.fee_float Scenario.slippage_float Scenario.funding_float = Ok s /\
       close_5dp (Backtest.maxDrawdown s) 0 = true) /\
  ~ (exists s,
       Backtest.simulate_trades (Scenario.rows_Q None None None None) Scenario.predictions
         Scenario.fee_Q Scenario.slippage_Q Scenario.funding_Q = Ok s /\
       close_5dp (Backtest.maxDrawdown s) 0 = true).
Proof.
  split; intros (s & Hs & Hclose); vm_compute in Hs; injection Hs as <-;
    vm_compute in Hclose; discriminate.
Qed.

(** ** The profit factor *)

Lemma fold_left_Qplus (xs : list Q) (a : Q) : (fold_left Qplus xs a == a + Qsum xs)%Q.
Proof.
  revert a. induction xs as [|x xs IH]; intros a; simpl.
  - lra.
  - rewrite IH. unfold Qsum. simpl. lra.
Qed.

Lemma py_sum_Qsum (xs : list Q) : (py_sum xs == Qsum xs)%Q.
Proof.
  unfold py_sum. change (fold_left Qplus xs 0 == Qsum xs)%Q.
  rewrite fold_left_Qplus. lra.
Qed.

Lemma Qsum_negative (xs : list Q) :
  Forall (fun x => (x < 0)%Q) xs -> xs <> [] -> (Qsum xs < 0)%Q.
Proof.
  induction 1 as [|x xs Hx Hall IH]; intros Hne; [done|].
  unfold Qsum. simpl. fold (Qsum xs).
  destruct xs as [|y ys].
  - unfold Qsum. simpl. lra.
  - assert (Qsum (y :: ys) < 0)%Q by (by apply IH). lra.
Qed.

Lemma map_pnl_filter {F} `{PyNum F} (P : F -> bool) (trades : list (Backtest.TradeResult F)) :
  map Backtest.pnl (filter (fun t => P (Backtest.pnl t)) trades) =
  filter (fun x => P x) (map Backtest.pnl trades).
Proof.
  induction trades as [|t trades IH]; [done|].
  simpl. rewrite !filter_cons.
  destruct (decide (P (Backtest.pnl t))); simpl; by rewrite IH.
Qed.

Lemma map_pnl_trades_of {F} `{PyNum F} (df : list (gmap string F))
    (predictions : list string) (fee slippage funding : F) :
  map Backtest.pnl (trades_of df predictions fee slippage funding) =
  row_pnls df predictions fee slippage funding.
Proof.
  unfold trades_of, row_pnls. revert predictions.
  induction df as [|row df IH]; intros [|pred predictions]; simpl; try done.
  by rewrite IH.
Qed.

Lemma row_pnls_lookup {F} `{PyNum F} (df : list (gmap string F))
    (predictions : list string) (fee slippage funding : F) (i : nat) row pred :
  df !! i = Some row -> predictions !! i = Some pred ->
  row_pnls df predictions fee slippage funding !! i =
  Some (Backtest.row_pnl row pred fee slippage funding).
Proof. intros Hrow Hpred. unfold row_pnls. rewrite lookup_zip_with, Hrow. simpl. by rewrite Hpred. Qed.

(** The denominator [abs(sum of losses) or 1e-9] in exact arithmetic. *)
Lemma losses_denominator (pnls : list Q) :
  (Forall (fun x => (0 <= x)%Q) pnls ->
     py_or (Qabs (py_sum (filter (fun x => Qltb x 0) pnls))) (1 # 1000000000)%Q =
     (1 # 1000000000)%Q) /\
  (Exists (fun x => (x < 0)%Q) pnls ->
     (losses_of pnls < 0)%Q /\
     py_or (Qabs (py_sum (filter (fun x => Qltb x 0) pnls))) (1 # 1000000000)%Q =
     Qabs (py_sum (filter (fun x => Qltb x 0) pnls))).
Proof.
  split.
  - intros Hall.
    assert (filter (fun x => Qltb x 0) pnls = []) as ->; [|reflexivity].
    induction Hall as [|x xs Hx Hall IH]; [done|].
    rewrite filter_cons_False; [done|].
    intros Hlt%Is_true_true%Qltb_lt. lra.
  - intros Hex.
    assert (losses_of pnls < 0)%Q as Hneg.
    { apply Qsum_negative.
      - apply Forall_forall. intros x [Hx%Is_true_true%Qltb_lt _]%list_elem_of_filter. done.
      - apply Exists_exists in Hex as (x & Hin & Hx).
        intros Hnil.
        assert (x ∈ filter (fun x => Qltb x 0) pnls) as Hx'.
        { apply list_elem_of_filter. split; [by apply Is_true_true, Qltb_lt | done]. }
        rewrite Hnil in Hx'. by apply not_elem_of_nil in Hx'. }
    split; [done|].
    unfold py_or, truthy.
    match goal with |- context [feqb ?a ?z] => destruct (feqb a z) eqn:Heq end; [|done].
    apply Qeq_bool_iff in Heq. change (of_int 0) with 0%Q in Heq.
    unfold losses_of in Hneg.
    rewrite <- py_sum_Qsum in Hneg.
    pose proof (Qabs_neg (py_sum (filter (fun x => Qltb x 0) pnls))) as Habs.
    rewrite Habs in Heq by lra. lra.
Qed.

Lemma profit_factor_Q (df : list (gmap string Q)) (predictions : list string)
    (fee slippage funding : Q) :
  (length df <= length predictions)%nat ->
  exists s,
    Backtest.simulate_trades df predictions fee slippage funding = Ok s /\
    Backtest.profitFactor s =
      (py_sum (filter (fun x => Qltb 0 x) (row_pnls df predictions fee slippage funding)) /
       py_or (Qabs (py_sum (filter (fun x => Qltb x 0)
                              (row_pnls df predictions fee slippage funding))))
             (1 # 1000000000))%Q.
Proof.
  intros Hlen.
  destruct (simulate_trades_returns df predictions fee slippage funding Hlen)
    as (s & Hs & _ & _ & Hpf).
  exists s. split; [done|]. rewrite Hpf.
  pose proof (map_pnl_filter (fun x => Qltb 0 x)
                (trades_of df predictions fee slippage funding)) as Hgain.
  pose proof (map_pnl_filter (fun x => Qltb x 0)
                (trades_of df predictions fee slippage funding)) as Hloss.
  rewrite map_pnl_trades_of in Hgain, Hloss.
  rewrite <- Hgain, <- Hloss. reflexivity.
Qed.

(** C7, as the code computes it.  The profit factor is the sum of the
    strictly positive row PnLs divided by a denominator that is the absolute
    value of the sum of the strictly negative row PnLs, replaced by [1e-9]
    exactly when that value is zero; in exact arithmetic this happens exactly
    when no row loses, so the division is always by a positive number. *)
Theorem profit_factor_value (df : list (gmap string Q)) (predictions : list string)
    (fee slippage funding : Q) :
  (length df <= length predictions)%nat ->
  exists s,
    Backtest.simulate_trades df predictions fee slippage funding = Ok s /\
    let pnls := row_pnls df predictions fee slippage funding in
    (forall i row pred, df !! i = Some row -> predictions !! i = Some pred ->
       pnls !! i = Some (Backtest.row_pnl row pred fee slippage funding)) /\
    (Backtest.profitFactor s ==
       gains_of pnls / (if Qeq_bool (Qabs (losses_of pnls)) 0
                        then 1 # 1000000000 else Qabs (losses_of pnls)))%Q /\
    (Forall (fun x => (0 <= x)%Q) pnls ->
       (Backtest.profitFactor s == gains_of pnls / (1 # 1000000000))%Q) /\
    (Exists (fun x => (x < 0)%Q) pnls ->
       (0 < Qabs (losses_of pnls))%Q /\
       (Backtest.profitFactor s == gains_of pnls / Qabs (losses_of pnls))%Q).
Proof.
  intros Hlen.
  destruct (profit_factor_Q df predictions fee slippage funding Hlen) as (s & Hs & Hpf).
  exists s. split; [done|]. intros pnls. fold pnls in Hpf.
  split; [intros i row pred; apply row_pnls_lookup|].
  assert (py_sum (filter (fun x => Qltb 0 x) pnls) == gains_of pnls)%Q as Hgains
    by apply py_sum_Qsum.
  assert (py_sum (filter (fun x => Qltb x 0) pnls) == losses_of pnls)%Q as Hlosses
    by apply py_sum_Qsum.
  destruct (losses_denominator pnls) as (Hnone & Hsome).
  assert (Forall (fun x => (0 <= x)%Q) pnls \/ Exists (fun x => (x < 0)%Q) pnls) as Hcases.
  { clear. induction pnls as [|x xs IH]; [left; constructor|].
    destruct (Qlt_le_dec x 0); [right; by constructor|].
    destruct IH; [left; by constructor | right; by constructor]. }
  assert (Forall (fun x => (0 <= x)%Q) pnls ->
          (Backtest.profitFactor s == gains_of pnls / (1 # 1000000000))%Q) as Hwin.
  { intros Hall. rewrite Hpf, (Hnone Hall), Hgains. reflexivity. }
  assert (Exists (fun x => (x < 0)%Q) pnls ->
          (0 < Qabs (losses_of pnls))%Q /\
          (Backtest.profitFactor s == gains_of pnls / Qabs (losses_of pnls))%Q) as Hlose.
  { intros Hex. destruct (Hsome Hex) as (Hneg & Hden).
    split.
    - rewrite Qabs_neg by lra. lra.
    - rewrite Hpf, Hden, Hgains, Hlosses. reflexivity. }
  split; [|split; done].
  destruct Hcases as [Hall|Hex].
  - rewrite (Hwin Hall).
    assert (losses_of pnls = 0%Q) as ->; [|reflexivity].
    unfold losses_of.
    assert (filter (fun x => Qltb x 0) pnls = []) as ->; [|reflexivity].
    clear -Hall. induction Hall as [|x xs Hx Hall IH]; [done|].
    rewrite filter_cons_False; [done|].
    intros Hlt%Is_true_true%Qltb_lt. lra.
  - destruct (Hlose Hex) as (Hpos & ->).
    destruct (Qeq_bool (Qabs (losses_of pnls)) 0) eqn:Heq; [|reflexivity].
    apply Qeq_bool_iff in Heq. lra.
Qed.

Lemma profit_factor_value_witness :
  exists s,
    Backtest.simulate_trades TinyLoss.rows TinyLoss.predictions 0%Q 0%Q 0%Q = Ok s /\
    (Backtest.profitFactor s ==
       gains_of (row_pnls TinyLoss.rows TinyLoss.predictions 0 0 0) /
       Qabs (losses_of (row_pnls TinyLoss.rows TinyLoss.predictions 0 0 0)))%Q.
Proof.
  destruct (profit_factor_value TinyLoss.rows TinyLoss.predictions 0%Q 0%Q 0%Q
              ltac:(simpl; lia))
    as (s & Hs & _ & _ & _ & Hlose).
  exists s. split; [exact Hs|].
  apply Hlose. right. left. vm_compute. reflexivity.
Defined.

(** C7, as stated, fails: no epsilon makes "the denominator floored to
    epsilon" agree with the code on both small backtests.  Without a losing
    row the code divides by [1e-9]; with losses summing to [-1e-10] it
    divides by [1e-10], below that epsilon. *)
Lemma profit_factor_not_floored :
  ~ exists eps : Q,
      (forall s,
         Backtest.simulate_trades TinyLoss.winning_rows TinyLoss.winning_predictions
           0%Q 0%Q 0%Q = Ok s ->
         (Backtest.profitFactor s ==
            profit_factor_floored eps
              (row_pnls TinyLoss.winning_rows TinyLoss.winning_predictions 0 0 0))%Q) /\
      (forall s,
         Backtest.simulate_trades TinyLoss.rows TinyLoss.predictions 0%Q 0%Q 0%Q = Ok s ->
         (Backtest.profitFactor s ==
            profit_factor_floored eps (row_pnls TinyLoss.rows TinyLoss.predictions 0 0 0))%Q).
Proof.
  intros (eps & Hwin & Hlose).
  assert (exists s,
            Backtest.simulate_trades TinyLoss.winning_rows TinyLoss.winning_predictions
              0%Q 0%Q 0%Q = Ok s /\ (Backtest.profitFactor s == 20000000 # 1)%Q)
    as (s1 & Hs1 & Hpf1)
    by (eexists; split; vm_compute; reflexivity).
  assert (exists s,
            Backtest.simulate_trades TinyLoss.rows TinyLoss.predictions 0%Q 0%Q 0%Q = Ok s /\
            (Backtest.profitFactor s == 200000000 # 1)%Q)
    as (s2 & Hs2 & Hpf2)
    by (eexists; split; vm_compute; reflexivity).
  specialize (Hwin s1 Hs1). specialize (Hlose s2 Hs2).
  rewrite Hpf1 in Hwin. rewrite Hpf2 in Hlose.
  unfold profit_factor_floored in Hwin, Hlose.
  remember (gains_of (row_pnls TinyLoss.winning_rows TinyLoss.winning_predictions 0%Q 0%Q 0%Q))
    as g1 eqn:Hg1.
  remember (Qabs (losses_of (row_pnls TinyLoss.winning_rows TinyLoss.winning_predictions 0%Q 0%Q 0%Q)))
    as l1 eqn:Hl1.
  remember (gains_of (row_pnls TinyLoss.rows TinyLoss.predictions 0%Q 0%Q 0%Q)) as g2 eqn:Hg2.
  remember (Qabs (losses_of (row_pnls TinyLoss.rows TinyLoss.predictions 0%Q 0%Q 0%Q)))
    as l2 eqn:Hl2.
  vm_compute in Hg1, Hl1, Hg2, Hl2. subst g1 l1 g2 l2.
  destruct (Qle_bool eps (0 # 1)) eqn:Hle1.
  { vm_compute in Hwin. discriminate. }
  apply Qle_bool_gt in Hle1.
  assert (eps == 1 # 1000000000)%Q as Heps.
  { match type of Hwin with (_ == ?g / _)%Q =>
      assert (g / eps * eps == g)%Q as Hmul by (field; lra) end.
    rewrite <- Hwin in Hmul. lra. }
  destruct (Qle_bool eps _) eqn:Hle2 in Hlose.
  { apply Qle_bool_iff in Hle2. lra. }
  match type of Hlose with (_ == ?g / _)%Q =>
    assert (g / eps * eps == g)%Q as Hmul by (field; lra) end.
  rewrite <- Hlose in Hmul. lra.
Qed.

(** ** app.py: feature alignment *)

Lemma build_index_map_snoc (names : list string) (n : string) :
  App.build_index_map (names ++ [n]) =
  <[n := Z.of_nat (length names)]> (App.build_index_map names).
Proof.
  unfold App.build_index_map. rewrite imap_app, fold_left_app. simpl.
  by rewrite Nat.add_0_r.
Qed.

(** The index map sends a name to its last position in the caller's list. *)
Lemma build_index_map_last (names : list string) (name : string) :
  name ∈ names ->
  exists idx, names !! idx = Some name /\
              (forall k, (idx < k)%nat -> names !! k <> Some name) /\
              App.build_index_map names !! name = Some (Z.of_nat idx).
Proof.
  induction names as [|n names IH] using rev_ind; intros Hin.
  - by apply elem_of_nil in Hin.
  - rewrite build_index_map_snoc.
    destruct (decide (n = name)) as [->|Hne].
    + exists (length names). split; [|split].
      * by rewrite lookup_app_r, Nat.sub_diag by lia.
      * intros k Hk. rewrite lookup_ge_None_2; [done|]. rewrite length_app. simpl. lia.
      * by rewrite lookup_insert_eq.
    + apply elem_of_app in Hin as [Hin|Hin%list_elem_of_singleton]; [|congruence].
      destruct (IH Hin) as (idx & Hidx & Hlast & Hmap).
      exists idx. split; [|split].
      * by rewrite lookup_app_l by (by eapply lookup_lt_Some).
      * intros k Hk Hsome.
        destruct (decide (k < length names)%nat) as [Hlt|Hge].
        -- rewrite lookup_app_l in Hsome by done. by apply (Hlast k).
        -- rewrite lookup_app_r in Hsome by lia.
           destruct (k - length names)%nat; simpl in Hsome; [congruence|done].
      * by rewrite lookup_insert_ne.
Qed.

Lemma build_index_map_absent (names : list string) (name : string) :
  name ∉ names -> App.build_index_map names !! name = None.
Proof.
  induction names as [|n names IH] using rev_ind; intros Hnin.
  - done.
  - rewrite build_index_map_snoc.
    rewrite not_elem_of_app in Hnin. destruct Hnin as (Hnin & Hn).
    rewrite lookup_insert_ne; [by apply IH|].
    intros ->. apply Hn. apply list_elem_of_here.
Qed.

Lemma last_occurrence_unique (names : list string) (name : string) (i j : nat) :
  names !! i = Some name -> (forall k, (i < k)%nat -> names !! k <> Some name) ->
  names !! j = Some name -> (forall k, (j < k)%nat -> names !! k <> Some name) ->
  i = j.
Proof.
  intros Hi Hlasti Hj Hlastj.
  destruct (lt_eq_lt_dec i j) as [[Hlt| ->]|Hgt]; [|done|].
  - by destruct (Hlasti j Hlt).
  - by destruct (Hlastj i Hgt).
Qed.

Lemma build_index_map_at_last (names : list string) (name : string) (idx : nat) :
  names !! idx = Some name ->
  (forall k, (idx < k)%nat -> names !! k <> Some name) ->
  App.build_index_map names !! name = Some (Z.of_nat idx).
Proof.
  intros Hidx Hlast.
  destruct (build_index_map_last names name) as (idx' & Hidx' & Hlast' & Hmap).
  { apply list_elem_of_lookup. eauto. }
  by rewrite (last_occurrence_unique names name idx idx').
Qed.

Lemma rmapM_Forall2 {A B} (f : A -> Result B) (l : list A) (ys : list B) :
  App.rmapM f l = Ok ys <-> Forall2 (fun x y => f x = Ok y) l ys.
Proof.
  revert ys. induction l as [|x l IH]; intros ys; simpl.
  - split; [intros [= <-]; constructor | by inversion 1].
  - split.
    + destruct (f x) as [y|e] eqn:Hy; simpl; [|done].
      destruct (App.rmapM f l) as [ys'|e] eqn:Hys; simpl; [|done].
      intros [= <-]. constructor; [done|]. by apply IH.
    + inversion 1 as [|? y ? ys' Hy Hrest]; subst.
      rewrite Hy. simpl. apply IH in Hrest. rewrite Hrest. done.
Qed.

Section align.
Context {F : Type} `{PyNum F}.

Lemma aligned_value_present (features : list F) (names : list string)
    (name : string) (idx : nat) (v : F) :
  App.build_index_map names !! name = Some (Z.of_nat idx) ->
  features !! idx = Some v ->
  App.aligned_value features (App.build_index_map names) name = Ok v.
Proof.
  intros Hmap Hv. unfold App.aligned_value. rewrite Hmap. simpl.
  destruct (Z.leb_spec 0 (Z.of_nat idx)); [|lia].
  rewrite Nat2Z.id. by apply py_index_lookup.
Qed.

Lemma aligned_value_absent (features : list F) (names : list string) (name : string) :
  name ∉ names ->
  App.aligned_value features (App.build_index_map names) name = Ok (of_int 0).
Proof.
  intros Hnin. unfold App.aligned_value. by rewrite (build_index_map_absent _ _ Hnin).
Qed.

Lemma align_features_named (features : list F) (n : string) (names : list string)
    (trained : list string) :
  App.align_features features (Some (n :: names)) trained =
  App.rmapM (App.aligned_value features (App.build_index_map (n :: names))) trained.
Proof. reflexivity. Qed.

Lemma align_features_returns (features : list F) (names trained : list string) :
  names <> [] -> length names = length features ->
  exists out,
    App.align_features features (Some names) trained = Ok out /\
    Forall2 (fun name v =>
               App.aligned_value features (App.build_index_map names) name = Ok v)
            trained out.
Proof.
  intros Hne Hlen. destruct names as [|n names]; [done|].
  rewrite align_features_named.
  assert (forall name, exists v,
            App.aligned_value features (App.build_index_map (n :: names)) name = Ok v) as Htotal.
  { intros name. destruct (decide (name ∈ n :: names)) as [Hin|Hnin].
    - destruct (build_index_map_last _ _ Hin) as (idx & Hidx & _ & Hmap).
      destruct (lookup_lt_is_Some_2 features idx) as [v Hv].
      { rewrite <- Hlen. by eapply lookup_lt_Some. }
      exists v. by eapply aligned_value_present.
    - eexists. by apply aligned_value_absent. }
  induction trained as [|t trained IH].
  - exists []. split; [done|constructor].
  - destruct IH as (out & Hout & Hall). destruct (Htotal t) as [v Hv].
    exists (v :: out). split; [|by constructor].
    simpl. rewrite Hv. simpl. rewrite Hout. done.
Qed.

End align.

(** C3. For a value list (not empty, as [predict] has checked before) and a
    name list of the same length, alignment returns one value per trained
    name, in the order of the trained names: the caller's value at a position
    carrying that name when the name is among the caller's names, and 0
    otherwise.  Without names ([None] or an empty list) the values are
    passed through unchanged. *)
Theorem alignment_follows_trained_names {F : Type} `{PyNum F}
    (features : list F) (names trained : list string) :
  features <> [] -> length names = length features ->
  (exists out,
     App.align_features features (Some names) trained = Ok out /\
     length out = length trained /\
     forall j name, trained !! j = Some name ->
       (name ∈ names ->
          exists idx v, names !! idx = Some name /\ features !! idx = Some v /\
                        out !! j = Some v) /\
       (name ∉ names -> out !! j = Some (of_int 0))) /\
  App.align_features features None trained = Ok features /\
  App.align_features features (Some []) trained = Ok features.
Proof.
  intros Hfeatures Hlen. split; [|done].
  assert (names <> []) as Hne by (intros ->; by destruct features).
  destruct (align_features_returns features names trained Hne Hlen) as (out & Hout & Hall).
  exists out. split; [done|]. split; [symmetry; by eapply Forall2_length|].
  intros j name Hj.
  destruct (Forall2_lookup_l _ _ _ _ _ Hall Hj) as (v & Hv & Hval).
  split.
  - intros Hin.
    destruct (build_index_map_last _ _ Hin) as (idx & Hidx & _ & Hmap).
    destruct (lookup_lt_is_Some_2 features idx) as [w Hw].
    { rewrite <- Hlen. by eapply lookup_lt_Some. }
    exists idx, w. split; [done|]. split; [done|].
    rewrite (aligned_value_present features names name idx w Hmap Hw) in Hval.
    by injection Hval as ->.
  - intros Hnin. rewrite (aligned_value_absent features names name Hnin) in Hval.
    by injection Hval as ->.
Qed.

Lemma alignment_follows_trained_names_witness :
  exists out,
    App.align_features Duplicates.features (Some Duplicates.names) Duplicates.trained = Ok out /\
    length out = 3%nat.
Proof.
  destruct (alignment_follows_trained_names Duplicates.features Duplicates.names
              Duplicates.trained ltac:(discriminate) eq_refl)
    as ((out & Hout & Hlen & _) & _).
  exists out. split; [exact Hout | exact Hlen].
Defined.

(** C10. The index map is built left to right, each entry overwriting an
    earlier one for the same name, so a name resolves to its last position
    in the caller's list: the aligned value of a trained name is the value at
    that position, whatever stands at its earlier positions. *)
Theorem alignment_takes_last_duplicate {F : Type} `{PyNum F}
    (features : list F) (names trained : list string) (out : list F)
    (j idx : nat) (name : string) :
  length names = length features ->
  App.align_features features (Some names) trained = Ok out ->
  trained !! j = Some name ->
  names !! idx = Some name ->
  (forall k, (idx < k)%nat -> names !! k <> Some name) ->
  (forall n, App.build_index_map (names ++ [n]) =
             <[n := Z.of_nat (length names)]> (App.build_index_map names)) /\
  App.build_index_map names !! name = Some (Z.of_nat idx) /\
  is_Some (features !! idx) /\
  out !! j = features !! idx.
Proof.
  intros Hlen Hout Hj Hidx Hlast.
  split; [intros n; apply build_index_map_snoc|].
  pose proof (build_index_map_at_last names name idx Hidx Hlast) as Hmap.
  split; [done|].
  destruct (lookup_lt_is_Some_2 features idx) as [v Hv].
  { rewrite <- Hlen. by eapply lookup_lt_Some. }
  split; [by exists v|].
  destruct names as [|n names]; [done|].
  rewrite align_features_named in Hout. apply rmapM_Forall2 in Hout.
  destruct (Forall2_lookup_l _ _ _ _ _ Hout Hj) as (w & Hw & Hval).
  rewrite (aligned_value_present features (n :: names) name idx v Hmap Hv) in Hval.
  injection Hval as <-. by rewrite Hw, Hv.
Qed.

Lemma alignment_takes_last_duplicate_witness :
  App.build_index_map Duplicates.names !! "a" = Some 2%Z /\
  [3; 2; 0]%Q !! 0%nat = Duplicates.features !! 2%nat.
Proof.
  destruct (@alignment_takes_last_duplicate Q Q_PyNum Duplicates.features Duplicates.names
              Duplicates.trained [3; 2; 0]%Q 0 2 "a" eq_refl
              ltac:(vm_compute; reflexivity) eq_refl eq_refl)
    as (_ & Hmap & _ & Hval).
  - intros k Hk. do 3 (destruct k as [|k]; [lia|]). simpl. discriminate.
  - split; [exact Hmap | exact Hval].
Defined.

(** ** app.py: the explanation ranker *)

Section sorting.
Context {F : Type} `{PyNum F}.

Lemma insert_desc_Permutation (x : string * F) (l : list (string * F)) :
  App.insert_desc x l ≡ₚ x :: l.
Proof.
  induction l as [|y l IH]; simpl; [done|].
  destruct (fltb (snd x) (snd y)); [|done].
  rewrite IH. apply Permutation_swap.
Qed.

Lemma sort_desc_Permutation (l : list (string * F)) : App.sort_desc l ≡ₚ l.
Proof.
  induction l as [|x l IH]; simpl; [done|].
  rewrite insert_desc_Permutation. by rewrite IH.
Qed.

Lemma format_explanations_render (feature_names : list string) (contributions : list F) :
  App.format_explanations feature_names contributions =
  map App.render (App.explanation_entries feature_names contributions).
Proof.
  unfold App.format_explanations, App.explanation_entries.
  change (map App.render) with (fmap (M:=list) App.render).
  rewrite fmap_take, fmap_app, <- !list_fmap_compose. reflexivity.
Qed.

Lemma top_positive_length (l : list (string * F)) : (length (App.top_positive l) <= 6)%nat.
Proof. unfold App.top_positive. rewrite length_take. lia. Qed.

Lemma explanation_entries_split (feature_names : list string) (contributions : list F) :
  let sorted := App.sorted_contribs feature_names contributions in
  App.explanation_entries feature_names contributions =
  map App.supports_of (App.top_positive sorted) ++
  map App.reduces_of (take (6 - length (App.top_positive sorted)) (App.top_negative sorted)).
Proof.
  intros sorted. unfold App.explanation_entries. fold sorted.
  rewrite take_app, length_map.
  rewrite take_ge by (rewrite length_map; apply top_positive_length).
  change (map (@App.reduces_of F)) with (fmap (M:=list) (@App.reduces_of F)).
  by rewrite fmap_take.
Qed.

End sorting.

Lemma by_contribution_desc_trans (x y z : string * Q) :
  by_contribution_desc x y -> by_contribution_desc y z -> by_contribution_desc x z.
Proof. unfold by_contribution_desc. lra. Qed.

Lemma insert_desc_sorted (x : string * Q) (l : list (string * Q)) :
  StronglySorted by_contribution_desc l ->
  StronglySorted by_contribution_desc (App.insert_desc x l).
Proof.
  induction 1 as [|y l Hsorted IH Hall]; simpl.
  - repeat constructor.
  - change (fltb (snd x) (snd y)) with (Qltb (snd x) (snd y)).
    destruct (Qltb (snd x) (snd y)) eqn:Hlt.
    + apply Qltb_lt in Hlt. constructor; [done|].
      rewrite insert_desc_Permutation. constructor; [|done].
      unfold by_contribution_desc. lra.
    + apply Qltb_ge in Hlt. constructor; [by constructor|].
      constructor; [done|].
      eapply Forall_impl; [exact Hall|].
      intros z Hz. by apply (by_contribution_desc_trans x y z).
Qed.

Lemma sort_desc_sorted (l : list (string * Q)) :
  StronglySorted by_contribution_desc (App.sort_desc l).
Proof.
  induction l as [|x l IH]; simpl; [constructor|]. by apply insert_desc_sorted.
Qed.

Lemma filter_sorted (P : string * Q -> Prop) `{!forall x, Decision (P x)}
    (l : list (string * Q)) :
  StronglySorted by_contribution_desc l ->
  StronglySorted by_contribution_desc (filter P l).
Proof.
  induction 1 as [|y l Hsorted IH Hall]; [constructor|].
  rewrite filter_cons. destruct (decide (P y)); [|done].
  constructor; [done|].
  apply Forall_forall. intros z [_ Hz]%list_elem_of_filter.
  rewrite Forall_forall in Hall. by apply Hall.
Qed.

(** A prefix of a descending list dominates the rest; a suffix is
    dominated by the rest. *)
Lemma sorted_take_drop (n : nat) (l : list (string * Q)) :
  StronglySorted by_contribution_desc l ->
  forall x y, x ∈ take n l -> y ∈ drop n l -> (snd y <= snd x)%Q.
Proof.
  intros Hsorted x y Hx Hy. rewrite <- (take_drop n l) in Hsorted.
  exact (StronglySorted_app_1_elem_of _ _ _ _ _ Hsorted Hx Hy).
Qed.

(** C5. The ranker returns at most 6 entries.  They are the supports
    entries followed by the reduces entries; every supports entry has a
    strictly positive contribution and every reduces entry a strictly
    negative one.  The supports entries are the (at most) 6 largest strictly
    positive pairs, in descending order; the reduces entries are taken from
    the (at most) 3 most negative pairs, cut to the room the supports
    entries leave in the 6. *)
Theorem explanations_ranked (feature_names : list string) (contributions : list Q) :
  let pairs := zip feature_names contributions in
  let positives := filter (fun fc => Qltb 0 (snd fc)) pairs in
  let negatives := filter (fun fc => Qltb (snd fc) 0) pairs in
  let sorted := App.sorted_contribs feature_names contributions in
  let sup := App.top_positive sorted in
  let neg3 := App.top_negative sorted in
  let entries := App.explanation_entries feature_names contributions in
  App.format_explanations feature_names contributions = map App.render entries /\
  (length (App.format_explanations feature_names contributions) <= 6)%nat /\
  Forall sign_matches entries /\
  entries = map App.supports_of sup ++
            map App.reduces_of (take (6 - length sup) neg3) /\
  length sup = Nat.min 6 (length positives) /\
  StronglySorted by_contribution_desc sup /\
  (exists rest, positives ≡ₚ sup ++ rest /\
     forall x y, x ∈ sup -> y ∈ rest -> (snd y <= snd x)%Q) /\
  length neg3 = Nat.min 3 (length negatives) /\
  (exists rest, negatives ≡ₚ rest ++ neg3 /\
     forall x y, x ∈ rest -> y ∈ neg3 -> (snd y <= snd x)%Q).
Proof.
  intros pairs positives negatives sorted sup neg3 entries.
  assert (sorted ≡ₚ pairs) as Hperm by apply sort_desc_Permutation.
  assert (StronglySorted by_contribution_desc sorted) as Hsorted by apply sort_desc_sorted.
  set (pos_sorted := filter (fun fc : string * Q => Qltb 0 (snd fc)) sorted).
  set (neg_sorted := filter (fun fc : string * Q => Qltb (snd fc) 0) sorted).
  assert (sup = take 6 pos_sorted) as Hsup by reflexivity.
  assert (neg3 = drop (length neg_sorted - 3) neg_sorted) as Hneg3 by reflexivity.
  assert (pos_sorted ≡ₚ positives) as Hpos by (unfold pos_sorted, positives; by rewrite Hperm).
  assert (neg_sorted ≡ₚ negatives) as Hneg by (unfold neg_sorted, negatives; by rewrite Hperm).
  assert (entries = map App.supports_of sup ++
                    map App.reduces_of (take (6 - length sup) neg3)) as Hentries
    by apply explanation_entries_split.
  split; [apply format_explanations_render|].
  split.
  { rewrite format_explanations_render, length_map.
    unfold entries, App.explanation_entries. rewrite length_take. lia. }
  split.
  { rewrite Hentries. apply Forall_app. split; apply Forall_forall; intros e He.
    - apply list_elem_of_fmap in He as (fc & -> & Hfc).
      rewrite Hsup in Hfc. apply subseteq_take in Hfc.
      apply list_elem_of_filter in Hfc as [Hfc _].
      by apply Is_true_true, Qltb_lt in Hfc.
    - apply list_elem_of_fmap in He as (fc & -> & Hfc).
      apply subseteq_take in Hfc. rewrite Hneg3 in Hfc. apply subseteq_drop in Hfc.
      apply list_elem_of_filter in Hfc as [Hfc _].
      by apply Is_true_true, Qltb_lt in Hfc. }
  split; [done|]. split.
  { rewrite Hsup, length_take. by rewrite (Permutation_length Hpos). }
  split.
  { rewrite Hsup. eapply StronglySorted_app_1_l. rewrite take_drop.
    by apply filter_sorted. }
  split.
  { exists (drop 6 pos_sorted). split.
    - rewrite Hsup, take_drop. by symmetry.
    - intros x y Hx Hy. rewrite Hsup in Hx.
      eapply sorted_take_drop; [|exact Hx|exact Hy]. by apply filter_sorted. }
  split.
  { rewrite Hneg3, length_drop. rewrite (Permutation_length Hneg). lia. }
  exists (take (length neg_sorted - 3) neg_sorted). split.
  - rewrite Hneg3, take_drop. by symmetry.
  - intros x y Hx Hy. rewrite Hneg3 in Hy.
    eapply sorted_take_drop; [|exact Hx|exact Hy]. by apply filter_sorted.
Qed.

(** ** app.py: the bundle registry *)

Section registry.
Context {F : Type} `{PyNum F}.
Implicit Types (p : App.Process (F:=F)) (path : string) (b : App.Bundle (F:=F)).

Lemma load_model_cached p path b :
  App.model_bundles p !! path = Some b ->
  App.load_model path p = (Ok (Some b), p).
Proof. intros Hb. unfold App.load_model. by rewrite Hb. Qed.

Lemma load_model_missing p path :
  App.model_bundles p !! path = None ->
  App.os_path_exists p path = false ->
  App.load_model path p = (Ok None, p).
Proof. intros Hb Hex. unfold App.load_model. by rewrite Hb, Hex. Qed.

(** A bundle handed out by the loader is registered under the path as
    given; it was either cached under that path or unpickled from the file
    the path resolves to, which was then read once. *)
Lemma load_model_Some p path b p' :
  App.load_model path p = (Ok (Some b), p') ->
  App.model_bundles p' !! path = Some b /\
  ((App.model_bundles p !! path = Some b /\ p' = p) \/
   (App.model_bundles p !! path = None /\
    App.files (App.fs p) !! App.abspath (App.fs p) path = Some (App.Pickled b) /\
    App.fs p' = App.fs p /\
    App.model_bundles p' = <[path := b]> (App.model_bundles p) /\
    exists rest, App.io_log p' =
                 App.io_log p ++ App.FileRead (App.abspath (App.fs p) path) :: rest)).
Proof.
  unfold App.load_model.
  destruct (App.model_bundles p !! path) as [cached|] eqn:Hcache.
  { intros [= <- <-]. split; [done|]. by left. }
  destruct (App.os_path_exists p path); simpl; [|done].
  unfold App.joblib_load.
  destruct (App.files (App.fs p) !! App.abspath (App.fs p) path) as [[b'|]|] eqn:Hfile;
    [|done..].
  destruct (App.lightgbm b') as [[explainer|exc]|]; intros [= <- <-]; simpl;
    (split; [by rewrite lookup_insert_eq|]); right;
    (split; [done|]); (split; [done|]); (split; [done|]); (split; [done|]);
    eexists; first [reflexivity | by rewrite <- app_assoc].
Qed.

Lemma predict_no_features (data : App.Request (F:=F)) p :
  default [] (App.features data) = [] ->
  App.predict data p = (App.jsonify (App.ErrorMessage "No features provided") 400, p).
Proof. intros Hnil. unfold App.predict, App.predict_try. by rewrite Hnil. Qed.

Lemma predict_try_unfold (data : App.Request (F:=F)) p :
  default [] (App.features data) <> [] ->
  App.predict_try data p =
  let features := default [] (App.features data) in
  let model_path := App.os_getenv p "MODEL_BUNDLE_PATH" (App.DEFAULT_MODEL_PATH p) in
  match App.load_model model_path p with
  | (Raise e, p) => (Raise e, p)
  | (Ok None, p) => (Ok (App.jsonify (App.ErrorMessage "Model not ready") 503), p)
  | (Ok (Some bundle), p) =>
      let feature_names :=
        default (App.default_feature_names (length features)) (App.feature_names bundle) in
      if App.names_given (App.featureNames data)
         && negb (bool_decide (length (default [] (App.featureNames data)) = length features))
      then (Ok (App.jsonify (App.ErrorMessage "Feature count mismatch") 400), p)
      else (App.respond bundle
              (default None (App.shap_explainers p !! model_path))
              features (App.featureNames data) feature_names, p)
  end.
Proof.
  intros Hne. unfold App.predict_try.
  rewrite bool_decide_eq_false_2; [done|].
  by destruct (default [] (App.features data)).
Qed.

End registry.

(** C8, as the code does it.  A path that is not yet cached and whose file
    does not exist makes the loader return [None], without raising and
    without touching the process; [predict], given a non-empty feature list,
    then answers "Model not ready" with status 503.  A path string that is
    cached is answered from the cache, the process (and so the log of file
    reads) unchanged; after a successful load the bundle is registered under
    the path string as it was passed, so the same call repeated is answered
    from the cache. *)
Theorem registry_caches_by_given_path {F : Type} `{PyNum F}
    (p : App.Process (F:=F)) (path : string) :
  (App.model_bundles p !! path = None -> App.os_path_exists p path = false ->
     App.load_model path p = (Ok None, p)) /\
  (forall data : App.Request (F:=F),
     let model_path := App.os_getenv p "MODEL_BUNDLE_PATH" (App.DEFAULT_MODEL_PATH p) in
     default [] (App.features data) <> [] ->
     App.model_bundles p !! model_path = None ->
     App.os_path_exists p model_path = false ->
     App.predict data p = (App.jsonify (App.ErrorMessage "Model not ready") 503, p)) /\
  (forall b, App.model_bundles p !! path = Some b ->
     App.load_model path p = (Ok (Some b), p)) /\
  (forall b p', App.load_model path p = (Ok (Some b), p') ->
     App.model_bundles p' !! path = Some b /\
     App.load_model path p' = (Ok (Some b), p')).
Proof.
  split; [apply load_model_missing|].
  split.
  { intros data model_path Hne Hcache Hfile. unfold App.predict.
    rewrite predict_try_unfold by done. simpl. fold model_path.
    by rewrite (load_model_missing p model_path Hcache Hfile). }
  split; [intros b; apply load_model_cached|].
  intros b p' Hload. apply load_model_Some in Hload as (Hreg & _).
  split; [done|]. by apply load_model_cached.
Qed.

Lemma registry_caches_by_given_path_witness :
  App.load_model "./models/latest/model_bundle.joblib" Service.cold = (Ok None, Service.cold) /\
  App.predict Service.three_values Service.cold =
    (App.jsonify (App.ErrorMessage "Model not ready") 503, Service.cold) /\
  App.load_model "./models/latest/model_bundle.joblib" Service.stale =
    (Ok (Some Service.sample_bundle), Service.stale).
Proof.
  destruct (registry_caches_by_given_path Service.cold "./models/latest/model_bundle.joblib")
    as (Hmissing & Hpredict & _).
  destruct (registry_caches_by_given_path Service.stale "./models/latest/model_bundle.joblib")
    as (_ & _ & Hcached & _).
  split; [apply Hmissing; reflexivity|].
  split; [apply (Hpredict Service.three_values); [discriminate|reflexivity..]|].
  apply Hcached. reflexivity.
Defined.

(** C8, as stated, fails.  The cache is keyed by the path string as passed,
    not by absolute path: after loading [./models/latest/model_bundle.joblib],
    a call for [models/latest/model_bundle.joblib], the same absolute path,
    reads the file a second time and adds a second key.  A path that is
    cached is answered from the cache even when its file no longer exists.
    And with an empty feature list [predict] answers "No features provided"
    before it looks for the bundle. *)
Lemma registry_not_keyed_by_absolute_path :
  (let first := App.load_model "./models/latest/model_bundle.joblib" Service.fresh in
   let second := App.load_model "models/latest/model_bundle.joblib" first.2 in
   App.abspath Service.disk "./models/latest/model_bundle.joblib" = Service.bundle_file /\
   App.abspath Service.disk "models/latest/model_bundle.joblib" = Service.bundle_file /\
   App.io_log first.2 = [App.FileRead Service.bundle_file] /\
   App.io_log second.2 =
     [App.FileRead Service.bundle_file; App.FileRead Service.bundle_file] /\
   dom (App.model_bundles second.2) =
     {[ "./models/latest/model_bundle.joblib"; "models/latest/model_bundle.joblib" ]}) /\
  (App.os_path_exists Service.stale "./models/latest/model_bundle.joblib" = false /\
   (App.load_model "./models/latest/model_bundle.joblib" Service.stale).1 =
     Ok (Some Service.sample_bundle)) /\
  (App.os_path_exists Service.cold
     (App.os_getenv Service.cold "MODEL_BUNDLE_PATH" (App.DEFAULT_MODEL_PATH Service.cold)) = false /\
   (App.predict Service.no_values Service.cold).1 =
     App.jsonify (App.ErrorMessage "No features provided") 400).
Proof.
  split; [|split].
  - cbv zeta. repeat split; vm_compute; reflexivity.
  - split; vm_compute; reflexivity.
  - split; vm_compute; reflexivity.
Qed.

(** ** app.py: request validation *)

(** C9, as the code does it.  An empty (or missing) feature list is answered
    with "No features provided" and status 400, whatever the state of the
    registry.  Once the bundle is loaded, a non-empty name list whose length
    differs from the number of values is answered with "Feature count
    mismatch" and status 400. *)
Theorem predict_validation_errors {F : Type} `{PyNum F}
    (data : App.Request (F:=F)) (p : App.Process (F:=F)) :
  (default [] (App.features data) = [] ->
     App.predict data p = (App.jsonify (App.ErrorMessage "No features provided") 400, p)) /\
  (forall names bundle p',
     default [] (App.features data) <> [] ->
     App.featureNames data = Some names -> names <> [] ->
     length names <> length (default [] (App.features data)) ->
     App.load_model (App.os_getenv p "MODEL_BUNDLE_PATH" (App.DEFAULT_MODEL_PATH p)) p =
       (Ok (Some bundle), p') ->
     App.predict data p =
       (App.jsonify (App.ErrorMessage "Feature count mismatch") 400, p')).
Proof.
  split; [apply predict_no_features|].
  intros names bundle p' Hfeatures Hnames Hne Hlen Hload.
  unfold App.predict. rewrite predict_try_unfold by done. simpl.
  rewrite Hload, Hnames. simpl.
  destruct names as [|n names]; [done|]. simpl.
  rewrite bool_decide_eq_false_2 by done. done.
Qed.

Lemma predict_validation_errors_witness :
  App.predict Service.no_values Service.fresh =
    (App.jsonify (App.ErrorMessage "No features provided") 400, Service.fresh) /\
  (App.predict Service.two_names_three_values Service.stale).1 =
    App.jsonify (App.ErrorMessage "Feature count mismatch") 400.
Proof.
  destruct (predict_validation_errors Service.no_values Service.fresh) as (Hempty & _).
  destruct (predict_validation_errors Service.two_names_three_values Service.stale)
    as (_ & Hmismatch).
  split; [apply Hempty; reflexivity|].
  rewrite (Hmismatch ["a"; "b"] Service.sample_bundle Service.stale);
    [reflexivity | discriminate | reflexivity | discriminate | simpl; lia | reflexivity].
Defined.

(** C9, as stated, fails.  An empty name list sent with three values has a
    different length, yet it counts as no names at all: the request is
    answered with a prediction.  And while no bundle can be loaded, two names
    for three values are answered with "Model not ready". *)
Lemma empty_name_list_is_not_a_mismatch :
  (length (default [] (App.featureNames Service.no_names_three_values)) <>
   length (default [] (App.features Service.no_names_three_values)) /\
   App.status (App.predict Service.no_names_three_values Service.fresh).1 = 200%nat /\
   exists r, App.body (App.predict Service.no_names_three_values Service.fresh).1 =
             App.PredictionBody r) /\
  (App.predict Service.two_names_three_values Service.cold).1 =
    App.jsonify (App.ErrorMessage "Model not ready") 503.
Proof.
  split; [split; [simpl; lia|split]|].
  - vm_compute. reflexivity.
  - eexists. vm_compute. reflexivity.
  - vm_compute. reflexivity.
Qed.

(** ** app.py: the prediction response *)

Lemma rbind_Ok {A B} (m : Result A) (k : A -> Result B) (b : B) :
  rbind m k = Ok b -> exists a, m = Ok a /\ k a = Ok b.
Proof. destruct m as [a|e]; simpl; [eauto|done]. Qed.

Lemma index_of_Some (label : string) (classes : list string) (i : nat) :
  App.index_of label classes = Some i -> classes !! i = Some label.
Proof.
  revert i. induction classes as [|c classes IH]; intros i; simpl; [done|].
  destruct (String.eqb_spec c label) as [->|Hne].
  - by intros [= <-].
  - destruct (App.index_of label classes) as [j|]; simpl; [|done].
    intros [= <-]. by apply IH.
Qed.

Section response.
Context {F : Type} `{PyNum F}.

Lemma class_probability_untrained (classes : list string) (probs : list F) (label : string) :
  label ∉ classes -> App.class_probability classes probs label = Ok None.
Proof. intros Hnin. unfold App.class_probability. by rewrite bool_decide_eq_false_2. Qed.

Lemma class_probability_Ok (classes : list string) (probs : list F) (label : string)
    (v : option F) :
  App.class_probability classes probs label = Ok v ->
  (label ∈ classes ->
     exists idx q, classes !! idx = Some label /\ probs !! idx = Some q /\ v = Some q) /\
  (label ∉ classes -> v = None).
Proof.
  unfold App.class_probability. destruct (bool_decide (label ∈ classes)) eqn:Hdec.
  - apply bool_decide_eq_true in Hdec. unfold App.transform, py_index.
    destruct (App.index_of label classes) as [idx|] eqn:Hidx; simpl; [|done].
    destruct (probs !! idx) as [q|] eqn:Hq; simpl; [|done].
    intros [= <-]. split; [|done].
    intros _. exists idx, q. split; [by apply index_of_Some|done].
  - apply bool_decide_eq_false in Hdec. intros [= <-]. split; [done|done].
Qed.

(** The steps behind a response of [respond]. *)
Lemma respond_Ok (bundle : App.Bundle (F:=F)) (explainer : option (App.Explainer (F:=F)))
    (features : list F) (names : option (list string)) (trained : list string)
    (resp : App.Response (F:=F)) :
  App.respond bundle explainer features names trained = Ok resp ->
  exists scaled probs idx r buy sell hold,
    App.model bundle scaled = Ok probs /\
    App.np_argmax probs = Ok idx /\
    App.label_encoder bundle !! idx = Some (App.signal r) /\
    probs !! idx = Some (App.probability r) /\
    to_int (fmul (App.probability r) (of_int 100)) = Ok (App.confidence r) /\
    App.class_probability (App.label_encoder bundle) probs "BUY" = Ok buy /\
    App.class_probability (App.label_encoder bundle) probs "SELL" = Ok sell /\
    App.class_probability (App.label_encoder bundle) probs "HOLD" = Ok hold /\
    App.probabilities r = {[ "BUY" := buy; "SELL" := sell; "HOLD" := hold ]} /\
    resp = App.jsonify (App.PredictionBody r) 200.
Proof.
  unfold App.respond. intros Hresp.
  apply rbind_Ok in Hresp as (fv & _ & Hresp).
  apply rbind_Ok in Hresp as (scaled & _ & Hresp).
  apply rbind_Ok in Hresp as (probs & Hprobs & Hresp).
  apply rbind_Ok in Hresp as (idx & Hargmax & Hresp).
  apply rbind_Ok in Hresp as (signal & Hsignal & Hresp).
  apply rbind_Ok in Hresp as (prob & Hprob & Hresp).
  apply rbind_Ok in Hresp as ([explanations payload] & _ & Hresp).
  apply rbind_Ok in Hresp as (conf & Hconf & Hresp).
  apply rbind_Ok in Hresp as (buy & Hbuy & Hresp).
  apply rbind_Ok in Hresp as (sell & Hsell & Hresp).
  apply rbind_Ok in Hresp as (hold & Hhold & Hresp).
  injection Hresp as <-.
  unfold py_index in Hprob. destruct (probs !! idx) as [q|] eqn:Hq; [|done].
  injection Hprob as ->.
  unfold App.inverse_transform in Hsignal.
  destruct (App.label_encoder bundle !! idx) as [c|] eqn:Hc; [|done].
  injection Hsignal as ->.
  eexists scaled, probs, idx, _, buy, sell, hold. simpl.
  repeat split; done.
Qed.

(** A prediction body comes from [respond], run on the bundle that the
    loader returned for the configured path. *)
Lemma predict_PredictionBody (data : App.Request (F:=F)) (p p' : App.Process (F:=F))
    (resp : App.Response (F:=F)) (r : App.Prediction (F:=F)) :
  App.predict data p = (resp, p') ->
  App.body resp = App.PredictionBody r ->
  exists bundle explainer trained,
    App.load_model (App.os_getenv p "MODEL_BUNDLE_PATH" (App.DEFAULT_MODEL_PATH p)) p =
      (Ok (Some bundle), p') /\
    App.respond bundle explainer (default [] (App.features data))
      (App.featureNames data) trained = Ok resp.
Proof.
  intros Hpredict Hbody. unfold App.predict in Hpredict.
  destruct (decide (default [] (App.features data) = [])) as [Hnil|Hne].
  { unfold App.predict_try in Hpredict. rewrite Hnil in Hpredict. simpl in Hpredict.
    injection Hpredict as <- <-. done. }
  rewrite predict_try_unfold in Hpredict by done. cbv zeta in Hpredict.
  destruct (App.load_model _ p) as [[[bundle|]|e] p''].
  - destruct (App.names_given _ && _).
    + injection Hpredict as <- <-. done.
    + destruct (App.respond _ _ _ _ _) as [resp'|e] eqn:Hresp.
      * injection Hpredict as <- <-. eauto.
      * injection Hpredict as <- <-. done.
  - injection Hpredict as <- <-. done.
  - injection Hpredict as <- <-. done.
Qed.

End response.

(** In exact arithmetic [np.argmax] returns the position of a largest
    element. *)
Lemma argmax_scan_max (xs pre : list Q) (mp : Q) (max_ind : nat) :
  (pre ++ xs) !! max_ind = Some mp -> (max_ind < length pre)%nat ->
  Forall (fun q => (q <= mp)%Q) pre ->
  exists m, (pre ++ xs) !! App.argmax_scan mp max_ind (length pre) xs = Some m /\
            Forall (fun q => (q <= m)%Q) (pre ++ xs).
Proof.
  revert pre mp max_ind. induction xs as [|x xs IH]; intros pre mp max_ind Hmp Hlt Hall.
  - simpl. exists mp. split; [done|]. by rewrite app_nil_r.
  - simpl. change (fleb x mp) with (Qle_bool x mp).
    rewrite (cons_middle x pre xs), app_assoc in Hmp |- *.
    replace (S (length pre)) with (length (pre ++ [x]))
      by (rewrite length_app; simpl; lia).
    destruct (Qle_bool x mp) eqn:Hle; simpl.
    + apply Qle_bool_iff in Hle. apply IH; [done|rewrite length_app; simpl; lia|].
      apply Forall_app. split; [done|]. by constructor.
    + apply Qle_bool_gt in Hle.
      apply IH.
      * rewrite lookup_app_l by (rewrite length_app; simpl; lia).
        by rewrite lookup_app_r, Nat.sub_diag by lia.
      * rewrite length_app. simpl. lia.
      * apply Forall_app. split; [|constructor; [lra|constructor]].
        eapply Forall_impl; [exact Hall|]. intros q Hq. simpl in Hq. lra.
Qed.

Lemma np_argmax_max (probs : list Q) (idx : nat) :
  App.np_argmax probs = Ok idx ->
  exists m, probs !! idx = Some m /\ Forall (fun q => (q <= m)%Q) probs.
Proof.
  destruct probs as [|x rest]; simpl; [done|]. intros [= <-].
  apply (argmax_scan_max rest [x] x 0); [done|simpl; lia|].
  constructor; [lra|constructor].
Qed.

Lemma Qtruncate_floor (x : Q) : (0 <= x)%Q -> Qtruncate x = Qfloor x.
Proof.
  destruct x as [n d]. unfold Qle, Qtruncate, Qfloor. simpl. intros Hn.
  apply Z.quot_div_nonneg; lia.
Qed.

Lemma probabilities_dom (buy sell hold : option Q) :
  dom ({[ "BUY" := buy; "SELL" := sell; "HOLD" := hold ]} : gmap string (option Q)) =
  ({[ "BUY"; "SELL"; "HOLD" ]} : gset string).
Proof. rewrite !dom_insert_L, dom_singleton_L. set_solver. Qed.

(** The response in exact arithmetic, where the product
    [probability * 100] is not rounded.  When the classifiers return
    probabilities, every prediction response has status 200 and carries a
    selected probability in [0,1] (the largest of the classifier's
    probabilities, at the position of the signal's class), a confidence
    equal to the integer floor of that probability times 100 (hence between
    0 and 100), and a probability map whose keys are exactly BUY, SELL and
    HOLD: a label among the trained classes is mapped to the classifier's
    probability at the label's position, a number of [0,1], and any other
    label to null.  What holds of the binary64 run, where the product is
    rounded before [int()], is proved with the binary64 lemmas further on. *)
Theorem prediction_confidence_and_probabilities_exact
    (data : App.Request (F:=Q)) (p p' : App.Process (F:=Q))
    (resp : App.Response (F:=Q)) (r : App.Prediction (F:=Q)) :
  calibrated_process p ->
  App.predict data p = (resp, p') ->
  App.body resp = App.PredictionBody r ->
  App.status resp = 200%nat /\
  in_unit (App.probability r) /\
  App.confidence r = Qfloor (App.probability r * 100) /\
  (0 <= App.confidence r <= 100)%Z /\
  dom (App.probabilities r) = ({[ "BUY"; "SELL"; "HOLD" ]} : gset string) /\
  (exists bundle scaled probs,
     App.model_bundles p' !!
       App.os_getenv p "MODEL_BUNDLE_PATH" (App.DEFAULT_MODEL_PATH p) = Some bundle /\
     App.model bundle scaled = Ok probs /\
     (exists idx, probs !! idx = Some (App.probability r) /\
                  App.label_encoder bundle !! idx = Some (App.signal r)) /\
     Forall (fun q => (q <= App.probability r)%Q) probs /\
     forall label, label ∈ ["BUY"; "SELL"; "HOLD"] ->
       (label ∈ App.label_encoder bundle ->
          exists idx q, App.label_encoder bundle !! idx = Some label /\
                        probs !! idx = Some q /\ in_unit q /\
                        App.probabilities r !! label = Some (Some q)) /\
       (label ∉ App.label_encoder bundle ->
          App.probabilities r !! label = Some None)) /\
  (forall classes (probs : list Q) label,
     label ∉ classes -> App.class_probability classes probs label = Ok None).
Proof.
  intros (Hcache & Hfiles) Hpredict Hbody.
  destruct (predict_PredictionBody data p p' resp r Hpredict Hbody)
    as (bundle & explainer & trained & Hload & Hresp).
  apply respond_Ok in Hresp
    as (scaled & probs & idx & r' & buy & sell & hold &
        Hprobs & Hargmax & Hsignal & Hidx & Hconf & Hbuy & Hsell & Hhold & Hmap & ->).
  simpl in Hbody. injection Hbody as ->.
  apply load_model_Some in Hload as (Hreg & Hfrom).
  assert (calibrated bundle) as Hcal.
  { destruct Hfrom as [(Hc & _)|(_ & Hf & _)]; [by eapply Hcache | by eapply Hfiles]. }
  pose proof (Hcal scaled probs Hprobs) as Hunit. rewrite Forall_lookup in Hunit.
  assert (in_unit (App.probability r)) as Hp by (by eapply Hunit).
  assert (App.confidence r = Qfloor (App.probability r * 100)) as Hfloor.
  { simpl in Hconf. injection Hconf as <-.
    change (fmul (App.probability r) (of_int 100)) with (App.probability r * 100)%Q.
    apply Qtruncate_floor. unfold in_unit in Hp. lra. }
  split; [done|]. split; [done|]. split; [done|]. split.
  { rewrite Hfloor. destruct Hp as [Hp0 Hp1]. split.
    - assert (0 <= App.probability r * 100)%Q as Hlow by lra.
      exact (Qfloor_resp_le _ _ Hlow).
    - assert (App.probability r * 100 <= 100)%Q as Hhigh by lra.
      exact (Qfloor_resp_le _ _ Hhigh). }
  split; [rewrite Hmap; apply probabilities_dom|].
  split; [|intros classes probs' label; apply class_probability_untrained].
  exists bundle, scaled, probs. split; [done|]. split; [done|].
  split; [by exists idx|].
  split.
  { apply np_argmax_max in Hargmax as (m & Hm & Hmax).
    rewrite Hidx in Hm. by injection Hm as <-. }
  intros label Hlabel.
  assert (exists v, App.class_probability (App.label_encoder bundle) probs label = Ok v /\
                    App.probabilities r !! label = Some v) as (v & Hv & Hlook).
  { rewrite Hmap. repeat (apply elem_of_cons in Hlabel as [->|Hlabel]).
    - exists buy. split; [done|]. by rewrite lookup_insert_eq.
    - exists sell. split; [done|]. by rewrite lookup_insert_ne, lookup_insert_eq.
    - exists hold. split; [done|].
      by rewrite !lookup_insert_ne, lookup_singleton_eq.
    - by apply elem_of_nil in Hlabel. }
  apply class_probability_Ok in Hv as (Htrained & Huntrained). split.
  - intros Hin. destruct (Htrained Hin) as (i & q & Hi & Hq & ->).
    exists i, q. split; [done|]. split; [done|]. split; [by eapply Hunit|done].
  - intros Hnin. by rewrite Hlook, (Huntrained Hnin).
Qed.

Lemma prediction_confidence_and_probabilities_exact_witness :
  exists r,
    App.body (App.predict Service.three_values Service.fresh).1 = App.PredictionBody r /\
    App.confidence r = Qfloor (App.probability r * 100) /\
    dom (App.probabilities r) = ({[ "BUY"; "SELL"; "HOLD" ]} : gset string).
Proof.
  assert (calibrated_process Service.fresh) as Hcal.
  { split; intros k b Hk.
    - simpl in Hk. rewrite lookup_empty in Hk. discriminate.
    - simpl in Hk. apply lookup_singleton_Some in Hk as [_ Hb].
      injection Hb as <-. intros x probs Hprobs. simpl in Hprobs.
      injection Hprobs as <-. repeat constructor; unfold in_unit; lra. }
  assert (exists r, App.body (App.predict Service.three_values Service.fresh).1 =
                    App.PredictionBody r) as [r Hr]
    by (eexists; vm_compute; reflexivity).
  destruct (prediction_confidence_and_probabilities_exact Service.three_values Service.fresh
              (App.predict Service.three_values Service.fresh).2
              (App.predict Service.three_values Service.fresh).1 r Hcal
              (surjective_pairing _) Hr) as (_ & _ & Hconf & _ & Hdom & _).
  exists r. split; [exact Hr|]. split; [exact Hconf | exact Hdom].
Defined.

(** ** binary64: the order of the numbers the code runs on *)

Ltac compare_cases :=
  repeat match goal with
  | |- context [Z.compare ?a ?b] => destruct (Z.compare_spec a b)
  | |- context [Pos.compare_cont Eq ?a ?b] =>
      change (Pos.compare_cont Eq a b) with (Pos.compare a b) in *;
      destruct (Pos.compare_spec a b)
  | H : context [Z.compare ?a ?b] |- _ => destruct (Z.compare_spec a b)
  | H : context [Pos.compare_cont Eq ?a ?b] |- _ =>
      change (Pos.compare_cont Eq a b) with (Pos.compare a b) in *;
      destruct (Pos.compare_spec a b)
  end.

Lemma SFleb_trans (x y z : spec_float) :
  SFleb x y = true -> SFleb y z = true -> SFleb x z = true.
Proof.
  unfold SFleb, SFcompare.
  destruct x as [sx|sx| |sx mx ex], y as [sy|sy| |sy my ey], z as [sz|sz| |sz mz ez];
    try destruct sx; try destruct sy; try destruct sz; simpl; try (intros; congruence);
    intros Hxy Hyz; compare_cases; simpl in *; try congruence; try lia.
Qed.

Lemma SFleb_total (x y : spec_float) :
  x <> S754_nan -> y <> S754_nan -> SFleb x y = false -> SFleb y x = true.
Proof.
  unfold SFleb, SFcompare.
  destruct x as [sx|sx| |sx mx ex], y as [sy|sy| |sy my ey];
    try destruct sx; try destruct sy; simpl; try (intros; congruence);
    intros _ _ Hxy; compare_cases; simpl in *; try congruence; try lia.
Qed.

Lemma is_nan_false (x : float) : PrimFloat.is_nan x = false -> Prim2SF x <> S754_nan.
Proof.
  unfold PrimFloat.is_nan. rewrite FloatAxioms.eqb_spec. intros Hnan Heq.
  rewrite Heq in Hnan. discriminate.
Qed.

Lemma float_leb_trans (x y z : float) :
  (x <=? y)%float = true -> (y <=? z)%float = true -> (x <=? z)%float = true.
Proof. rewrite !FloatAxioms.leb_spec. apply SFleb_trans. Qed.

Lemma float_leb_total (x y : float) :
  PrimFloat.is_nan x = false -> PrimFloat.is_nan y = false ->
  (x <=? y)%float = false -> (y <=? x)%float = true.
Proof.
  intros Hx Hy. rewrite !FloatAxioms.leb_spec.
  apply SFleb_total; by apply is_nan_false.
Qed.

Lemma float_leb_refl (x : float) :
  PrimFloat.is_nan x = false -> (x <=? x)%float = true.
Proof.
  unfold PrimFloat.is_nan. rewrite FloatAxioms.eqb_spec, FloatAxioms.leb_spec.
  unfold SFeqb, SFleb. destruct (SFcompare _ _) as [[]|]; simpl; congruence.
Qed.

(** Without a NaN, the reduction with [np.minimum] returns a number below
    its first argument and below every other element. *)
Lemma fold_np_minimum_float (rest : list float) (x : float) :
  PrimFloat.is_nan x = false ->
  Forall (fun d => PrimFloat.is_nan d = false) rest ->
  (fold_left np_minimum rest x <=? x)%float = true /\
  Forall (fun d => (fold_left np_minimum rest x <=? d)%float = true) rest.
Proof.
  revert x. induction rest as [|y rest IH]; intros x Hx Hrest; simpl.
  - split; [by apply float_leb_refl|constructor].
  - apply Forall_cons in Hrest as (Hy & Hrest).
    unfold np_minimum at 2 4. simpl. rewrite Hx, orb_false_r.
    destruct (x <=? y)%float eqn:Hle.
    + destruct (IH x Hx Hrest) as (Hm & Hall). split; [done|].
      constructor; [by eapply float_leb_trans|done].
    + destruct (IH y Hy Hrest) as (Hm & Hall).
      pose proof (float_leb_total x y Hx Hy Hle) as Hyx.
      split; [by eapply float_leb_trans|]. by constructor.
Qed.

(** X24. In binary64 the simulator returns, with a prediction for every row, a
    summary whose maximum drawdown is below every entry of [equity - peak]
    and is not positive, provided no NaN arises among these entries. *)
Lemma drawdown_nonpositive_binary64 (df : list (gmap string float))
    (predictions : list string) (fee slippage funding : float) :
  (length df <= length predictions)%nat ->
  exists s,
    Backtest.simulate_trades df predictions fee slippage funding = Ok s /\
    let drawdown :=
      zip_with PrimFloat.sub (Backtest.equityCurve s)
               (np_maximum_accumulate (Backtest.equityCurve s)) in
    (Forall (fun d => PrimFloat.is_nan d = false) drawdown ->
     (Backtest.maxDrawdown s <=? 0)%float = true /\
     Forall (fun d => (Backtest.maxDrawdown s <=? d)%float = true) drawdown).
Proof.
  intros Hlen.
  destruct (simulate_trades_returns df predictions fee slippage funding Hlen)
    as (s & Hs & Hcurve & Hmd & _).
  exists s. split; [done|]. intros drawdown Hnan.
  change (np_min drawdown = Ok (Backtest.maxDrawdown s)) in Hmd.
  assert (exists rest, drawdown = 0%float :: rest) as (rest & Hd).
  { unfold drawdown. rewrite Hcurve. simpl. eexists. reflexivity. }
  rewrite Hd in Hmd, Hnan |- *. simpl in Hmd. injection Hmd as <-.
  apply Forall_cons in Hnan as (H0 & Hrest).
  destruct (fold_np_minimum_float rest 0%float H0 Hrest) as (Hm & Hall).
  split; [done|]. by constructor.
Qed.

Lemma to_int_floor_binary64 (x : float) (q : Q) :
  Binary64.to_Q x = Some q -> (0 <= q)%Q -> Binary64.to_int x = Ok (Qfloor q).
Proof.
  unfold Binary64.to_Q, Binary64.to_int. intros Hq Hpos.
  destruct (Prim2SF x) as [s|s| |s m e]; simpl in *; try done;
    injection Hq as <-; by rewrite Qtruncate_floor.
Qed.

(** ** The embedding at work *)

Example format_explanations_exact :
  App.format_explanations ["rsi_14"; "spread"; "Imbalance_SELL"; "funding_rate"]
    [1 # 16; -1 # 3; 3 # 16; -1 # 10000]%Q =
  ["Imbalance_SELL contributes +0.188 — supports SHORT";
   "rsi_14 contributes +0.062 — supports LONG";
   "funding_rate contributes -0.000 — reduces confidence";
   "spread contributes -0.333 — reduces confidence"].
Proof. vm_compute. reflexivity. Qed.

Example format_explanations_binary64 :
  App.format_explanations ["rsi_14"; "spread"; "Imbalance_SELL"; "funding_rate"]
    [0.0625; -0.3333; 0.1875; -0.0001]%float =
  ["Imbalance_SELL contributes +0.188 — supports SHORT";
   "rsi_14 contributes +0.062 — supports LONG";
   "funding_rate contributes -0.000 — reduces confidence";
   "spread contributes -0.333 — reduces confidence"].
Proof. vm_compute. reflexivity. Qed.

(** Seven positive and four negative contributions: six supports entries
    and nothing else. *)
Example format_explanations_truncates :
  map App.is_supports
    (App.explanation_entries
       ["a"; "b"; "c"; "d"; "e"; "f"; "g"; "h"; "i"; "j"; "k"]
       [1; -1; 2; -2; 3; -3; 4; -4; 5; 6; 7]%Q) =
  [true; true; true; true; true; true].
Proof. vm_compute. reflexivity. Qed.

(** Four positive and three negative contributions: the last of the three
    most negative ones is cut. *)
Example format_explanations_cuts_reduces :
  map App.contribution
    (App.explanation_entries ["a"; "b"; "c"; "d"; "e"; "f"; "g"]
       [1; -1; 2; -2; 3; -3; 4]%Q) =
  [4; 3; 2; 1; -1; -2]%Q.
Proof. vm_compute. reflexivity. Qed.

Example get_signal_from_feature_cases :
  map App.get_signal_from_feature
    ["RSI_14"; "stoch_oversold"; "overbought_flag"; "orderbook_imbalance_buy";
     "Imbalance_Sell"; "imbalance"; "funding_rate"] =
  ["LONG"; "LONG"; "SHORT"; "LONG"; "SHORT"; "signal"; "signal"].
Proof. vm_compute. reflexivity. Qed.

(** [int(0.29 * 100)] is 28 in binary64: the double nearest to 0.29 lies
    below it, and so does the rounded product. *)
Example confidence_of_29_percent :
  to_int (fmul 0.29%float (of_int 100)) = Ok 28%Z.
Proof. vm_compute. reflexivity. Qed.

(** In binary64 the product [probability * 100], when [int()] accepts it,
    has an exact value, which is not negative for a probability that is not
    negative. *)
Lemma product_sign_binary64 (p : float) (c : Z) :
  (0 <=? p)%float = true ->
  to_int (fmul p (of_int 100)) = Ok c ->
  exists q, to_Q (fmul p (of_int 100)) = Some q /\ (0 <= q)%Q.
Proof.
  intros Hpos Hint.
  simpl in *. unfold Binary64.to_Q, Binary64.to_int in *.
  rewrite FloatAxioms.leb_spec in Hpos. rewrite FloatAxioms.mul_spec in Hint |- *.
  let hundred := eval vm_compute in (Prim2SF 100%float) in
  change (Prim2SF 100%float) with hundred in *.
  change (Prim2SF 0) with (S754_zero false) in Hpos.
  destruct (Prim2SF p) as [s|s| |s m e]; try destruct s; try discriminate;
    unfold FloatAxioms.SF64mul, SFmul in *; simpl xorb in *;
    try (eexists; split; [reflexivity|simpl; lra]).
  unfold binary_round_aux in *.
  destruct (shr_fexp _ _ _ _ _) as [mrs' e'].
  destruct (shr_fexp _ _ _ _ _) as [mrs'' e''].
  destruct (shr_m mrs'') as [|m'|m']; try discriminate.
  - eexists; split; [reflexivity|simpl; lra].
  - destruct (e'' <=? _)%Z; try discriminate.
    destruct e'' as [|pe|pe]; simpl; eexists; (split; [reflexivity|]);
      unfold Qle; simpl; lia.
Qed.

(** X25. In binary64, when [int(probability * 100)] returns for a probability
    that is not negative, it returns the floor of the exact value of the
    rounded product. *)
Lemma confidence_floor_binary64 (p : float) (c : Z) :
  (0 <=? p)%float = true ->
  to_int (fmul p (of_int 100)) = Ok c ->
  exists q, to_Q (fmul p (of_int 100)) = Some q /\ (0 <= q)%Q /\ c = Qfloor q.
Proof.
  intros Hpos Hint.
  destruct (product_sign_binary64 p c Hpos Hint) as (q & Hq & Hq0).
  exists q. split; [done|]. split; [done|].
  eapply to_int_floor_binary64 in Hq; [|done].
  change (Binary64.to_int (fmul p (of_int 100)) = Ok c) in Hint.
  rewrite Hq in Hint. by injection Hint as <-.
Qed.

(* ===================================================================== *)
(** * Further properties of the code *)
(* ===================================================================== *)

(** ** app.py: alignment as a dictionary lookup *)

Section alignment_more.
Context {F : Type} `{PyNum F}.

(** With distinct names, aligning is looking each trained name up in the
    dictionary of the caller's (name, value) pairs, with default 0. *)
Lemma aligned_value_lookup (pairs : list (string * F)) (name : string) :
  NoDup pairs.*1 ->
  App.aligned_value pairs.*2 (App.build_index_map pairs.*1) name =
  Ok (default (of_int 0) ((list_to_map pairs : gmap string F) !! name)).
Proof.
  intros Hnodup.
  destruct (decide (name ∈ pairs.*1)) as [Hin|Hnin].
  - destruct (build_index_map_last _ _ Hin) as (idx & Hidx & _ & Hmap).
    rewrite list_lookup_fmap in Hidx.
    destruct (pairs !! idx) as [[n v]|] eqn:Hpair; [|done].
    simpl in Hidx. injection Hidx as ->.
    rewrite (aligned_value_present pairs.*2 pairs.*1 name idx v Hmap)
      by (by rewrite list_lookup_fmap, Hpair).
    rewrite (elem_of_list_to_map_1 pairs name v Hnodup); [done|].
    by eapply list_elem_of_lookup_2.
  - rewrite (aligned_value_absent _ _ _ Hnin).
    by rewrite (not_elem_of_list_to_map_1 pairs name Hnin).
Qed.

Lemma rmapM_ext {A B} (f g : A -> Result B) (l : list A) :
  (forall x, f x = g x) -> App.rmapM f l = App.rmapM g l.
Proof. intros Hfg. induction l as [|x l IH]; simpl; [done|]. by rewrite Hfg, IH. Qed.

Lemma align_features_Permutation (pairs pairs' : list (string * F))
    (trained : list string) :
  NoDup pairs.*1 -> pairs ≡ₚ pairs' ->
  App.align_features pairs.*2 (Some pairs.*1) trained =
  App.align_features pairs'.*2 (Some pairs'.*1) trained.
Proof.
  intros Hnodup Hperm.
  assert (NoDup pairs'.*1) as Hnodup' by (by rewrite <- Hperm).
  destruct pairs as [|x pairs].
  { apply Permutation_nil_l in Hperm. by subst. }
  destruct pairs' as [|x' pairs'].
  { by apply Permutation_nil_r in Hperm. }
  change (App.rmapM (App.aligned_value (x :: pairs).*2
                       (App.build_index_map (x :: pairs).*1)) trained =
          App.rmapM (App.aligned_value (x' :: pairs').*2
                       (App.build_index_map (x' :: pairs').*1)) trained).
  apply rmapM_ext. intros name.
  rewrite !aligned_value_lookup by done.
  by rewrite (list_to_map_proper _ _ Hnodup Hperm).
Qed.

Lemma respond_align (bundle : App.Bundle (F:=F)) (explainer : option (App.Explainer (F:=F)))
    (features features' : list F) (names names' : option (list string))
    (trained : list string) :
  App.align_features features names trained = App.align_features features' names' trained ->
  App.respond bundle explainer features names trained =
  App.respond bundle explainer features' names' trained.
Proof. intros Halign. unfold App.respond. by rewrite Halign. Qed.

End alignment_more.

(** X1. A vector that comes with the trained names, in the trained order, is
    aligned to itself, provided the trained names are distinct. *)
Theorem alignment_identity {F : Type} `{PyNum F}
    (features : list F) (trained : list string) :
  NoDup trained -> length features = length trained ->
  App.align_features features (Some trained) trained = Ok features.
Proof.
  intros Hnodup Hlen. destruct trained as [|t trained].
  { by destruct features. }
  rewrite align_features_named. apply rmapM_Forall2.
  apply Forall2_same_length_lookup_2; [done|].
  intros i name v Hname Hv.
  apply (aligned_value_present features (t :: trained) name i v); [|done].
  apply build_index_map_at_last; [done|].
  intros k Hk Hname'. pose proof (NoDup_lookup _ _ _ _ Hnodup Hname Hname'). lia.
Qed.

Lemma alignment_identity_witness :
  App.align_features [1; 2; 3]%Q (Some Duplicates.trained) Duplicates.trained =
  Ok [1; 2; 3]%Q.
Proof.
  apply (@alignment_identity Q Q_PyNum [1; 2; 3]%Q Duplicates.trained).
  - apply (bool_decide_unpack _). vm_compute. exact I.
  - reflexivity.
Defined.

(** X2. The order in which a request lists its named features does not
    matter: two requests whose (name, value) pairs are permutations of each
    other, with distinct names, get the same response and leave the process
    in the same state. *)
Theorem predict_ignores_name_order {F : Type} `{PyNum F}
    (pairs pairs' : list (string * F)) (p : App.Process (F:=F)) :
  NoDup pairs.*1 -> pairs ≡ₚ pairs' ->
  App.predict {| App.features := Some pairs.*2; App.featureNames := Some pairs.*1 |} p =
  App.predict {| App.features := Some pairs'.*2; App.featureNames := Some pairs'.*1 |} p.
Proof.
  intros Hnodup Hperm.
  assert (length pairs' = length pairs) as Hlen by (by rewrite Hperm).
  unfold App.predict, App.predict_try.
  cbn [App.features App.featureNames default from_option id].
  rewrite !length_fmap, Hlen.
  destruct (bool_decide (length pairs = 0%nat)); [done|].
  destruct (App.load_model _ p) as [[[bundle|]|e] p1]; [|done..].
  rewrite !bool_decide_eq_true_2 by done.
  rewrite !andb_false_r.
  by rewrite (respond_align bundle _ pairs.*2 pairs'.*2 (Some pairs.*1) (Some pairs'.*1) _
                (align_features_Permutation pairs pairs' _ Hnodup Hperm)).
Qed.

Lemma predict_ignores_name_order_witness :
  App.predict {| App.features := Some [1; 2; 3]%Q;
                 App.featureNames := Some ["a"; "b"; "c"] |} Service.fresh =
  App.predict {| App.features := Some [3; 1; 2]%Q;
                 App.featureNames := Some ["c"; "a"; "b"] |} Service.fresh.
Proof.
  apply (@predict_ignores_name_order Q Q_PyNum
           [("a", 1%Q); ("b", 2%Q); ("c", 3%Q)] [("c", 3%Q); ("a", 1%Q); ("b", 2%Q)]).
  - apply (bool_decide_unpack _). vm_compute. exact I.
  - symmetry. apply (Permutation_cons_append [("a", 1%Q); ("b", 2%Q)] ("c", 3%Q)).
Defined.

(** ** app.py: the selected class *)

Lemma argmax_scan_first (xs pre : list Q) (mp : Q) (max_ind : nat) :
  (pre ++ xs) !! max_ind = Some mp -> (max_ind < length pre)%nat ->
  (forall j q, (j < max_ind)%nat -> pre !! j = Some q -> (q < mp)%Q) ->
  Forall (fun q => (q <= mp)%Q) pre ->
  exists m, (pre ++ xs) !! App.argmax_scan mp max_ind (length pre) xs = Some m /\
            forall j q, (j < App.argmax_scan mp max_ind (length pre) xs)%nat ->
                        (pre ++ xs) !! j = Some q -> (q < m)%Q.
Proof.
  revert pre mp max_ind.
  induction xs as [|x xs IH]; intros pre mp max_ind Hmp Hlt Hfirst Hall.
  - simpl. exists mp. split; [done|]. intros j q Hj Hq.
    rewrite app_nil_r in Hq. by apply (Hfirst j).
  - simpl. change (fleb x mp) with (Qle_bool x mp).
    rewrite (cons_middle x pre xs), app_assoc in Hmp |- *.
    replace (S (length pre)) with (length (pre ++ [x]))
      by (rewrite length_app; simpl; lia).
    destruct (Qle_bool x mp) eqn:Hle; simpl.
    + apply Qle_bool_iff in Hle. apply IH.
      * done.
      * rewrite length_app. simpl. lia.
      * intros j q Hj Hq. apply (Hfirst j q Hj).
        rewrite lookup_app_l in Hq; [done|lia].
      * apply Forall_app. split; [done|]. by constructor.
    + apply Qle_bool_gt in Hle. apply IH.
      * rewrite lookup_app_l by (rewrite length_app; simpl; lia).
        by rewrite lookup_app_r, Nat.sub_diag by lia.
      * rewrite length_app. simpl. lia.
      * intros j q Hj Hq. rewrite lookup_app_l in Hq by done.
        rewrite Forall_lookup in Hall. specialize (Hall j q Hq). lra.
      * apply Forall_app. split; [|constructor; [lra|constructor]].
        eapply Forall_impl; [exact Hall|]. intros q Hq. simpl in Hq. lra.
Qed.

(** X3. [np.argmax] on an empty vector raises; on any other vector, in exact
    arithmetic, it returns the first position of a largest element: nothing
    is larger, and everything before it is strictly smaller.  A tie between
    classes is therefore decided for the class that comes first in the label
    order. *)
Theorem argmax_is_first_maximum (probs : list Q) :
  (probs = [] -> App.np_argmax probs = Raise ValueError) /\
  (probs <> [] ->
   exists idx m,
     App.np_argmax probs = Ok idx /\ probs !! idx = Some m /\
     Forall (fun q => (q <= m)%Q) probs /\
     forall j q, (j < idx)%nat -> probs !! j = Some q -> (q < m)%Q).
Proof.
  split; [by intros ->|].
  destruct probs as [|x rest]; [done|]. intros _.
  destruct (np_argmax_max (x :: rest) _ eq_refl) as (m & Hm & Hmax).
  exists (App.argmax_scan x 0 1 rest), m. split; [done|]. split; [done|]. split; [done|].
  destruct (argmax_scan_first rest [x] x 0) as (m' & Hm' & Hfirst);
    [done|simpl; lia|intros j q Hj; lia|constructor; [lra|constructor]|].
  simpl in Hm', Hfirst. simpl in Hm. rewrite Hm in Hm'. injection Hm' as <-.
  exact Hfirst.
Qed.

(** ** app.py: what the request handlers do to the registry *)

Section registry_more.
Context {F : Type} `{PyNum F}.

Lemma extends_at_refl path p : extends_at path p p.
Proof. repeat split; try done. apply union_subseteq_l. Qed.

Lemma load_model_extends path p :
  extends_at path p (App.load_model path p).2.
Proof.
  unfold App.load_model.
  destruct (App.model_bundles p !! path) as [cached|] eqn:Hcache;
    [apply extends_at_refl|].
  destruct (App.os_path_exists p path); simpl; [|apply extends_at_refl].
  unfold App.joblib_load.
  destruct (App.files (App.fs p) !! App.abspath (App.fs p) path) as [[b|]|];
    simpl; [| |apply extends_at_refl].
  - assert (forall q : App.Process (F:=F),
              App.fs q = App.fs p -> App.environ q = App.environ p ->
              App.DEFAULT_MODEL_PATH q = App.DEFAULT_MODEL_PATH p ->
              App.model_bundles q = <[path := b]> (App.model_bundles p) ->
              (forall other, other <> path ->
                 App.shap_explainers q !! other = App.shap_explainers p !! other) ->
              App.io_log p `prefix_of` App.io_log q ->
              extends_at path p q) as Hq.
    { intros q Hfs Henv Hdef Hmb Hshap Hlog. repeat split; try done.
      - rewrite Hmb. by apply insert_subseteq.
      - rewrite Hmb, dom_insert.
        apply union_least; [apply union_subseteq_r|apply union_subseteq_l]. }
    destruct (App.lightgbm b) as [[explainer|exc]|]; apply Hq; simpl; try done;
      try (intros other Hother; by rewrite lookup_insert_ne);
      try (by apply prefix_app_r);
      try (rewrite <- app_assoc; by apply prefix_app_r).
  - repeat split; simpl; try done; [apply union_subseteq_l|by apply prefix_app_r].
Qed.

Lemma predict_state (data : App.Request (F:=F)) p :
  (App.predict data p).2 = p \/
  (App.predict data p).2 =
    (App.load_model (App.os_getenv p "MODEL_BUNDLE_PATH" (App.DEFAULT_MODEL_PATH p)) p).2.
Proof.
  unfold App.predict, App.predict_try.
  destruct (bool_decide _); [by left|]. right.
  destruct (App.load_model _ p) as [[[bundle|]|e] p1]; simpl; [|done..].
  destruct (_ && _); [done|]. by destruct (App.respond _ _ _ _ _).
Qed.

Lemma health_state now (p : App.Process (F:=F)) :
  (Probes.health now p).2 = (App.load_model (App.DEFAULT_MODEL_PATH p) p).2.
Proof.
  unfold Probes.health. by destruct (App.load_model _ p) as [[bundle|e] p1].
Qed.

Lemma ready_state (p : App.Process (F:=F)) :
  (Probes.ready p).2 = (App.load_model (App.DEFAULT_MODEL_PATH p) p).2.
Proof.
  unfold Probes.ready. by destruct (App.load_model _ p) as [[[bundle|]|e] p1].
Qed.

(** The two registries are filled together. *)
Lemma load_model_lockstep path (p : App.Process (F:=F)) :
  lockstep p -> lockstep (App.load_model path p).2.
Proof.
  unfold lockstep. intros Hdom. unfold App.load_model.
  destruct (App.model_bundles p !! path) as [cached|] eqn:Hcache; [done|].
  destruct (App.os_path_exists p path); simpl; [|done].
  unfold App.joblib_load.
  destruct (App.files (App.fs p) !! App.abspath (App.fs p) path) as [[b|]|];
    simpl; [|done..].
  destruct (App.lightgbm b) as [[explainer|exc]|]; simpl;
    rewrite !dom_insert_L; by rewrite Hdom.
Qed.

End registry_more.

(** X4. No handler evicts or replaces a cached bundle.  Whatever [/predict],
    [/health] or [/ready] answer, afterwards the files and the environment
    are as before, every bundle that was cached is still cached under its
    path, at most one path has been added to the registry (the configured
    one), explainers registered under other paths are untouched, and the
    log has only grown at its end. *)
Theorem handlers_extend_registry {F : Type} `{PyNum F}
    (p : App.Process (F:=F)) (data : App.Request (F:=F)) (now : string) :
  extends_at (App.os_getenv p "MODEL_BUNDLE_PATH" (App.DEFAULT_MODEL_PATH p))
             p (App.predict data p).2 /\
  extends_at (App.DEFAULT_MODEL_PATH p) p (Probes.health now p).2 /\
  extends_at (App.DEFAULT_MODEL_PATH p) p (Probes.ready p).2.
Proof.
  split; [|split].
  - destruct (predict_state data p) as [-> | ->];
      [apply extends_at_refl|apply load_model_extends].
  - rewrite health_state. apply load_model_extends.
  - rewrite ready_state. apply load_model_extends.
Qed.

(** X5. The bundle registry and the explainer registry are filled together:
    if they have the same keys before a request, they have the same keys
    after it, whichever handler serves it, and the explainer lookup of
    [/predict] finds an entry for every bundle the loader hands out. *)
Theorem registries_in_lockstep {F : Type} `{PyNum F}
    (p : App.Process (F:=F)) (data : App.Request (F:=F)) (now : string) :
  lockstep p ->
  lockstep (App.predict data p).2 /\ lockstep (Probes.health now p).2 /\
  lockstep (Probes.ready p).2 /\
  forall path, lockstep (App.load_model path p).2 /\
    forall b p', App.load_model path p = (Ok (Some b), p') ->
                 is_Some (App.shap_explainers p' !! path).
Proof.
  intros Hdom.
  split; [|split; [|split]].
  - destruct (predict_state data p) as [-> | ->]; [done|by apply load_model_lockstep].
  - rewrite health_state. by apply load_model_lockstep.
  - rewrite ready_state. by apply load_model_lockstep.
  - intros path. split; [by apply load_model_lockstep|].
    intros b p' Hload.
    pose proof (load_model_lockstep path p Hdom) as Hafter.
    rewrite Hload in Hafter. unfold lockstep in Hafter. simpl in Hafter.
    destruct (load_model_Some p path b p' Hload) as [Hb _].
    apply elem_of_dom. rewrite Hafter. apply elem_of_dom. by exists b.
Qed.

Lemma registries_in_lockstep_witness :
  lockstep Service.fresh /\
  lockstep (App.predict Service.three_values Service.fresh).2.
Proof.
  assert (lockstep Service.fresh) as Hfresh by (vm_compute; reflexivity).
  split; [exact Hfresh|].
  exact (proj1 (@registries_in_lockstep Q Q_PyNum Service.fresh Service.three_values
                  EmptyString Hfresh)).
Defined.

(** ** app.py: predictions with and without an explainer *)

Section explainer_more.
Context {F : Type} `{PyNum F}.

(** What the explainer block of [respond] contributes. *)
Lemma respond_explainer (bundle : App.Bundle (F:=F))
    (explainer : option (App.Explainer (F:=F)))
    (features : list F) (names : option (list string)) (trained : list string)
    (resp : App.Response (F:=F)) :
  App.respond bundle explainer features names trained = Ok resp ->
  exists r scaled idx,
    resp = App.jsonify (App.PredictionBody r) 200 /\
    App.respond bundle None features names trained =
      Ok (App.jsonify (App.PredictionBody (without_explanations r)) 200) /\
    match explainer with
    | Some ex => App.explain ex trained scaled idx = Ok (App.explanations r, App.shap r)
    | None => App.explanations r = [] /\ App.shap r = None
    end.
Proof.
  unfold App.respond. intros Hresp.
  destruct (App.align_features features names trained) as [fv|]; [|done].
  simpl in *.
  destruct (App.scaler bundle fv) as [scaled|]; [|done]. simpl in *.
  destruct (App.model bundle scaled) as [probs|]; [|done]. simpl in *.
  destruct (App.np_argmax probs) as [idx|]; [|done]. simpl in *.
  destruct (App.inverse_transform _ idx) as [signal|]; [|done]. simpl in *.
  destruct (py_index probs idx) as [prob|]; [|done]. simpl in *.
  apply rbind_Ok in Hresp as ([explanations payload] & Hexplain & Hresp).
  destruct (to_int _) as [conf|]; [|done]. simpl in *.
  destruct (App.class_probability _ probs "BUY") as [buy|]; [|done]. simpl in *.
  destruct (App.class_probability _ probs "SELL") as [sell|]; [|done]. simpl in *.
  destruct (App.class_probability _ probs "HOLD") as [hold|]; [|done]. simpl in *.
  injection Hresp as <-.
  eexists _, scaled, idx. split; [done|]. split; [done|]. simpl.
  destruct explainer as [ex|]; [done|]. by injection Hexplain as <- <-.
Qed.

Lemma respond_explainer_raises (bundle : App.Bundle (F:=F)) (ex : App.Explainer (F:=F))
    (features : list F) (names : option (list string)) (trained : list string)
    (resp : App.Response (F:=F)) (e : Exn) :
  App.respond bundle None features names trained = Ok resp ->
  (forall scaled, App.shap_values ex scaled = Raise e) ->
  App.respond bundle (Some ex) features names trained = Raise e.
Proof.
  unfold App.respond. intros Hresp Hraise.
  destruct (App.align_features features names trained) as [fv|]; [|done].
  simpl in *.
  destruct (App.scaler bundle fv) as [scaled|]; [|done]. simpl in *.
  destruct (App.model bundle scaled) as [probs|]; [|done]. simpl in *.
  destruct (App.np_argmax probs) as [idx|]; [|done]. simpl in *.
  destruct (App.inverse_transform _ idx) as [signal|]; [|done]. simpl in *.
  destruct (py_index probs idx) as [prob|]; [|done]. simpl in *.
  unfold App.explain. by rewrite Hraise.
Qed.

Lemma explain_Ok (ex : App.Explainer (F:=F)) (trained : list string)
    (scaled : list F) (idx : nat) explanations payload :
  App.explain ex trained scaled idx = Ok (explanations, payload) ->
  exists contributions base_value,
    payload = Some {| App.shap_featureNames := trained;
                      App.shap_values_list := contributions;
                      App.shap_baseValue := base_value |} /\
    explanations = App.format_explanations trained contributions.
Proof.
  unfold App.explain. intros Hexplain.
  apply rbind_Ok in Hexplain as (sv & _ & Hexplain).
  apply rbind_Ok in Hexplain as ([contributions base_value] & _ & Hexplain).
  injection Hexplain as <- <-. eauto.
Qed.

(** The response of [predict] when the configured path is cached. *)
Lemma predict_cached (data : App.Request (F:=F)) (p : App.Process (F:=F))
    (b : App.Bundle (F:=F)) :
  let model_path := App.os_getenv p "MODEL_BUNDLE_PATH" (App.DEFAULT_MODEL_PATH p) in
  App.model_bundles p !! model_path = Some b ->
  (App.predict data p).2 = p /\
  forall r, App.body (App.predict data p).1 = App.PredictionBody r ->
    App.respond b (default None (App.shap_explainers p !! model_path))
      (default [] (App.features data)) (App.featureNames data)
      (default (App.default_feature_names (length (default [] (App.features data))))
               (App.feature_names b)) =
    Ok (App.jsonify (App.PredictionBody r) 200).
Proof.
  intros model_path Hb. unfold App.predict.
  destruct (decide (default [] (App.features data) = [])) as [Hnil|Hne].
  { unfold App.predict_try. rewrite Hnil. simpl. done. }
  rewrite predict_try_unfold by done. cbv zeta. fold model_path.
  rewrite (load_model_cached p model_path b Hb).
  destruct (App.names_given _ && _); [done|].
  destruct (App.respond _ _ _ _ _) as [resp|e] eqn:Hresp; simpl; [|done].
  split; [done|]. intros r Hbody.
  destruct (respond_explainer _ _ _ _ _ _ Hresp) as (r' & _ & _ & -> & _).
  simpl in Hbody. by injection Hbody as ->.
Qed.

End explainer_more.

Section explainer_requests.
Context {F : Type} `{PyNum F}.

(** [predict] when the configured path is cached, step by step. *)
Lemma predict_cached_cases (data : App.Request (F:=F)) (p : App.Process (F:=F))
    (b : App.Bundle (F:=F)) :
  let model_path := App.os_getenv p "MODEL_BUNDLE_PATH" (App.DEFAULT_MODEL_PATH p) in
  let features := default [] (App.features data) in
  App.model_bundles p !! model_path = Some b ->
  App.predict data p =
  if bool_decide (length features = 0%nat)
  then (App.jsonify (App.ErrorMessage "No features provided") 400, p)
  else if App.names_given (App.featureNames data)
          && negb (bool_decide (length (default [] (App.featureNames data)) = length features))
  then (App.jsonify (App.ErrorMessage "Feature count mismatch") 400, p)
  else (match App.respond b (default None (App.shap_explainers p !! model_path))
                features (App.featureNames data)
                (default (App.default_feature_names (length features)) (App.feature_names b))
        with
        | Ok response => response
        | Raise e => App.jsonify (App.ErrorOf e) 500
        end, p).
Proof.
  intros model_path features Hb. unfold App.predict, App.predict_try.
  fold features. fold model_path.
  destruct (bool_decide (length features = 0%nat)); [done|].
  rewrite (load_model_cached p model_path b Hb).
  destruct (App.names_given _ && _); [done|].
  by destruct (App.respond _ _ _ _ _).
Qed.

(** The first load of a bundle file. *)
Lemma load_model_first (p : App.Process (F:=F)) (path : string) (b : App.Bundle (F:=F)) :
  App.model_bundles p !! path = None ->
  App.files (App.fs p) !! App.abspath (App.fs p) path = Some (App.Pickled b) ->
  App.load_model path p =
  (Ok (Some b),
   let loaded :=
     App.set_bundle path b (App.log_event (App.FileRead (App.abspath (App.fs p) path)) p) in
   match App.lightgbm b with
   | Some (Ok explainer) => App.set_explainer path (Some explainer) loaded
   | Some (Raise exc) =>
       App.set_explainer path None (App.log_event (App.ShapInitFailed exc) loaded)
   | None => App.set_explainer path None loaded
   end).
Proof.
  intros Hcache Hfile. unfold App.load_model, App.os_path_exists, App.joblib_load.
  rewrite Hcache, Hfile. rewrite bool_decide_eq_true_2 by done. simpl.
  by destruct (App.lightgbm b) as [[ex|exc]|].
Qed.

End explainer_requests.

(** X6. A bundle without a LightGBM base model, or one for which the SHAP
    explainer cannot be built, is served all the same.  The first request
    loads and caches it, registers "no explainer" for the path and (when the
    construction failed) logs the failure once; the construction is never
    tried again, later requests change nothing, and every prediction carries
    an empty explanation list and no SHAP payload. *)
Theorem predictions_without_explainer {F : Type} `{PyNum F}
    (p : App.Process (F:=F)) (b : App.Bundle (F:=F)) :
  let model_path := App.os_getenv p "MODEL_BUNDLE_PATH" (App.DEFAULT_MODEL_PATH p) in
  App.model_bundles p !! model_path = None ->
  App.files (App.fs p) !! App.abspath (App.fs p) model_path = Some (App.Pickled b) ->
  (forall explainer, App.lightgbm b <> Some (Ok explainer)) ->
  exists p',
    App.load_model model_path p = (Ok (Some b), p') /\
    App.shap_explainers p' !! model_path = Some None /\
    App.io_log p' =
      App.io_log p ++ App.FileRead (App.abspath (App.fs p) model_path) ::
      match App.lightgbm b with
      | Some (Raise exc) => [App.ShapInitFailed exc]
      | _ => []
      end /\
    forall data : App.Request (F:=F),
      (default [] (App.features data) <> [] -> (App.predict data p).2 = p') /\
      (App.predict data p').2 = p' /\
      (forall r, App.body (App.predict data p).1 = App.PredictionBody r \/
                 App.body (App.predict data p').1 = App.PredictionBody r ->
                 App.explanations r = [] /\ App.shap r = None).
Proof.
  intros model_path Hcache Hfile Hnone.
  pose proof (load_model_first p model_path b Hcache Hfile) as Hload.
  cbv zeta in Hload.
  set (loaded := App.set_bundle model_path b
                   (App.log_event (App.FileRead (App.abspath (App.fs p) model_path)) p))
    in Hload.
  set (p' := match App.lightgbm b with
             | Some (Ok explainer) => App.set_explainer model_path (Some explainer) loaded
             | Some (Raise exc) =>
                 App.set_explainer model_path None
                   (App.log_event (App.ShapInitFailed exc) loaded)
             | None => App.set_explainer model_path None loaded
             end) in Hload.
  assert (App.shap_explainers p' !! model_path = Some None) as Hshap.
  { unfold p'. destruct (App.lightgbm b) as [[ex|exc]|] eqn:Hl; simpl.
    - by destruct (Hnone ex).
    - apply lookup_insert_eq.
    - apply lookup_insert_eq. }
  assert (App.model_bundles p' !! model_path = Some b) as Hb.
  { unfold p'. destruct (App.lightgbm b) as [[ex|exc]|]; simpl; apply lookup_insert_eq. }
  assert (App.os_getenv p' "MODEL_BUNDLE_PATH" (App.DEFAULT_MODEL_PATH p') = model_path)
    as Hpath.
  { unfold p'. by destruct (App.lightgbm b) as [[ex|exc]|]. }
  exists p'. split; [done|]. split; [done|]. split.
  { unfold p'. destruct (App.lightgbm b) as [[ex|exc]|]; simpl; try done.
    by rewrite <- app_assoc. }
  intros data.
  assert (forall r, App.body (App.predict data p').1 = App.PredictionBody r ->
                    App.explanations r = [] /\ App.shap r = None) as Hwarm.
  { intros r Hbody.
    destruct (predict_cached data p' b) as [_ Hresp]; [by rewrite Hpath|].
    specialize (Hresp r Hbody). rewrite Hpath, Hshap in Hresp. simpl in Hresp.
    destruct (respond_explainer _ _ _ _ _ _ Hresp) as (r' & _ & _ & Heq & _ & Hexp).
    injection Heq as <-. exact Hexp. }
  assert (default [] (App.features data) <> [] -> App.predict data p = App.predict data p')
    as Hsame.
  { intros Hne.
    rewrite (predict_cached_cases data p' b) by (by rewrite Hpath).
    rewrite Hpath. unfold App.predict. rewrite predict_try_unfold by done.
    cbv zeta. fold model_path. rewrite Hload.
    rewrite (bool_decide_eq_false_2 (length (default [] (App.features data)) = 0%nat))
      by (by destruct (default [] (App.features data))).
    destruct (App.names_given _ && _); [done|].
    by destruct (App.respond _ _ _ _ _). }
  split; [|split].
  - intros Hne. rewrite (Hsame Hne). by apply (predict_cached data p' b); rewrite Hpath.
  - by apply (predict_cached data p' b); rewrite Hpath.
  - intros r [Hbody|Hbody]; [|by apply Hwarm].
    destruct (decide (default [] (App.features data) = [])) as [Hnil|Hne].
    + unfold App.predict, App.predict_try in Hbody. rewrite Hnil in Hbody. done.
    + rewrite (Hsame Hne) in Hbody. by apply Hwarm.
Qed.

Lemma predictions_without_explainer_witness :
  let b := Explained.with_lightgbm (Raise (LibraryError "TreeExplainer")) in
  exists p',
    App.load_model "./models/latest/model_bundle.joblib" (Explained.fresh_with b) =
      (Ok (Some b), p') /\
    App.io_log p' =
      [App.FileRead Service.bundle_file;
       App.ShapInitFailed (LibraryError "TreeExplainer")] /\
    (forall r, App.body (App.predict Service.three_values p').1 = App.PredictionBody r ->
               App.explanations r = [] /\ App.shap r = None).
Proof.
  intros b.
  destruct (@predictions_without_explainer Q Q_PyNum (Explained.fresh_with b) b)
    as (p' & Hload & _ & Hlog & Hdata).
  - reflexivity.
  - reflexivity.
  - intros explainer. discriminate.
  - exists p'. split; [exact Hload|]. split; [exact Hlog|].
    intros r Hbody. apply (Hdata Service.three_values). right. exact Hbody.
Defined.

(** X7. The explainer only adds to a prediction.  When the configured path is
    cached with an explainer and [/predict] answers with a prediction, the
    same request served without the explainer gets the same prediction with
    the explanation list emptied and the SHAP payload removed; with the
    explainer there are at most 6 explanations, they are the ranking of the
    payload's values, and the payload names the trained features. *)
Theorem explainer_only_adds {F : Type} `{PyNum F}
    (p : App.Process (F:=F)) (data : App.Request (F:=F))
    (b : App.Bundle (F:=F)) (explainer : App.Explainer (F:=F))
    (r : App.Prediction (F:=F)) :
  let model_path := App.os_getenv p "MODEL_BUNDLE_PATH" (App.DEFAULT_MODEL_PATH p) in
  let trained := default (App.default_feature_names (length (default [] (App.features data))))
                         (App.feature_names b) in
  App.model_bundles p !! model_path = Some b ->
  App.shap_explainers p !! model_path = Some (Some explainer) ->
  App.body (App.predict data p).1 = App.PredictionBody r ->
  App.predict data p = (App.jsonify (App.PredictionBody r) 200, p) /\
  (App.predict data (App.set_explainer model_path None p)).1 =
    App.jsonify (App.PredictionBody (without_explanations r)) 200 /\
  (length (App.explanations r) <= 6)%nat /\
  exists payload,
    App.shap r = Some payload /\
    App.shap_featureNames payload = trained /\
    App.explanations r = App.format_explanations trained (App.shap_values_list payload).
Proof.
  intros model_path trained Hb Hshap Hbody.
  pose proof (predict_cached_cases data p b Hb) as Hp. cbv zeta in Hp.
  fold model_path in Hp. rewrite Hshap in Hp. simpl in Hp.
  pose proof (predict_cached_cases data (App.set_explainer model_path None p) b Hb) as Hq.
  cbv zeta in Hq. change (App.os_getenv (App.set_explainer model_path None p) _ _)
    with model_path in Hq.
  unfold App.set_explainer at 2 in Hq. simpl in Hq. rewrite lookup_insert_eq in Hq.
  simpl in Hq.
  rewrite Hp in Hbody. rewrite Hp, Hq. clear Hp Hq.
  destruct (bool_decide _); [done|].
  destruct (App.names_given _ && _); [done|].
  fold trained in Hbody |- *.
  destruct (App.respond b (Some explainer) _ _ _) as [resp|e] eqn:Hresp; [|done].
  destruct (respond_explainer _ _ _ _ _ _ Hresp) as (r' & scaled & idx & -> & Hnone & Hexp).
  simpl in Hbody. injection Hbody as ->.
  rewrite Hnone. simpl.
  destruct (explain_Ok _ _ _ _ _ _ Hexp) as (contributions & base & Hpayload & Hexpl).
  split; [done|]. split; [done|]. split.
  - rewrite Hexpl. unfold App.format_explanations. rewrite length_take. lia.
  - eexists. split; [exact Hpayload|]. by split.
Qed.

Lemma explainer_only_adds_witness :
  exists r,
    App.predict Service.three_values (Explained.warm Explained.explainer) =
      (App.jsonify (App.PredictionBody r) 200, Explained.warm Explained.explainer) /\
    App.explanations r = ["a contributes +0.500 — supports signal";
                          "b contributes -0.250 — reduces confidence"] /\
    (App.predict Service.three_values
       (App.set_explainer "./models/latest/model_bundle.joblib" None
          (Explained.warm Explained.explainer))).1 =
      App.jsonify (App.PredictionBody (without_explanations r)) 200.
Proof.
  assert (exists r, App.body (App.predict Service.three_values
                                (Explained.warm Explained.explainer)).1 =
                    App.PredictionBody r /\
                    App.explanations r = ["a contributes +0.500 — supports signal";
                                          "b contributes -0.250 — reduces confidence"])
    as (r & Hr & Hexpl) by (eexists; split; vm_compute; reflexivity).
  exists r.
  destruct (@explainer_only_adds Q Q_PyNum (Explained.warm Explained.explainer)
              Service.three_values
              (Explained.with_lightgbm (Ok Explained.explainer)) Explained.explainer r
              eq_refl eq_refl Hr) as (Hwith & Hwithout & _).
  split; [exact Hwith|]. split; [exact Hexpl|exact Hwithout].
Defined.

(** X8. The explainer runs inside the request.  When the explainer registered
    for the configured path raises on every input, a request that would be
    answered with a prediction without the explainer is answered with status
    500 and the explainer's error instead. *)
Theorem explainer_failure_fails_request {F : Type} `{PyNum F}
    (p : App.Process (F:=F)) (data : App.Request (F:=F))
    (b : App.Bundle (F:=F)) (explainer : App.Explainer (F:=F)) (e : Exn)
    (r : App.Prediction (F:=F)) :
  let model_path := App.os_getenv p "MODEL_BUNDLE_PATH" (App.DEFAULT_MODEL_PATH p) in
  App.model_bundles p !! model_path = Some b ->
  App.shap_explainers p !! model_path = Some (Some explainer) ->
  (forall scaled, App.shap_values explainer scaled = Raise e) ->
  App.body (App.predict data (App.set_explainer model_path None p)).1 =
    App.PredictionBody r ->
  App.predict data p = (App.jsonify (App.ErrorOf e) 500, p).
Proof.
  intros model_path Hb Hshap Hraise Hbody.
  pose proof (predict_cached_cases data p b Hb) as Hp. cbv zeta in Hp.
  fold model_path in Hp. rewrite Hshap in Hp. simpl in Hp.
  pose proof (predict_cached_cases data (App.set_explainer model_path None p) b Hb) as Hq.
  cbv zeta in Hq. change (App.os_getenv (App.set_explainer model_path None p) _ _)
    with model_path in Hq.
  unfold App.set_explainer at 2 in Hq. simpl in Hq. rewrite lookup_insert_eq in Hq.
  simpl in Hq.
  rewrite Hq in Hbody. rewrite Hp. clear Hp Hq.
  destruct (bool_decide _); [done|].
  destruct (App.names_given _ && _); [done|].
  destruct (App.respond b None _ _ _) as [resp|e'] eqn:Hresp; [|done].
  by rewrite (respond_explainer_raises _ _ _ _ _ _ _ Hresp Hraise).
Qed.

Lemma explainer_failure_fails_request_witness :
  App.predict Service.three_values (Explained.warm Explained.failing_explainer) =
  (App.jsonify (App.ErrorOf (LibraryError "shap_values")) 500,
   Explained.warm Explained.failing_explainer).
Proof.
  assert (exists r, App.body (App.predict Service.three_values
                                (App.set_explainer "./models/latest/model_bundle.joblib" None
                                   (Explained.warm Explained.failing_explainer))).1 =
                    App.PredictionBody r)
    as [r Hr] by (eexists; vm_compute; reflexivity).
  apply (@explainer_failure_fails_request Q Q_PyNum
           (Explained.warm Explained.failing_explainer) Service.three_values
           (Explained.with_lightgbm (Ok Explained.failing_explainer))
           Explained.failing_explainer (LibraryError "shap_values") r).
  - reflexivity.
  - reflexivity.
  - intros scaled. reflexivity.
  - exact Hr.
Defined.

(** ** app.py: the probes *)

Section probes_more.
Context {F : Type} `{PyNum F}.

Lemma load_model_Some_size (p p' : App.Process (F:=F)) path b :
  App.load_model path p = (Ok (Some b), p') -> (1 <= size (App.model_bundles p'))%nat.
Proof.
  intros Hload. destruct (load_model_Some p path b p' Hload) as [Hb _].
  destruct (decide (size (App.model_bundles p') = 0%nat)) as [Hz|]; [|lia].
  apply map_size_empty_inv in Hz. rewrite Hz in Hb. by rewrite lookup_empty in Hb.
Qed.

Lemma load_model_None_unchanged (p p' : App.Process (F:=F)) path :
  App.load_model path p = (Ok None, p') -> p' = p.
Proof.
  unfold App.load_model.
  destruct (App.model_bundles p !! path); [done|].
  destruct (App.os_path_exists p path); simpl; [|by intros [= <-]].
  unfold App.joblib_load.
  destruct (App.files _ !! _) as [[b|]|]; [|done..].
  by destruct (App.lightgbm b) as [[?|?]|].
Qed.

End probes_more.

(** X9. The two probes agree.  On the same process [/health] and [/ready]
    both succeed or both fail with the same error, and leave the same
    process behind; [/ready] answers 200 exactly when [/health] reports
    "ready" and 503 exactly when it reports "unavailable".  A "ready"
    [/health] counts at least one loaded model; an "unavailable" one has no
    model version and has not changed the process. *)
Theorem probes_agree {F : Type} `{PyNum F} (p : App.Process (F:=F)) (now : string) :
  (Probes.health now p).2 = (Probes.ready p).2 /\
  match (Probes.health now p).1, (Probes.ready p).1 with
  | Ok h, Ok r =>
      Probes.health_status h = Probes.ready_status r /\
      Probes.timestamp h = now /\
      ((Probes.ready_code r = 200%nat /\ Probes.health_status h = "ready" /\
        (1 <= Probes.models_loaded h)%nat) \/
       (Probes.ready_code r = 503%nat /\ Probes.health_status h = "unavailable" /\
        Probes.modelVersion h = None /\ (Probes.ready p).2 = p))
  | Raise e, Raise e' => e = e'
  | _, _ => False
  end.
Proof.
  split; [by rewrite health_state, ready_state|].
  unfold Probes.health, Probes.ready.
  destruct (App.load_model _ p) as [[[b|]|e] p'] eqn:Hload; simpl; [| |done].
  - split; [done|]. split; [done|]. left. split; [done|]. split; [done|].
    by apply (load_model_Some_size p p' (App.DEFAULT_MODEL_PATH p) b).
  - split; [done|]. split; [done|]. right. split; [done|]. split; [done|]. split; [done|].
    by apply (load_model_None_unchanged p p' (App.DEFAULT_MODEL_PATH p)).
Qed.

(** X10. Readiness warms the cache.  When the environment does not redirect
    the bundle path away from the default and [/ready] has answered 200,
    [/predict] afterwards never answers "Model not ready", reads no file and
    leaves the process as it is; and [/ready] keeps answering 200, even if
    the bundle file is gone. *)
Theorem ready_warms_predict {F : Type} `{PyNum F}
    (p p' : App.Process (F:=F)) (status : string) :
  App.os_getenv p "MODEL_BUNDLE_PATH" (App.DEFAULT_MODEL_PATH p) = App.DEFAULT_MODEL_PATH p ->
  Probes.ready p = (Ok {| Probes.ready_status := status; Probes.ready_code := 200 |}, p') ->
  status = "ready" /\
  (forall data : App.Request (F:=F),
     (App.predict data p').2 = p' /\
     App.body (App.predict data p').1 <> App.ErrorMessage "Model not ready") /\
  (forall fs' : App.FileSystem (F:=F),
     let q := {| App.fs := fs'; App.environ := App.environ p';
                 App.DEFAULT_MODEL_PATH := App.DEFAULT_MODEL_PATH p';
                 App.model_bundles := App.model_bundles p';
                 App.shap_explainers := App.shap_explainers p';
                 App.io_log := App.io_log p' |} in
     Probes.ready q = (Ok {| Probes.ready_status := "ready"; Probes.ready_code := 200 |}, q)).
Proof.
  intros Henv Hready. unfold Probes.ready in Hready.
  destruct (App.load_model _ p) as [[[b|]|e] p1] eqn:Hload; [|done..].
  injection Hready as <- <-.
  destruct (load_model_Some p _ b p1 Hload) as [Hb _].
  pose proof (load_model_extends (App.DEFAULT_MODEL_PATH p) p) as Hext.
  rewrite Hload in Hext. destruct Hext as (_ & Henv' & Hdef & _). simpl in Henv', Hdef.
  assert (App.os_getenv p1 "MODEL_BUNDLE_PATH" (App.DEFAULT_MODEL_PATH p1) =
          App.DEFAULT_MODEL_PATH p) as Hpath.
  { unfold App.os_getenv in *. by rewrite Henv', Hdef. }
  split; [done|]. split.
  - intros data.
    pose proof (predict_cached_cases data p1 b) as Hp. cbv zeta in Hp.
    rewrite Hpath in Hp. specialize (Hp Hb). rewrite Hp.
    destruct (bool_decide _); [done|].
    destruct (App.names_given _ && _); [done|]. split; [done|]. simpl.
    destruct (App.respond _ _ _ _ _) as [resp|e] eqn:Hresp; [|done].
    destruct (respond_explainer _ _ _ _ _ _ Hresp) as (r & _ & _ & -> & _). done.
  - intros fs' q. unfold Probes.ready.
    rewrite (load_model_cached q (App.DEFAULT_MODEL_PATH q) b); [done|].
    simpl. by rewrite Hdef.
Qed.

Lemma ready_warms_predict_witness :
  let p' := (Probes.ready Service.fresh).2 in
  (App.predict Service.three_values p').2 = p' /\
  App.body (App.predict Service.three_values p').1 <> App.ErrorMessage "Model not ready".
Proof.
  intros p'.
  apply (@ready_warms_predict Q Q_PyNum Service.fresh p' "ready").
  - reflexivity.
  - reflexivity.
Defined.

(** X11. A bundle file that cannot be unpickled is not cached: the loader
    raises after reading it and registers nothing, the probes fail,
    [/predict] answers 500 with the loader's error, and the next request
    reads the file again. *)
Theorem unreadable_bundle_is_retried {F : Type} `{PyNum F}
    (p : App.Process (F:=F)) (data : App.Request (F:=F)) :
  let model_path := App.os_getenv p "MODEL_BUNDLE_PATH" (App.DEFAULT_MODEL_PATH p) in
  let p' := App.log_event (App.FileRead (App.abspath (App.fs p) model_path)) p in
  let p'' := App.log_event (App.FileRead (App.abspath (App.fs p) model_path)) p' in
  default [] (App.features data) <> [] ->
  App.model_bundles p !! model_path = None ->
  App.files (App.fs p) !! App.abspath (App.fs p) model_path = Some App.Unreadable ->
  App.load_model model_path p = (Raise (LibraryError "joblib.load"), p') /\
  App.predict data p = (App.jsonify (App.ErrorOf (LibraryError "joblib.load")) 500, p') /\
  App.predict data p' = (App.jsonify (App.ErrorOf (LibraryError "joblib.load")) 500, p'') /\
  (model_path = App.DEFAULT_MODEL_PATH p ->
   Probes.ready p = (Raise (LibraryError "joblib.load"), p')).
Proof.
  intros model_path p' p'' Hne Hcache Hfile.
  assert (forall q : App.Process (F:=F),
            App.model_bundles q !! model_path = None ->
            App.files (App.fs q) !! App.abspath (App.fs q) model_path = Some App.Unreadable ->
            App.load_model model_path q =
            (Raise (LibraryError "joblib.load"),
             App.log_event (App.FileRead (App.abspath (App.fs q) model_path)) q)) as Hload.
  { intros q Hc Hf. unfold App.load_model, App.os_path_exists, App.joblib_load.
    rewrite Hc, Hf. by rewrite bool_decide_eq_true_2. }
  assert (forall q : App.Process (F:=F),
            App.os_getenv q "MODEL_BUNDLE_PATH" (App.DEFAULT_MODEL_PATH q) = model_path ->
            App.model_bundles q !! model_path = None ->
            App.files (App.fs q) !! App.abspath (App.fs q) model_path = Some App.Unreadable ->
            App.predict data q =
            (App.jsonify (App.ErrorOf (LibraryError "joblib.load")) 500,
             App.log_event (App.FileRead (App.abspath (App.fs q) model_path)) q)) as Hpredict.
  { intros q Hpath Hc Hf. unfold App.predict. rewrite predict_try_unfold by done.
    cbv zeta. rewrite Hpath. by rewrite (Hload q Hc Hf). }
  split; [by apply Hload|]. split; [by apply Hpredict|]. split.
  - by apply (Hpredict p').
  - intros Hdef. unfold Probes.ready. rewrite <- Hdef. by rewrite (Hload p Hcache Hfile).
Qed.

Lemma unreadable_bundle_is_retried_witness :
  App.predict Service.three_values Explained.corrupt =
  (App.jsonify (App.ErrorOf (LibraryError "joblib.load")) 500,
   App.log_event (App.FileRead Service.bundle_file) Explained.corrupt).
Proof.
  apply (@unreadable_bundle_is_retried Q Q_PyNum Explained.corrupt Service.three_values).
  - discriminate.
  - reflexivity.
  - reflexivity.
Defined.

(** ** backtest.py: the trading summary as a whole *)

Lemma Qsum_app (xs ys : list Q) : (Qsum (xs ++ ys) == Qsum xs + Qsum ys)%Q.
Proof.
  induction xs as [|x xs IH]; unfold Qsum in *; simpl; [lra|]. rewrite IH. lra.
Qed.

Lemma gains_of_cons (x : Q) (xs : list Q) :
  gains_of (x :: xs) = (if Qltb 0 x then x + gains_of xs else gains_of xs)%Q.
Proof.
  unfold gains_of. destruct (Qltb 0 x) eqn:Hx.
  - rewrite filter_cons_True; [reflexivity|]. apply Is_true_true. exact Hx.
  - rewrite filter_cons_False; [reflexivity|]. intros Ht%Is_true_true. congruence.
Qed.

Lemma losses_of_cons (x : Q) (xs : list Q) :
  losses_of (x :: xs) = (if Qltb x 0 then x + losses_of xs else losses_of xs)%Q.
Proof.
  unfold losses_of. destruct (Qltb x 0) eqn:Hx.
  - rewrite filter_cons_True; [reflexivity|]. apply Is_true_true. exact Hx.
  - rewrite filter_cons_False; [reflexivity|]. intros Ht%Is_true_true. congruence.
Qed.

Lemma Qltb_cases (a b : Q) :
  (Qltb a b = true /\ (a < b)%Q) \/ (Qltb a b = false /\ (b <= a)%Q).
Proof.
  destruct (Qltb a b) eqn:Hab.
  - left. split; [done|]. by apply Qltb_lt.
  - right. split; [done|]. by apply Qltb_ge.
Qed.

Lemma gains_losses_sign (xs : list Q) :
  (0 <= gains_of xs)%Q /\ (losses_of xs <= 0)%Q /\
  (Qsum xs == gains_of xs + losses_of xs)%Q.
Proof.
  induction xs as [|x xs (Hg & Hl & Hsum)].
  - unfold gains_of, losses_of, Qsum. simpl. lra.
  - rewrite gains_of_cons, losses_of_cons.
    change (Qsum (x :: xs)) with (x + Qsum xs)%Q.
    destruct (Qltb_cases 0 x) as [[-> Hx]|[-> Hx]];
      destruct (Qltb_cases x 0) as [[-> Hx']|[-> Hx']]; lra.
Qed.

Lemma losses_of_sublist (xs ys : list Q) :
  ys `sublist_of` xs -> (losses_of xs <= losses_of ys)%Q.
Proof.
  induction 1 as [|x ys xs Hsub IH|x ys xs Hsub IH].
  - lra.
  - rewrite !losses_of_cons. destruct (Qltb x 0); lra.
  - rewrite losses_of_cons.
    destruct (Qltb_cases x 0) as [[-> Hx]|[-> Hx]]; lra.
Qed.

Lemma running_total_lookup_Q (xs : list Q) (e0 : Q) (i : nat) (e : Q) :
  (e0 :: running_total e0 xs) !! i = Some e -> (e == e0 + Qsum (take i xs))%Q.
Proof.
  revert e0 i. induction xs as [|x xs IH]; intros e0 [|i] He; simpl in He.
  - injection He as <-. unfold Qsum. simpl. lra.
  - by destruct i.
  - injection He as <-. unfold Qsum. simpl. lra.
  - apply IH in He. rewrite He.
    change (take (S i) (x :: xs)) with (x :: take i xs).
    change (Qsum (x :: take i xs)) with (x + Qsum (take i xs))%Q.
    change (fadd e0 x) with (e0 + x)%Q. lra.
Qed.

Lemma loss_free_or_not (xs : list Q) :
  Forall (fun x => (0 <= x)%Q) xs \/ Exists (fun x => (x < 0)%Q) xs.
Proof.
  induction xs as [|x xs [IH|IH]].
  - left. constructor.
  - destruct (Qlt_le_dec x 0) as [Hx|Hx].
    + right. by constructor.
    + left. by constructor.
  - right. by constructor 2.
Qed.

Lemma loss_free_losses (xs : list Q) :
  Forall (fun x => (0 <= x)%Q) xs ->
  filter (fun x => Qltb x 0) xs = [] /\ losses_of xs = 0%Q /\ (Qsum xs == gains_of xs)%Q.
Proof.
  intros Hall.
  assert (filter (fun x => Qltb x 0) xs = []) as Hnil.
  { induction Hall as [|x xs Hx Hall IH]; [done|].
    rewrite filter_cons_False; [done|].
    intros Hlt%Is_true_true%Qltb_lt. lra. }
  assert (losses_of xs = 0%Q) as Hl by (unfold losses_of; by rewrite Hnil).
  split; [done|]. split; [done|].
  destruct (gains_losses_sign xs) as (_ & _ & Hsum). rewrite Hl in Hsum. lra.
Qed.

Lemma gain_free_gains (xs : list Q) :
  Forall (fun x => (x <= 0)%Q) xs -> gains_of xs = 0%Q /\ (Qsum xs == losses_of xs)%Q.
Proof.
  intros Hall.
  assert (filter (fun x => Qltb 0 x) xs = []) as Hnil.
  { induction Hall as [|x xs Hx Hall IH]; [done|].
    rewrite filter_cons_False; [done|].
    intros Hlt%Is_true_true%Qltb_lt. lra. }
  assert (gains_of xs = 0%Q) as Hg by (unfold gains_of; by rewrite Hnil).
  split; [done|].
  destruct (gains_losses_sign xs) as (_ & _ & Hsum). rewrite Hg in Hsum. lra.
Qed.

(** The parts of a summary, in exact arithmetic: the curve is the running
    total of the row PnLs, the total is their sum, and the drawdown lies
    between the sum of the losing rows and the smaller of 0 and the total. *)
Lemma summary_parts_Q (df : list (gmap string Q)) (predictions : list string)
    (fee slippage funding : Q) (s : Backtest.Summary Q) :
  (length df <= length predictions)%nat ->
  Backtest.simulate_trades df predictions fee slippage funding = Ok s ->
  let pnls := row_pnls df predictions fee slippage funding in
  Backtest.equityCurve s = 0%Q :: running_total 0%Q pnls /\
  last (Backtest.equityCurve s) = Some (Backtest.totalPnl s) /\
  (Backtest.totalPnl s == Qsum pnls)%Q /\
  (losses_of pnls <= Backtest.maxDrawdown s)%Q /\
  (Backtest.maxDrawdown s <= 0)%Q /\
  (Backtest.maxDrawdown s <= Backtest.totalPnl s)%Q.
Proof.
  intros Hlen Hs pnls.
  rewrite simulate_trades_parallel in Hs by done. cbv zeta in Hs.
  rewrite map_pnl_trades_of in Hs. fold pnls in Hs.
  change (of_int 0) with 0%Q in Hs.
  set (curve := 0%Q :: running_total 0%Q pnls) in *.
  apply rbind_Ok in Hs as (md & Hmd & Hs).
  apply rbind_Ok in Hs as (total & Htotal & Hs).
  injection Hs as <-. simpl.
  assert (last curve = Some total) as Hlast.
  { unfold py_last in Htotal. destruct (last curve); [|done]. by injection Htotal as ->. }
  assert (length curve = S (length pnls)) as Hcurve_len
    by (unfold curve; simpl; by rewrite running_total_length).
  assert (curve !! length pnls = Some total) as Hat.
  { rewrite last_lookup, Hcurve_len in Hlast. exact Hlast. }
  assert (total == Qsum pnls)%Q as Hsum.
  { apply running_total_lookup_Q in Hat. rewrite take_ge in Hat by lia. lra. }
  destruct (drawdown_min_spec curve md Hmd) as (Hlower & i & j & ei & ej & Hji & Hi & Hj & ->).
  split; [done|]. split; [done|]. split; [done|]. split; [|split].
  - pose proof (running_total_lookup_Q _ _ _ _ Hi) as Hei.
    pose proof (running_total_lookup_Q _ _ _ _ Hj) as Hej.
    assert (take i pnls = take j pnls ++ drop j (take i pnls)) as Hsplit.
    { rewrite <- (take_drop j (take i pnls)) at 1. by rewrite take_take, Nat.min_l by lia. }
    assert (Qsum (take i pnls) == Qsum (take j pnls) + Qsum (drop j (take i pnls)))%Q as Hq
      by (rewrite Hsplit at 1; apply Qsum_app).
    assert (drop j (take i pnls) `sublist_of` pnls) as Hsub.
    { etrans; [apply sublist_drop|apply sublist_take]. }
    apply losses_of_sublist in Hsub.
    destruct (gains_losses_sign (drop j (take i pnls))) as (Hg & _ & Hgl). lra.
  - assert (curve !! 0%nat = Some 0%Q) as H0 by done.
    specialize (Hlower 0%nat 0%nat _ _ (le_n _) H0 H0). lra.
  - assert (curve !! 0%nat = Some 0%Q) as H0 by done.
    specialize (Hlower (length pnls) 0%nat _ _ (Nat.le_0_l _) Hat H0). lra.
Qed.

(** X12. The figures of a trading summary fit together (exact arithmetic, a
    prediction for every row).  The total PnL is the last point of the
    equity curve and the sum of the row PnLs, that is gains plus losses; the
    profit factor is never negative; when some row loses, the profit factor
    is above 1 exactly when the total PnL is positive and equals 1 exactly
    when it is zero; when no row loses, the profit factor is the total PnL
    times 10^9. *)
Theorem summary_figures_agree (df : list (gmap string Q)) (predictions : list string)
    (fee slippage funding : Q) :
  (length df <= length predictions)%nat ->
  exists s,
    Backtest.simulate_trades df predictions fee slippage funding = Ok s /\
    let pnls := row_pnls df predictions fee slippage funding in
    last (Backtest.equityCurve s) = Some (Backtest.totalPnl s) /\
    (Backtest.totalPnl s == Qsum pnls)%Q /\
    (Backtest.totalPnl s == gains_of pnls + losses_of pnls)%Q /\
    (0 <= Backtest.profitFactor s)%Q /\
    (Exists (fun x => (x < 0)%Q) pnls ->
       ((1 < Backtest.profitFactor s)%Q <-> (0 < Backtest.totalPnl s)%Q) /\
       ((Backtest.profitFactor s == 1)%Q <-> (Backtest.totalPnl s == 0)%Q)) /\
    (Forall (fun x => (0 <= x)%Q) pnls ->
       (Backtest.profitFactor s == 1000000000 * Backtest.totalPnl s)%Q).
Proof.
  intros Hlen.
  destruct (profit_factor_Q df predictions fee slippage funding Hlen) as (s & Hs & Hpf).
  exists s. split; [done|]. intros pnls. fold pnls in Hpf.
  destruct (summary_parts_Q df predictions fee slippage funding s Hlen Hs)
    as (_ & Hlast & Htotal & _). fold pnls in Htotal.
  destruct (gains_losses_sign pnls) as (Hg & Hl & Hsum).
  assert (py_sum (filter (fun x => Qltb 0 x) pnls) == gains_of pnls)%Q as Hgains
    by apply py_sum_Qsum.
  assert (py_sum (filter (fun x => Qltb x 0) pnls) == losses_of pnls)%Q as Hlosses
    by apply py_sum_Qsum.
  destruct (losses_denominator pnls) as (Hnone & Hsome).
  assert (Exists (fun x => (x < 0)%Q) pnls ->
          (losses_of pnls < 0)%Q /\
          (Backtest.profitFactor s * - losses_of pnls == gains_of pnls)%Q) as Hlosing.
  { intros Hex. destruct (Hsome Hex) as (Hneg & Hden). split; [done|].
    rewrite Hpf, Hden, Hgains, Hlosses.
    rewrite (Qabs_neg (losses_of pnls)) by lra. field. lra. }
  assert (Forall (fun x => (0 <= x)%Q) pnls ->
          (Backtest.profitFactor s == 1000000000 * Backtest.totalPnl s)%Q) as Hfree.
  { intros Hall. rewrite Hpf, (Hnone Hall), Hgains.
    destruct (loss_free_losses pnls Hall) as (_ & _ & Hsum').
    rewrite Htotal, Hsum'. field. }
  split; [done|]. split; [done|]. split; [lra|]. split; [|split; [|done]].
  - destruct (loss_free_or_not pnls) as [Hall|Hex].
    + rewrite (Hfree Hall).
      destruct (loss_free_losses pnls Hall) as (_ & _ & Hsum'). lra.
    + destruct (Hlosing Hex) as (Hneg & Hprod). nra.
  - intros Hex. destruct (Hlosing Hex) as (Hneg & Hprod). split; split; intros; nra.
Qed.

Lemma summary_figures_agree_witness :
  exists s,
    Backtest.simulate_trades (Scenario.rows_Q None None None None) Scenario.predictions
      Scenario.fee_Q Scenario.slippage_Q Scenario.funding_Q = Ok s /\
    (Backtest.totalPnl s ==
       Qsum (row_pnls (Scenario.rows_Q None None None None) Scenario.predictions
               Scenario.fee_Q Scenario.slippage_Q Scenario.funding_Q))%Q /\
    (0 <= Backtest.profitFactor s)%Q.
Proof.
  destruct (summary_figures_agree (Scenario.rows_Q None None None None)
              Scenario.predictions Scenario.fee_Q Scenario.slippage_Q Scenario.funding_Q
              ltac:(simpl; lia)) as (s & Hs & _ & Htotal & _ & Hpf & _).
  exists s. split; [exact Hs|]. split; [exact Htotal | exact Hpf].
Defined.

(** X13. Bounds on the reported maximum drawdown (exact arithmetic, a
    prediction for every row): it is at least the sum of the losing rows'
    PnLs and at most the smaller of 0 and the total PnL; when no row gains,
    the maximum drawdown is the total PnL itself. *)
Theorem drawdown_bounds (df : list (gmap string Q)) (predictions : list string)
    (fee slippage funding : Q) :
  (length df <= length predictions)%nat ->
  exists s,
    Backtest.simulate_trades df predictions fee slippage funding = Ok s /\
    let pnls := row_pnls df predictions fee slippage funding in
    (losses_of pnls <= Backtest.maxDrawdown s)%Q /\
    (Backtest.maxDrawdown s <= 0)%Q /\
    (Backtest.maxDrawdown s <= Backtest.totalPnl s)%Q /\
    (Forall (fun x => (x <= 0)%Q) pnls ->
       (Backtest.maxDrawdown s == Backtest.totalPnl s)%Q).
Proof.
  intros Hlen.
  destruct (simulate_trades_returns df predictions fee slippage funding Hlen)
    as (s & Hs & _).
  exists s. split; [done|]. intros pnls.
  destruct (summary_parts_Q df predictions fee slippage funding s Hlen Hs)
    as (_ & _ & Htotal & Hlow & Hzero & Hhigh). fold pnls in Htotal, Hlow.
  split; [done|]. split; [done|]. split; [done|].
  intros Hall. destruct (gain_free_gains pnls Hall) as (_ & Hsum). lra.
Qed.

Lemma drawdown_bounds_witness :
  exists s,
    Backtest.simulate_trades (Scenario.rows_Q None None None None) Scenario.predictions
      Scenario.fee_Q Scenario.slippage_Q Scenario.funding_Q = Ok s /\
    (losses_of (row_pnls (Scenario.rows_Q None None None None) Scenario.predictions
                  Scenario.fee_Q Scenario.slippage_Q Scenario.funding_Q)
       <= Backtest.maxDrawdown s)%Q /\
    (Backtest.maxDrawdown s <= Backtest.totalPnl s)%Q.
Proof.
  destruct (drawdown_bounds (Scenario.rows_Q None None None None)
              Scenario.predictions Scenario.fee_Q Scenario.slippage_Q Scenario.funding_Q
              ltac:(simpl; lia)) as (s & Hs & Hlow & _ & Hhigh & _).
  exists s. split; [exact Hs|]. split; [exact Hlow | exact Hhigh].
Defined.

Lemma Qsum_const (c : Q) (xs : list Q) :
  Forall (fun x => (x == c)%Q) xs ->
  (Qsum xs == inject_Z (Z.of_nat (length xs)) * c)%Q.
Proof.
  induction 1 as [|x xs Hx Hall IH].
  - change (0 == 0 * c)%Q. lra.
  - change (Qsum (x :: xs)) with (x + Qsum xs)%Q.
    rewrite IH, Hx. simpl length. rewrite Nat2Z.inj_succ, <- Z.add_1_r, inject_Z_plus.
    change (inject_Z 1) with 1%Q. lra.
Qed.

(** A frame on which no row opens a position, in exact arithmetic: the
    equity curve falls by the cost at every row, the total PnL is minus the
    number of rows times the cost, and with a positive cost on a non-empty
    frame the profit factor is 0 and the maximum drawdown is the whole
    loss. *)
Lemma flat_run_exact (df : list (gmap string Q))
    (predictions : list string) (fee slippage funding : Q) :
  (length df <= length predictions)%nat ->
  Forall (fun pred => pred <> "BUY" /\ pred <> "SELL") (take (length df) predictions) ->
  exists s,
    Backtest.simulate_trades df predictions fee slippage funding = Ok s /\
    let cost := ((fee + slippage + funding) / 10000)%Q in
    (forall i e, Backtest.equityCurve s !! i = Some e ->
       (e == - (inject_Z (Z.of_nat i) * cost))%Q) /\
    (Backtest.totalPnl s == - (inject_Z (Z.of_nat (length df)) * cost))%Q /\
    ((0 < cost)%Q -> df <> [] ->
       (Backtest.profitFactor s == 0)%Q /\
       (Backtest.maxDrawdown s == Backtest.totalPnl s)%Q).
Proof.
  intros Hlen Hflat.
  destruct (profit_factor_Q df predictions fee slippage funding Hlen) as (s & Hs & Hpf).
  exists s. split; [done|]. intros cost.
  set (pnls := row_pnls df predictions fee slippage funding) in *.
  destruct (summary_parts_Q df predictions fee slippage funding s Hlen Hs)
    as (Hcurve & _ & Htotal & Hlow & Hzero & Hhigh).
  fold pnls in Hcurve, Htotal, Hlow.
  assert (length pnls = length df) as Hpnls_len.
  { unfold pnls, row_pnls. rewrite length_zip_with. lia. }
  assert (Forall (fun x => (x == - cost)%Q) pnls) as Hall.
  { apply Forall_lookup. intros i x Hx.
    apply lookup_zip_with_Some in Hx as (row & pred & -> & Hrow & Hpred).
    assert (pred <> "BUY" /\ pred <> "SELL") as [Hb Hsell].
    { rewrite Forall_lookup in Hflat. apply (Hflat i).
      rewrite lookup_take_lt; [done|]. by eapply lookup_lt_Some. }
    destruct (row_pnl_cases row pred fee slippage funding) as (_ & _ & Hhold).
    rewrite (Hhold Hb Hsell). unfold cost.
    change (0 - (fee + slippage + funding) / inject_Z 10000 ==
            - ((fee + slippage + funding) / 10000))%Q.
    change (inject_Z 10000) with 10000%Q. lra. }
  assert (forall i, Forall (fun x => (x == - cost)%Q) (take i pnls)) as Htake.
  { intros i. eapply Forall_forall. intros x Hx.
    rewrite Forall_forall in Hall. apply Hall.
    by eapply (subseteq_take i pnls). }
  split; [|split].
  - intros i e He. rewrite Hcurve in He.
    assert (i <= length pnls)%nat as Hi.
    { apply lookup_lt_Some in He. simpl in He. rewrite running_total_length in He. lia. }
    apply running_total_lookup_Q in He.
    rewrite He, (Qsum_const _ _ (Htake i)), length_take, Nat.min_l by lia. lra.
  - rewrite Htotal, (Qsum_const _ _ Hall), Hpnls_len. lra.
  - intros Hcost Hne.
    assert (Forall (fun x => (x <= 0)%Q) pnls) as Hnogain.
    { eapply Forall_impl; [exact Hall|]. intros x Hx. simpl in Hx. lra. }
    destruct (gain_free_gains pnls Hnogain) as (Hg & Hsum).
    split; [|lra].
    assert (py_sum (filter (fun x => Qltb 0 x) pnls) == gains_of pnls)%Q as Hgains
      by apply py_sum_Qsum.
    rewrite Hpf, Hgains, Hg. unfold Qdiv. lra.
Qed.

Lemma row_pnls_flat {F : Type} `{PyNum F} (df : list (gmap string F))
    (predictions : list string) (fee slippage funding : F) :
  (length df <= length predictions)%nat ->
  Forall (fun pred => pred <> "BUY" /\ pred <> "SELL") (take (length df) predictions) ->
  row_pnls df predictions fee slippage funding =
  replicate (length df)
    (fsub (of_int 0) (fdiv (fadd (fadd fee slippage) funding) (of_int 10000))).
Proof.
  revert predictions. induction df as [|row df IH]; intros [|pred predictions] Hlen Hflat;
    simpl in *; [done|done|lia|].
  apply Forall_cons in Hflat as [[Hbuy Hsell] Hflat].
  destruct (row_pnl_cases row pred fee slippage funding) as (_ & _ & Hhold).
  unfold row_pnls in *. simpl. rewrite (Hhold Hbuy Hsell). f_equal.
  apply IH; [lia|done].
Qed.

(** X14. A row whose prediction is neither "BUY" nor "SELL" (HOLD, or any
    other spelling) is not free: it is charged the flat cost.  In the
    arithmetic the code runs on (binary64, or any other), when no row of
    the frame opens a position the equity curve is 0 followed by the running
    sums of one and the same charge, [0 - (fee + slippage + funding) / 10000],
    once per row.  In exact arithmetic, where these sums are not rounded,
    the curve falls by the cost at every row, the total PnL is minus the
    number of rows times the cost, and with a positive cost on a non-empty
    frame the profit factor is 0 and the maximum drawdown is the whole
    loss. *)
Theorem rows_without_position_pay_costs :
  (forall (F : Type) (HF : PyNum F) (df : list (gmap string F))
          (predictions : list string) (fee slippage funding : F),
     (length df <= length predictions)%nat ->
     Forall (fun pred => pred <> "BUY" /\ pred <> "SELL") (take (length df) predictions) ->
     exists s,
       Backtest.simulate_trades df predictions fee slippage funding = Ok s /\
       let charge := fsub (of_int 0) (fdiv (fadd (fadd fee slippage) funding) (of_int 10000)) in
       Backtest.equityCurve s =
         of_int 0 :: running_total (of_int 0) (replicate (length df) charge) /\
       forall i e, (i < length df)%nat -> Backtest.equityCurve s !! i = Some e ->
                   Backtest.equityCurve s !! S i = Some (fadd e charge)) /\
  (forall (df : list (gmap string Q)) (predictions : list string) (fee slippage funding : Q),
     (length df <= length predictions)%nat ->
     Forall (fun pred => pred <> "BUY" /\ pred <> "SELL") (take (length df) predictions) ->
     exists s,
       Backtest.simulate_trades df predictions fee slippage funding = Ok s /\
       let cost := ((fee + slippage + funding) / 10000)%Q in
       (forall i e, Backtest.equityCurve s !! i = Some e ->
          (e == - (inject_Z (Z.of_nat i) * cost))%Q) /\
       (Backtest.totalPnl s == - (inject_Z (Z.of_nat (length df)) * cost))%Q /\
       ((0 < cost)%Q -> df <> [] ->
          (Backtest.profitFactor s == 0)%Q /\
          (Backtest.maxDrawdown s == Backtest.totalPnl s)%Q)).
Proof.
  split; [|exact flat_run_exact].
  intros F HF df predictions fee slippage funding Hlen Hflat.
  destruct (simulate_trades_returns df predictions fee slippage funding Hlen)
    as (s & Hs & Hcurve & _).
  exists s. split; [done|]. intros charge.
  rewrite map_pnl_trades_of, (row_pnls_flat df predictions fee slippage funding Hlen Hflat)
    in Hcurve.
  fold charge in Hcurve. split; [done|].
  intros i e Hi He. rewrite Hcurve in He |- *.
  apply (running_total_step (of_int 0) (replicate (length df) charge) i e charge He).
  by apply lookup_replicate_2.
Qed.

Lemma rows_without_position_pay_costs_witness :
  (exists s,
     Backtest.simulate_trades (Scenario.rows_float None None None None)
       Wider.flat_predictions Scenario.fee_float Scenario.slippage_float
       Scenario.funding_float = Ok s /\
     length (Backtest.equityCurve s) = 4%nat) /\
  (exists s,
     Backtest.simulate_trades (Scenario.rows_Q None None None None) Wider.flat_predictions
       Scenario.fee_Q Scenario.slippage_Q Scenario.funding_Q = Ok s /\
     (Backtest.totalPnl s ==
        - (inject_Z 3 *
           ((Scenario.fee_Q + Scenario.slippage_Q + Scenario.funding_Q) / 10000)))%Q).
Proof.
  destruct rows_without_position_pay_costs as [Hany Hexact]. split.
  - destruct (Hany float float_PyNum (Scenario.rows_float None None None None)
                Wider.flat_predictions Scenario.fee_float Scenario.slippage_float
                Scenario.funding_float ltac:(simpl; lia)) as (s & Hs & Hcurve & _).
    + repeat constructor; discriminate.
    + exists s. split; [exact Hs|]. rewrite Hcurve. reflexivity.
  - destruct (Hexact (Scenario.rows_Q None None None None)
                Wider.flat_predictions Scenario.fee_Q Scenario.slippage_Q Scenario.funding_Q
                ltac:(simpl; lia)) as (s & Hs & _ & Htotal & _).
    + repeat constructor; discriminate.
    + exists s. split; [exact Hs | exact Htotal].
Defined.

(** In binary64 the running sums are rounded: six HOLD rows at the default
    costs do not add up to minus six times the cost. *)
Example flat_run_binary64 :
  exists s,
    Backtest.simulate_trades (replicate 6 (∅ : gmap string float)) (replicate 6 "HOLD")
      7.5%float 5%float 1%float = Ok s /\
    (Backtest.totalPnl s =? - (6 * ((7.5 + 5 + 1) / 10000)))%float = false.
Proof. eexists. split; vm_compute; reflexivity. Qed.

Section reads.
Context {F : Type} `{PyNum F}.

Lemma trade_loop_ext (df df' : list (gmap string F)) (predictions predictions' : list string)
    (fee slippage funding : F) :
  Forall2 (fun row row' =>
             row !! "max_future_return" = row' !! "max_future_return" /\
             row !! "min_future_return" = row' !! "min_future_return") df df' ->
  forall i curve trades,
    (forall k, (k < length df)%nat -> predictions !! (i + k)%nat = predictions' !! (i + k)%nat) ->
    Backtest.trade_loop df i predictions fee slippage funding curve trades =
    Backtest.trade_loop df' i predictions' fee slippage funding curve trades.
Proof.
  induction 1 as [|row row' df df' [Hmax Hmin] Hrows IH]; intros i curve trades Hpred;
    [done|].
  simpl. unfold py_index.
  pose proof (Hpred 0%nat ltac:(simpl; lia)) as Hi. rewrite Nat.add_0_r in Hi.
  rewrite <- Hi. destruct (predictions !! i) as [pred|]; [|done]. simpl.
  assert (Backtest.row_pnl row pred fee slippage funding =
          Backtest.row_pnl row' pred fee slippage funding) as ->.
  { unfold Backtest.row_pnl, Backtest.row_get. by rewrite Hmax, Hmin. }
  destruct (py_last curve) as [prev|]; [|done]. simpl.
  apply IH. intros k Hk.
  replace (S i + k)%nat with (i + S k)%nat by lia. apply Hpred. simpl. lia.
Qed.

End reads.

(** X15. What the simulator reads.  Of each row it uses only the columns
    [max_future_return] and [min_future_return], and of the predictions only
    the first as many as there are rows: two frames that agree on these two
    columns, with predictions that agree on those positions, get the same
    result (the same summary, or the same error). *)
Theorem simulator_reads_two_columns {F : Type} `{PyNum F}
    (df df' : list (gmap string F)) (predictions predictions' : list string)
    (fee slippage funding : F) :
  Forall2 (fun row row' =>
             row !! "max_future_return" = row' !! "max_future_return" /\
             row !! "min_future_return" = row' !! "min_future_return") df df' ->
  take (length df) predictions = take (length df) predictions' ->
  Backtest.simulate_trades df predictions fee slippage funding =
  Backtest.simulate_trades df' predictions' fee slippage funding.
Proof.
  intros Hrows Htake. unfold Backtest.simulate_trades.
  rewrite (trade_loop_ext df df' predictions predictions' fee slippage funding Hrows); [done|].
  intros k Hk. simpl.
  rewrite <- (lookup_take_lt predictions (length df) k Hk).
  rewrite <- (lookup_take_lt predictions' (length df) k Hk).
  by rewrite Htake.
Qed.

Lemma simulator_reads_two_columns_witness :
  Backtest.simulate_trades (Scenario.rows_Q None None None None) Scenario.predictions
    Scenario.fee_Q Scenario.slippage_Q Scenario.funding_Q =
  Backtest.simulate_trades Wider.rows Wider.predictions
    Scenario.fee_Q Scenario.slippage_Q Scenario.funding_Q.
Proof.
  apply (@simulator_reads_two_columns Q Q_PyNum).
  - repeat constructor; vm_compute; reflexivity.
  - reflexivity.
Defined.

(** ** train_model.py: the walk-forward split and the accuracy bands *)

Lemma iloc_partition {A} (k : Z) (df : list A) :
  Train.iloc_to k df ++ Train.iloc_from k df = df.
Proof.
  unfold Train.iloc_to, Train.iloc_from.
  destruct (0 <=? k)%Z; apply take_drop.
Qed.

(** X16. The training split never loses, repeats or reorders a row: whenever
    it returns, the training part followed by the validation part is the
    frame itself, whatever the ratio (also outside 0..1, where the split
    index is negative or beyond the end). *)
Theorem train_val_split_partition {F : Type} `{PyNum F} {A : Type}
    (df : list A) (test_ratio : F) :
  match Train.train_val_split df test_ratio with
  | Ok (train, val) => train ++ val = df
  | Raise e => to_int (fmul (of_int (Z.of_nat (length df))) (fsub (of_int 1) test_ratio))
               = Raise e
  end.
Proof.
  unfold Train.train_val_split.
  destruct (to_int _) as [split_index|e]; simpl; [|done].
  apply iloc_partition.
Qed.

(** X17. Sizes of the split in exact arithmetic, for a ratio between 0 and 1:
    the training part has [floor(n * (1 - ratio))] rows, so the validation
    part has at least [n * ratio] rows and less than one more; a ratio of 0
    leaves the validation part empty and a ratio of 1 the training part. *)
Theorem train_val_split_sizes {A : Type} (df : list A) (test_ratio : Q) :
  (0 <= test_ratio <= 1)%Q ->
  exists train val,
    Train.train_val_split df test_ratio = Ok (train, val) /\
    let n := inject_Z (Z.of_nat (length df)) in
    Z.of_nat (length train) = Qfloor (n * (1 - test_ratio)) /\
    (length train + length val = length df)%nat /\
    (n * test_ratio <= inject_Z (Z.of_nat (length val)))%Q /\
    (inject_Z (Z.of_nat (length val)) < n * test_ratio + 1)%Q /\
    ((test_ratio == 0)%Q -> val = []) /\
    ((test_ratio == 1)%Q -> train = []).
Proof.
  intros [Hlo Hhi].
  set (n := inject_Z (Z.of_nat (length df))).
  assert (0 <= n)%Q as Hn.
  { unfold n. change 0%Q with (inject_Z 0). rewrite <- Zle_Qle. lia. }
  assert (0 <= n * (1 - test_ratio))%Q as Hprod by nra.
  assert (n * (1 - test_ratio) <= n)%Q as Hprod' by nra.
  set (k := Qfloor (n * (1 - test_ratio))).
  assert (0 <= k)%Z as Hk.
  { unfold k. change 0%Z with (Qfloor 0). by apply Qfloor_resp_le. }
  assert (k <= Z.of_nat (length df))%Z as Hk'.
  { unfold k. rewrite <- (Qfloor_Z (Z.of_nat (length df))). by apply Qfloor_resp_le. }
  assert (inject_Z k <= n * (1 - test_ratio))%Q as Hfloor by apply Qfloor_le.
  assert (n * (1 - test_ratio) < inject_Z (k + 1))%Q as Hceil by apply Qlt_floor.
  rewrite inject_Z_plus in Hceil. change (inject_Z 1) with 1%Q in Hceil.
  exists (take (Z.to_nat k) df), (drop (Z.to_nat k) df).
  assert (length (take (Z.to_nat k) df) = Z.to_nat k) as Htake
    by (rewrite length_take; lia).
  assert (length (drop (Z.to_nat k) df) = (length df - Z.to_nat k)%nat) as Hdrop
    by apply length_drop.
  assert (inject_Z (Z.of_nat (length (drop (Z.to_nat k) df))) == n - inject_Z k)%Q as Hval.
  { rewrite Hdrop, Nat2Z.inj_sub, Z2Nat.id by lia.
    unfold Zminus. rewrite inject_Z_plus, inject_Z_opp. unfold n. lra. }
  split.
  { unfold Train.train_val_split.
    change (to_int (fmul (of_int (Z.of_nat (length df))) (fsub (of_int 1) test_ratio)))
      with (@Ok Z (Qtruncate (n * (1 - test_ratio)))) at 1.
    simpl. rewrite (Qtruncate_floor _ Hprod). fold k.
    unfold Train.iloc_to, Train.iloc_from.
    by rewrite (proj2 (Z.leb_le 0 k) Hk). }
  intros n'. subst n'. fold n.
  split; [rewrite Htake; lia|]. split; [rewrite Htake, Hdrop; lia|].
  split; [lra|]. split; [lra|]. split.
  - intros Hzero. apply nil_length_inv. rewrite Hdrop.
    assert (inject_Z (Z.of_nat (length df)) <= inject_Z k)%Q as Hle.
    { fold n. assert (n * (1 - test_ratio) == n)%Q as Heq by (rewrite Hzero; lra).
      assert (Qfloor (n * (1 - test_ratio)) = Qfloor n) as Hfl by (by rewrite Heq).
      fold k in Hfl. unfold n in Hfl at 1. rewrite Qfloor_Z in Hfl. rewrite Hfl.
      unfold n. lra. }
    rewrite <- Zle_Qle in Hle. lia.
  - intros Hone. apply nil_length_inv. rewrite Htake.
    assert (n * (1 - test_ratio) == 0)%Q as Heq by (rewrite Hone; lra).
    assert (inject_Z k <= inject_Z 0)%Q as Hle by (change (inject_Z 0) with 0%Q; lra).
    rewrite <- Zle_Qle in Hle. lia.
Qed.

Lemma train_val_split_sizes_witness :
  exists train val,
    Train.train_val_split [1; 2; 3; 4; 5; 6; 7; 8; 9; 10]%nat (2 # 10)%Q = Ok (train, val) /\
    (length train + length val = 10)%nat.
Proof.
  destruct (@train_val_split_sizes nat [1; 2; 3; 4; 5; 6; 7; 8; 9; 10]%nat (2 # 10)%Q)
    as (train & val & Hsplit & _ & Hsum & _).
  - split; vm_compute; discriminate.
  - exists train, val. split; [exact Hsplit | exact Hsum].
Defined.

(** In binary64 the split index can fall one short of the exact value:
    with 10 rows and a ratio of 0.9, [1 - 0.9] lies below 0.1 and the
    training part is empty. *)
Example train_val_split_binary64 :
  Train.train_val_split [1; 2; 3; 4; 5; 6; 7; 8; 9; 10]%nat 0.9%float =
  Ok ([], [1; 2; 3; 4; 5; 6; 7; 8; 9; 10]%nat) /\
  Train.train_val_split [1; 2; 3; 4; 5; 6; 7; 8; 9; 10]%nat (9 # 10)%Q =
  Ok ([1]%nat, [2; 3; 4; 5; 6; 7; 8; 9; 10]%nat).
Proof. split; vm_compute; reflexivity. Qed.

Lemma band_threshold (t t' accuracy : float) :
  (t <=? t')%float = true -> (t <=? accuracy)%float = false ->
  (t' <=? accuracy)%float = false.
Proof.
  intros Htt' Hta. destruct (t' <=? accuracy)%float eqn:Ht'a; [|done].
  by rewrite (float_leb_trans _ _ _ Htt' Ht'a) in Hta.
Qed.

(** X18. The accuracy band is monotone: a higher accuracy never gets a lower
    band.  The lowest band, "70-75%", is what every accuracy that is not at
    least 0.75 gets (any lower value, and NaN); the highest, "95-99%", is
    what every accuracy of at least 0.95 gets (also above 0.99). *)
Theorem accuracy_range_bands (a b : float) :
  ((a <=? b)%float = true ->
   (band_rank (Train.accuracy_range a) <= band_rank (Train.accuracy_range b))%nat) /\
  (Train.accuracy_range a = "70-75%" <-> (0.75 <=? a)%float = false) /\
  (Train.accuracy_range a = "95-99%" <-> (0.95 <=? a)%float = true).
Proof.
  split; [|split].
  - intros Hab. unfold Train.accuracy_range.
    repeat match goal with
    | |- context [(?t <=? a)%float] =>
        let Ht := fresh "Ht" in
        destruct (t <=? a)%float eqn:Ht; [rewrite (float_leb_trans _ _ _ Ht Hab)|]
    end;
    repeat match goal with
    | |- context [(?t <=? b)%float] => destruct (t <=? b)%float
    end;
    vm_compute; lia.
  - unfold Train.accuracy_range. split.
    + by repeat (destruct (_ <=? a)%float; [discriminate|]).
    + intros H75.
      rewrite (band_threshold 0.75 0.95 a eq_refl H75).
      rewrite (band_threshold 0.75 0.9 a eq_refl H75).
      rewrite (band_threshold 0.75 0.85 a eq_refl H75).
      rewrite (band_threshold 0.75 0.8 a eq_refl H75).
      by rewrite H75.
  - unfold Train.accuracy_range. split.
    + destruct (0.95 <=? a)%float; [done|].
      by repeat (destruct (_ <=? a)%float; [discriminate|]).
    + by intros ->.
Qed.

(** ** backtest.py: the evaluation window *)

Lemma omap_cons_match {A B} (f : A -> option B) (x : A) (l : list A) :
  omap f (x :: l) = match f x with Some y => y :: omap f l | None => omap f l end.
Proof. reflexivity. Qed.

Lemma series_max_snoc (xs : list Q) (x : Q) :
  Window.series_max (xs ++ [x]) =
  match Window.series_max xs with
  | None => Some x
  | Some m => Some (if Qle_bool m x then x else m)
  end.
Proof. unfold Window.series_max. by rewrite fold_left_app. Qed.

Lemma series_max_spec (xs : list Q) :
  match Window.series_max xs with
  | Some m => m ∈ xs /\ Forall (fun x => (x <= m)%Q) xs
  | None => xs = []
  end.
Proof.
  induction xs as [|x xs IH] using rev_ind; [done|].
  rewrite series_max_snoc.
  destruct (Window.series_max xs) as [m|].
  - destruct IH as [Hm Hall].
    destruct (Qle_bool m x) eqn:Hle.
    + apply Qle_bool_iff in Hle. split; [set_solver|].
      apply Forall_app. split; [|constructor; [lra|constructor]].
      eapply Forall_impl; [exact Hall|]. intros y Hy. simpl in Hy. lra.
    + apply Qle_bool_gt in Hle. split; [set_solver|].
      apply Forall_app. split; [done|]. constructor; [lra|constructor].
  - subst xs. split; [set_solver|]. constructor; [lra|constructor].
Qed.

Lemma series_max_filter (P : Q -> bool) (xs : list Q) :
  (forall x y, (x <= y)%Q -> P x = true -> P y = true) ->
  Window.series_max (filter (fun x => P x) xs) =
  match Window.series_max xs with
  | Some m => if P m then Some m else None
  | None => None
  end.
Proof.
  intros Hup. induction xs as [|x xs IH] using rev_ind; [done|].
  rewrite filter_app, series_max_snoc.
  destruct (P x) eqn:Hx.
  - rewrite filter_cons_True by (by apply Is_true_true). rewrite filter_nil.
    rewrite series_max_snoc, IH.
    destruct (Window.series_max xs) as [m|]; [|by rewrite Hx].
    destruct (P m) eqn:Hm.
    + destruct (Qle_bool m x); by rewrite ?Hx, ?Hm.
    + destruct (Qle_bool m x) eqn:Hle; [by rewrite Hx|].
      apply Qle_bool_gt in Hle.
      rewrite (Hup x m) in Hm by (lra || done). done.
  - rewrite filter_cons_False by (intros Ht%Is_true_true; congruence).
    rewrite filter_nil, app_nil_r, IH.
    destruct (Window.series_max xs) as [m|]; [|by rewrite Hx].
    destruct (Qle_bool m x) eqn:Hle; [|done].
    apply Qle_bool_iff in Hle. rewrite Hx.
    destruct (P m) eqn:Hm; [|done]. by rewrite (Hup m x Hle Hm) in Hx.
Qed.

Lemma omap_in_window (rows : list (gmap string Q)) (cutoff : Q) :
  omap (fun row : gmap string Q => row !! "timestamp")
       (filter (fun row => Window.in_window cutoff row) rows) =
  filter (fun t => Qle_bool cutoff t)
         (omap (fun row : gmap string Q => row !! "timestamp") rows).
Proof.
  induction rows as [|row rows IH]; [done|].
  rewrite (omap_cons_match _ row rows).
  destruct (Window.in_window cutoff row) eqn:Hw.
  - rewrite filter_cons_True by (by apply Is_true_true).
    rewrite omap_cons_match. unfold Window.in_window in Hw.
    destruct (row !! "timestamp") as [t|]; [|done].
    rewrite filter_cons_True by (by apply Is_true_true). by rewrite IH.
  - rewrite filter_cons_False by (intros Ht%Is_true_true; congruence).
    unfold Window.in_window in Hw.
    destruct (row !! "timestamp") as [t|]; [|done].
    rewrite filter_cons_False by (intros Ht%Is_true_true; simpl in *; congruence).
    done.
Qed.

Lemma filter_sublist_impl {A} (P Q : A -> bool) (l : list A) :
  (forall x, P x = true -> Q x = true) ->
  filter (fun x => P x) l `sublist_of` filter (fun x => Q x) l.
Proof.
  intros Himpl. induction l as [|x l IH]; [done|].
  destruct (P x) eqn:Hp.
  - rewrite !filter_cons_True by (apply Is_true_true; auto). by constructor.
  - rewrite (filter_cons_False (fun x => P x)) by (intros Ht%Is_true_true; congruence).
    destruct (Q x) eqn:Hq.
    + rewrite filter_cons_True by (by apply Is_true_true). by constructor.
    + rewrite filter_cons_False by (intros Ht%Is_true_true; congruence). done.
Qed.

(** The window of a frame that has a timestamp column. *)
Lemma filter_last_days_unfold (df : Window.DataFrame Q) (days : Z) :
  "timestamp" ∈ Window.columns df ->
  Window.filter_last_days df days =
  match Window.series_max (omap (fun row : gmap string Q => row !! "timestamp")
                                (Window.rows df)) with
  | Some latest =>
      {| Window.columns := Window.columns df;
         Window.rows :=
           filter (fun row => Window.in_window
                                (latest - inject_Z (days * 24 * 60 * 60 * 1000))%Q row)
                  (Window.rows df) |}
  | None => {| Window.columns := Window.columns df; Window.rows := [] |}
  end.
Proof.
  intros Hcol. unfold Window.filter_last_days.
  by rewrite bool_decide_eq_true_2.
Qed.

(** X19. The evaluation window, in exact arithmetic.  On a frame with a
    timestamp column the filter keeps the columns and returns the rows, in
    their order, whose timestamp is not more than [days] days (in
    milliseconds) below any timestamp of the frame; rows without a timestamp
    are dropped.  With [days >= 0] every row carrying the greatest timestamp
    is kept; with [days < 0] no row is. *)
Theorem filter_last_days_window (df : Window.DataFrame Q) (days : Z) :
  "timestamp" ∈ Window.columns df ->
  let out := Window.filter_last_days df days in
  let window := inject_Z (days * 24 * 60 * 60 * 1000) in
  Window.columns out = Window.columns df /\
  Window.rows out `sublist_of` Window.rows df /\
  (forall row, row ∈ Window.rows out <->
     row ∈ Window.rows df /\
     exists t, row !! "timestamp" = Some t /\
       forall row' t', row' ∈ Window.rows df -> row' !! "timestamp" = Some t' ->
                       (t' - window <= t)%Q) /\
  ((0 <= days)%Z ->
   forall row t, row ∈ Window.rows df -> row !! "timestamp" = Some t ->
     (forall row' t', row' ∈ Window.rows df -> row' !! "timestamp" = Some t' -> (t' <= t)%Q) ->
     row ∈ Window.rows out) /\
  ((days < 0)%Z -> Window.rows out = []).
Proof.
  intros Hcol out window.
  assert (forall row, row ∈ Window.rows out <->
     row ∈ Window.rows df /\
     exists t, row !! "timestamp" = Some t /\
       forall row' t', row' ∈ Window.rows df -> row' !! "timestamp" = Some t' ->
                       (t' - window <= t)%Q) as Hchar.
  { intros row. unfold out. rewrite filter_last_days_unfold by done.
    pose proof (series_max_spec (omap (fun row : gmap string Q => row !! "timestamp")
                                      (Window.rows df))) as Hspec.
    destruct (Window.series_max _) as [latest|]; simpl.
    - destruct Hspec as [Hin Hall]. fold window.
      apply list_elem_of_omap in Hin as (top & Htop & Htop_t).
      rewrite list_elem_of_filter. unfold Window.in_window. split.
      + intros [Hw Hrow]. split; [done|].
        destruct (row !! "timestamp") as [t|]; [|done].
        exists t. split; [done|]. intros row' t' Hrow' Ht'.
        apply Is_true_true, Qle_bool_iff in Hw.
        rewrite Forall_forall in Hall.
        assert (t' <= latest)%Q.
        { apply Hall. apply list_elem_of_omap. by exists row'. }
        lra.
      + intros (Hrow & t & Ht & Hbound). split; [|done].
        rewrite Ht. apply Is_true_true, Qle_bool_iff.
        exact (Hbound top latest Htop Htop_t).
    - split; [by intros ?%elem_of_nil|].
      intros (Hrow & t & Ht & _).
      assert (t ∈ omap (fun row : gmap string Q => row !! "timestamp") (Window.rows df))
        as Hin by (apply list_elem_of_omap; by exists row).
      rewrite Hspec in Hin. by apply elem_of_nil in Hin. }
  assert ((0 <= days)%Z -> (0 <= window)%Q) as Hpos.
  { intros Hd. unfold window. change 0%Q with (inject_Z 0). rewrite <- Zle_Qle. lia. }
  assert ((days < 0)%Z -> (window < 0)%Q) as Hneg.
  { intros Hd. unfold window. change 0%Q with (inject_Z 0). rewrite <- Zlt_Qlt. lia. }
  split; [|split; [|split; [done|split]]].
  - unfold out. rewrite filter_last_days_unfold by done.
    by destruct (Window.series_max _).
  - unfold out. rewrite filter_last_days_unfold by done.
    destruct (Window.series_max _); simpl; [apply sublist_filter|apply sublist_nil_l].
  - intros Hdays row t Hrow Ht Hmax. apply Hchar. split; [done|].
    exists t. split; [done|]. intros row' t' Hrow' Ht'.
    specialize (Hmax row' t' Hrow' Ht'). specialize (Hpos Hdays). lra.
  - intros Hdays.
    destruct (Window.rows out) as [|row rest]; [done|].
    assert (row ∈ row :: rest) as Hrow by apply list_elem_of_here.
    apply Hchar in Hrow as (Hrow & t & Ht & Hbound).
    specialize (Hbound row t Hrow Ht). specialize (Hneg Hdays). lra.
Qed.

Lemma filter_last_days_window_witness :
  Window.rows (Window.filter_last_days Ticks.frame 1) `sublist_of` Window.rows Ticks.frame /\
  Ticks.tick 4 ∈ Window.rows (Window.filter_last_days Ticks.frame 1).
Proof.
  destruct (filter_last_days_window Ticks.frame 1) as (_ & Hsub & _ & Hlatest & _).
  - apply (bool_decide_unpack _). vm_compute. exact I.
  - split; [exact Hsub|].
    apply (Hlatest ltac:(lia) (Ticks.tick 4) (inject_Z (1704067200000 + 4 * Ticks.day))).
    + apply list_elem_of_lookup. exists 4%nat. reflexivity.
    + vm_compute. reflexivity.
    + intros row' t' Hrow' Ht'.
      apply list_elem_of_lookup in Hrow' as [i Hi].
      do 5 (destruct i as [|i];
            [injection Hi as <-; vm_compute in Ht'; try discriminate;
             injection Ht' as <-; vm_compute; discriminate|]).
      discriminate.
Defined.

(** X20. Filtering again changes nothing: the filter applied to its own
    result, with the same number of days, returns that result.  A longer
    window keeps at least the rows of a shorter one, in the same order; a
    frame without a timestamp column is returned as it is. *)
Theorem filter_last_days_idempotent (df : Window.DataFrame Q) (days days' : Z) :
  Window.filter_last_days (Window.filter_last_days df days) days =
    Window.filter_last_days df days /\
  ((days <= days')%Z ->
   Window.rows (Window.filter_last_days df days)
     `sublist_of` Window.rows (Window.filter_last_days df days')) /\
  ("timestamp" ∉ Window.columns df -> Window.filter_last_days df days = df).
Proof.
  assert ("timestamp" ∉ Window.columns df ->
          forall d, Window.filter_last_days df d = df) as Hnocol.
  { intros Hcol d. unfold Window.filter_last_days. by rewrite bool_decide_eq_false_2. }
  split; [|split; [|by intros Hcol; apply Hnocol]].
  - destruct (decide ("timestamp" ∈ Window.columns df)) as [Hcol|Hcol];
      [|by rewrite !(Hnocol Hcol)].
    rewrite (filter_last_days_unfold df days Hcol).
    pose proof (series_max_spec (omap (fun row : gmap string Q => row !! "timestamp")
                                      (Window.rows df))) as Hspec.
    destruct (Window.series_max _) as [latest|] eqn:Hmax.
    + destruct Hspec as [_ Hall].
      set (cutoff := (latest - inject_Z (days * 24 * 60 * 60 * 1000))%Q).
      rewrite filter_last_days_unfold by done. simpl.
      rewrite omap_in_window.
      rewrite (series_max_filter (fun t => Qle_bool cutoff t)).
      2:{ intros x y Hxy Hx. apply Qle_bool_iff. apply Qle_bool_iff in Hx. lra. }
      rewrite Hmax. fold cutoff.
      destruct (Qle_bool cutoff latest) eqn:Hle.
      * f_equal. by apply list_filter_filter_l.
      * f_equal. apply Qle_bool_gt in Hle.
        destruct (filter _ (Window.rows df)) as [|row rest] eqn:Hrows; [done|].
        assert (row ∈ filter (fun row => Window.in_window cutoff row) (Window.rows df))
          as Hrow by (rewrite Hrows; apply list_elem_of_here).
        apply list_elem_of_filter in Hrow as [Hw Hrow].
        unfold Window.in_window in Hw.
        destruct (row !! "timestamp") as [t|] eqn:Ht; [|done].
        apply Is_true_true, Qle_bool_iff in Hw.
        rewrite Forall_forall in Hall.
        assert (t <= latest)%Q by (apply Hall, list_elem_of_omap; by exists row).
        lra.
    + by rewrite filter_last_days_unfold.
  - intros Hdays.
    destruct (decide ("timestamp" ∈ Window.columns df)) as [Hcol|Hcol];
      [|by rewrite !(Hnocol Hcol)].
    rewrite !filter_last_days_unfold by done.
    destruct (Window.series_max _) as [latest|]; [|done]. simpl.
    apply filter_sublist_impl. intros row. unfold Window.in_window.
    destruct (row !! "timestamp") as [t|]; [|done].
    rewrite !Qle_bool_iff. intros Ht.
    assert (inject_Z (days * 24 * 60 * 60 * 1000) <= inject_Z (days' * 24 * 60 * 60 * 1000))%Q
      by (rewrite <- Zle_Qle; lia).
    lra.
Qed.

(** ** app.py: how many explanations, and which responses *)

(** X21. The number of explanations.  With [P] strictly positive and [N]
    strictly negative contributions among the (name, contribution) pairs,
    the ranker returns [min 6 (P + min 3 N)] lines; surplus names or
    contributions are ignored.  With 6 or more positive contributions no
    line reports a negative one.  Every reported contribution passed the
    code's test [> 0] (supports) or [< 0] (reduces), so that a contribution
    of zero, or a NaN, is never reported. *)
Theorem explanation_count {F : Type} `{PyNum F}
    (feature_names : list string) (contributions : list F) :
  let pairs := zip feature_names contributions in
  let P := length (filter (fun fc => fltb (of_int 0) (snd fc)) pairs) in
  let N := length (filter (fun fc => fltb (snd fc) (of_int 0)) pairs) in
  length (App.format_explanations feature_names contributions) =
    Nat.min 6 (P + Nat.min 3 N) /\
  ((6 <= P)%nat ->
   Forall (fun e => App.is_supports e = true)
          (App.explanation_entries feature_names contributions)) /\
  Forall (fun e => if App.is_supports e
                   then fltb (of_int 0) (App.contribution e) = true
                   else fltb (App.contribution e) (of_int 0) = true)
         (App.explanation_entries feature_names contributions).
Proof.
  intros pairs P N.
  set (sorted := App.sorted_contribs feature_names contributions).
  assert (sorted ≡ₚ pairs) as Hperm by apply sort_desc_Permutation.
  assert (length (App.top_positive sorted) = Nat.min 6 P) as Hpos.
  { unfold App.top_positive. rewrite length_take. unfold P. by rewrite Hperm. }
  assert (length (App.top_negative sorted) = Nat.min 3 N) as Hneg.
  { unfold App.top_negative, py_suffix. rewrite length_drop. unfold N.
    rewrite Hperm. lia. }
  split; [|split].
  - rewrite format_explanations_render, length_map, explanation_entries_split.
    fold sorted. rewrite length_app, !length_map, length_take, Hpos, Hneg. lia.
  - intros HP. rewrite explanation_entries_split. fold sorted.
    rewrite Hpos. replace (6 - Nat.min 6 P)%nat with 0%nat by lia.
    rewrite take_0, app_nil_r.
    apply Forall_forall. intros e He.
    apply list_elem_of_fmap in He as (fc & -> & _). done.
  - rewrite explanation_entries_split. fold sorted.
    apply Forall_app. split; apply Forall_forall; intros e He;
      apply list_elem_of_fmap in He as (fc & -> & Hfc); simpl.
    + unfold App.top_positive in Hfc. apply subseteq_take in Hfc.
      apply list_elem_of_filter in Hfc as [Hsign _]. by apply Is_true_true.
    + apply subseteq_take in Hfc. unfold App.top_negative, py_suffix in Hfc.
      apply subseteq_drop in Hfc.
      apply list_elem_of_filter in Hfc as [Hsign _]. by apply Is_true_true.
Qed.

(** X22. [/predict] never fails and answers with one of four statuses.  200
    always carries a prediction; 400 is one of the two validation messages
    and 503 is "Model not ready", and these three error answers leave the
    registries as they were; 500 carries the error that was raised. *)
Theorem predict_statuses {F : Type} `{PyNum F}
    (data : App.Request (F:=F)) (p : App.Process (F:=F)) :
  let response := (App.predict data p).1 in
  let p' := (App.predict data p).2 in
  (App.status response = 200%nat /\ exists r, App.body response = App.PredictionBody r) \/
  (App.status response = 400%nat /\ p' = p /\
   App.body response = App.ErrorMessage "No features provided") \/
  (App.status response = 400%nat /\
   App.body response = App.ErrorMessage "Feature count mismatch") \/
  (App.status response = 503%nat /\ p' = p /\
   App.body response = App.ErrorMessage "Model not ready") \/
  (App.status response = 500%nat /\ exists e, App.body response = App.ErrorOf e).
Proof.
  intros response p'. unfold response, p', App.predict, App.predict_try.
  destruct (bool_decide _); simpl; [right; left; done|].
  destruct (App.load_model _ p) as [[[bundle|]|e] p1] eqn:Hload; simpl.
  - destruct (App.names_given _ && _); simpl; [right; right; left; done|].
    destruct (App.respond _ _ _ _ _) as [resp|e] eqn:Hresp; simpl.
    + destruct (respond_explainer _ _ _ _ _ _ Hresp) as (r & _ & _ & -> & _).
      left. split; [done|]. by exists r.
    + do 4 right. split; [done|]. by exists e.
  - do 3 right. left. split; [done|]. split; [|done].
    by apply (load_model_None_unchanged p p1 _ Hload).
  - do 4 right. split; [done|]. by exists e.
Qed.

(** ** backtest.py and app.py: one bundle file, two loaders *)

(** X23. The backtester and the service read the same bundle.  For a path
    the service has not cached, [load_bundle] returns a bundle exactly when
    [load_model] returns it; where [load_bundle] raises because the file is
    missing, [load_model] returns [None]; where unpickling raises, both
    raise the same error.  Unlike the service, [load_bundle] registers
    nothing, so it reads the file again on every call: a second call gives
    the same result and logs a second read of the file. *)
Theorem loaders_agree {F : Type} `{PyNum F} (p : App.Process (F:=F)) (path : string) :
  App.model_bundles p !! path = None ->
  match (Runner.load_bundle path p).1 with
  | Ok b => (App.load_model path p).1 = Ok (Some b)
  | Raise e =>
      if App.os_path_exists p path then (App.load_model path p).1 = Raise e
      else e = LibraryError "FileNotFoundError" /\ App.load_model path p = (Ok None, p)
  end /\
  App.model_bundles (Runner.load_bundle path p).2 = App.model_bundles p /\
  App.shap_explainers (Runner.load_bundle path p).2 = App.shap_explainers p /\
  (Runner.load_bundle path (Runner.load_bundle path p).2).1 = (Runner.load_bundle path p).1 /\
  (App.os_path_exists p path = true ->
   App.io_log (Runner.load_bundle path (Runner.load_bundle path p).2).2 =
     App.io_log p ++ [App.FileRead (App.abspath (App.fs p) path);
                      App.FileRead (App.abspath (App.fs p) path)]).
Proof.
  intros Hcache. unfold Runner.load_bundle, App.load_model. rewrite Hcache.
  assert (forall ev, App.os_path_exists (App.log_event ev p) path = App.os_path_exists p path)
    as Hsame by done.
  destruct (App.os_path_exists p path) eqn:Hex; simpl; [|by rewrite Hex].
  unfold App.joblib_load.
  destruct (App.files (App.fs p) !! App.abspath (App.fs p) path) as [[b|]|] eqn:Hfile; simpl.
  - split; [by destruct (App.lightgbm b) as [[?|?]|]|].
    split; [done|]. split; [done|]. rewrite Hsame. simpl. rewrite Hfile. simpl.
    split; [done|]. intros _. by rewrite <- app_assoc.
  - split; [done|]. split; [done|]. split; [done|]. rewrite Hsame. simpl. rewrite Hfile.
    simpl. split; [done|]. intros _. by rewrite <- app_assoc.
  - unfold App.os_path_exists in Hex. rewrite Hfile in Hex.
    apply bool_decide_eq_true in Hex. by destruct Hex.
Qed.

Lemma loaders_agree_witness :
  (Runner.load_bundle "./models/latest/model_bundle.joblib" Service.fresh).1 =
    Ok Service.sample_bundle /\
  (App.load_model "./models/latest/model_bundle.joblib" Service.fresh).1 =
    Ok (Some Service.sample_bundle).
Proof.
  pose proof (@loaders_agree Q Q_PyNum Service.fresh "./models/latest/model_bundle.joblib"
                eq_refl) as [Hagree _].
  split; [reflexivity | exact Hagree].
Defined.

(** ** binary64: instances of the two floating-point lemmas *)

Lemma drawdown_nonpositive_binary64_witness :
  exists s,
    Backtest.simulate_trades (Scenario.rows_float None None None None) Scenario.predictions
      Scenario.fee_float Scenario.slippage_float Scenario.funding_float = Ok s /\
    (Backtest.maxDrawdown s <=? 0)%float = true.
Proof.
  destruct (drawdown_nonpositive_binary64 (Scenario.rows_float None None None None)
              Scenario.predictions Scenario.fee_float Scenario.slippage_float
              Scenario.funding_float ltac:(simpl; lia)) as (s & Hs & Hmd).
  exists s. split; [exact Hs|].
  apply Hmd. pose proof Hs as Hvalue. vm_compute in Hvalue. injection Hvalue as <-.
  vm_compute. repeat constructor.
Defined.

Lemma confidence_floor_binary64_witness :
  exists q, to_Q (fmul 0.29%float (of_int 100)) = Some q /\ (0 <= q)%Q /\ 28%Z = Qfloor q.
Proof.
  apply (confidence_floor_binary64 0.29%float 28%Z).
  - vm_compute. reflexivity.
  - vm_compute. reflexivity.
Defined.

(** ** binary64: NaN, equality and the reductions of the simulator *)

Lemma SFcompare_refl (x : spec_float) : x <> S754_nan -> SFcompare x x = Some Eq.
Proof.
  destruct x as [s|s| |s m e]; simpl; try done; intros _; destruct s; try done.
  - by rewrite Z.compare_refl, Pos.compare_cont_refl.
  - by rewrite Z.compare_refl, Pos.compare_cont_refl.
Qed.

Lemma is_nan_true (x : float) : PrimFloat.is_nan x = true -> Prim2SF x = S754_nan.
Proof.
  unfold PrimFloat.is_nan. rewrite FloatAxioms.eqb_spec. unfold SFeqb. intros Hnan.
  destruct (Prim2SF x) as [s|s| |s m e] eqn:Hx; [| |done|];
    by rewrite SFcompare_refl in Hnan.
Qed.

Lemma is_nan_spec (x : float) :
  PrimFloat.is_nan x = true <-> Prim2SF x = S754_nan.
Proof.
  split; [apply is_nan_true|].
  intros Hx. unfold PrimFloat.is_nan. rewrite FloatAxioms.eqb_spec, Hx. done.
Qed.

Lemma SFleb_not_nan (x y : spec_float) :
  SFleb x y = true -> x <> S754_nan /\ y <> S754_nan.
Proof. unfold SFleb. by destruct x, y. Qed.

Lemma float_leb_not_nan (x y : float) :
  (x <=? y)%float = true -> PrimFloat.is_nan x = false /\ PrimFloat.is_nan y = false.
Proof.
  rewrite FloatAxioms.leb_spec. intros [Hx Hy]%SFleb_not_nan.
  split; apply not_true_is_false; by intros ?%is_nan_true.
Qed.

Lemma float_leb_nan (x y : float) :
  PrimFloat.is_nan x = true \/ PrimFloat.is_nan y = true -> (x <=? y)%float = false.
Proof.
  intros Hnan. destruct (x <=? y)%float eqn:Hle; [|done].
  apply float_leb_not_nan in Hle as [Hx Hy]. destruct Hnan; congruence.
Qed.

Lemma SFleb_antisym (x y : spec_float) :
  SFleb x y = true -> SFleb y x = true -> SFeqb x y = true.
Proof.
  unfold SFleb, SFeqb, SFcompare.
  destruct x as [sx|sx| |sx mx ex], y as [sy|sy| |sy my ey];
    try destruct sx; try destruct sy; simpl; try (intros; congruence);
    intros Hxy Hyx; compare_cases; simpl in *; try congruence; try lia.
Qed.

Lemma SFeqb_leb (x y : spec_float) :
  SFeqb x y = true -> SFleb x y = true /\ SFleb y x = true.
Proof.
  unfold SFleb, SFeqb, SFcompare.
  destruct x as [sx|sx| |sx mx ex], y as [sy|sy| |sy my ey];
    try destruct sx; try destruct sy; simpl; try (intros; congruence);
    intros Hxy; compare_cases; simpl in *; try congruence; try lia; subst;
    rewrite ?Z.compare_refl, ?Pos.compare_cont_refl; done.
Qed.

Lemma float_eqb_leb (x y : float) :
  (x =? y)%float = true <-> (x <=? y)%float = true /\ (y <=? x)%float = true.
Proof.
  rewrite FloatAxioms.eqb_spec, !FloatAxioms.leb_spec. split.
  - apply SFeqb_leb.
  - intros [Hxy Hyx]. by apply SFleb_antisym.
Qed.

(** Two equal numbers differ by a zero, unless the difference is NaN (as
    it is for two infinities). *)
Lemma SFsub_eq (x y : spec_float) :
  SFeqb x y = true ->
  FloatAxioms.SF64sub x y <> S754_nan ->
  exists s, FloatAxioms.SF64sub x y = S754_zero s.
Proof.
  unfold SFeqb, SFcompare, FloatAxioms.SF64sub, SFsub.
  destruct x as [sx|sx| |sx mx ex], y as [sy|sy| |sy my ey];
    try destruct sx; try destruct sy; simpl; try (intros; congruence); eauto;
    intros Heq _; compare_cases; simpl in *; try congruence; subst;
    rewrite Z.sub_diag; simpl; eauto.
Qed.

Lemma float_sub_eq (x y : float) :
  (x =? y)%float = true -> PrimFloat.is_nan (x - y)%float = false ->
  (x - y =? 0)%float = true.
Proof.
  intros Heq Hnan. apply is_nan_false in Hnan.
  rewrite FloatAxioms.eqb_spec in Heq |- *.
  rewrite FloatAxioms.sub_spec in Hnan |- *.
  destruct (SFsub_eq _ _ Heq Hnan) as [s ->].
  change (Prim2SF 0%float) with (S754_zero false). done.
Qed.

Lemma fold_np_minimum_elem {F} `{PyNum F} (rest : list F) (x : F) :
  fold_left np_minimum rest x ∈ x :: rest.
Proof.
  revert x. induction rest as [|y rest IH]; intros x; simpl; [apply list_elem_of_here|].
  specialize (IH (np_minimum x y)).
  apply elem_of_cons in IH as [Heq|Hin].
  - rewrite Heq. unfold np_minimum.
    destruct (fleb x y || fisnan x); [apply list_elem_of_here|].
    apply list_elem_of_further, list_elem_of_here.
  - by do 2 apply list_elem_of_further.
Qed.

(** [np.minimum] propagates NaN, and so does the reduction. *)
Lemma fold_np_minimum_nan (rest : list float) (x : float) :
  PrimFloat.is_nan x = true \/ Exists (fun d => PrimFloat.is_nan d = true) rest ->
  PrimFloat.is_nan (fold_left np_minimum rest x) = true.
Proof.
  revert x. induction rest as [|y rest IH]; intros x Hnan; simpl.
  - destruct Hnan as [Hx|Hex]; [done|]. by apply Exists_nil in Hex.
  - apply IH. unfold np_minimum. simpl.
    destruct (PrimFloat.is_nan x) eqn:Hx.
    + rewrite orb_true_r. by left.
    + rewrite orb_false_r. destruct Hnan as [Hx'|Hex]; [congruence|].
      apply Exists_cons in Hex as [Hy|Hrest]; [|by right].
      rewrite float_leb_nan by (by right). by left.
Qed.

Lemma float_eqb_sym (x y : float) : (x =? y)%float = true -> (y =? x)%float = true.
Proof. rewrite !float_eqb_leb. tauto. Qed.

(** Along a curve that never decreases, the running peak is equal to the
    curve. *)
Lemma accumulate_from_nondecreasing (xs : list float) (acc prev : float) :
  (acc =? prev)%float = true ->
  (forall i a b, (prev :: xs) !! i = Some a -> (prev :: xs) !! S i = Some b ->
     (a <=? b)%float = true) ->
  forall k x pk, xs !! k = Some x -> accumulate_from acc xs !! k = Some pk ->
                 (x =? pk)%float = true.
Proof.
  revert acc prev. induction xs as [|y xs IH]; intros acc prev Heq Hmono k x pk Hx Hpk;
    [done|].
  assert ((prev <=? y)%float = true) as Hprev by (by apply (Hmono 0%nat)).
  apply float_eqb_leb in Heq as [Hacc_prev Hprev_acc].
  assert ((y =? np_maximum acc y)%float = true) as Hy.
  { unfold np_maximum. simpl.
    destruct (y <=? acc)%float eqn:Hle; simpl.
    - apply float_eqb_leb. split; [done|].
      by apply (float_leb_trans _ prev).
    - apply float_leb_not_nan in Hacc_prev as [Hnan _]. rewrite Hnan.
      apply float_eqb_leb.
      apply float_leb_not_nan in Hprev as [_ Hy].
      split; by apply float_leb_refl. }
  simpl in Hpk. destruct k as [|k]; simpl in Hx, Hpk.
  - injection Hx as <-. by injection Hpk as <-.
  - apply (IH (np_maximum acc y) y (float_eqb_sym _ _ Hy)) with (k := k); [|done..].
    intros i a b Ha Hb. by apply (Hmono (S i)).
Qed.

Lemma drawdown_of_nondecreasing (curve : list float) :
  (forall e0, curve !! 0%nat = Some e0 -> PrimFloat.is_nan e0 = false) ->
  (forall i a b, curve !! i = Some a -> curve !! S i = Some b -> (a <=? b)%float = true) ->
  Forall (fun d => PrimFloat.is_nan d = false)
         (zip_with PrimFloat.sub curve (np_maximum_accumulate curve)) ->
  Forall (fun d => (d =? 0)%float = true)
         (zip_with PrimFloat.sub curve (np_maximum_accumulate curve)).
Proof.
  intros Hfirst Hmono Hnan. apply Forall_lookup. intros k d Hd.
  rewrite Forall_lookup in Hnan. specialize (Hnan k d Hd).
  apply lookup_zip_with_Some in Hd as (x & pk & -> & Hx & Hpk).
  apply float_sub_eq; [|done].
  destruct curve as [|e0 rest]; [done|]. simpl in Hpk.
  assert ((e0 =? e0)%float = true) as He0.
  { apply float_eqb_leb. split; apply float_leb_refl; by apply Hfirst. }
  destruct k as [|k]; simpl in Hx, Hpk.
  - injection Hx as <-. by injection Hpk as <-.
  - by apply (accumulate_from_nondecreasing rest e0 e0 He0 Hmono k).
Qed.

(** C6, as the code computes it.  With a prediction for every row (with
    fewer, [predictions[i]] raises [IndexError]) the simulator returns, in
    binary64, a summary whose equity curve has one entry more than there
    are rows, starts at 0 and grows at each row by that row's net PnL.  The
    reported maximum drawdown is the reduction with [np.minimum] of equity
    minus running peak, and is one of these differences.  When none of the
    differences is NaN it is below every one of them and is not positive,
    and it is zero when moreover the curve never decreases; when one of
    them is NaN (as after a NaN return on a BUY row) it is NaN, and so not
    below 0. *)
Theorem equity_curve_and_drawdown
    (df : list (gmap string float)) (predictions : list string)
    (fee slippage funding : float) :
  (length df <= length predictions)%nat ->
  exists s,
    Backtest.simulate_trades df predictions fee slippage funding = Ok s /\
    length (Backtest.equityCurve s) = (length df + 1)%nat /\
    Backtest.equityCurve s !! 0%nat = Some 0%float /\
    (forall i row pred e,
       df !! i = Some row -> predictions !! i = Some pred ->
       Backtest.equityCurve s !! i = Some e ->
       Backtest.equityCurve s !! S i =
         Some (e + Backtest.row_pnl row pred fee slippage funding)%float) /\
    let drawdown :=
      zip_with PrimFloat.sub (Backtest.equityCurve s)
               (np_maximum_accumulate (Backtest.equityCurve s)) in
    np_min drawdown = Ok (Backtest.maxDrawdown s) /\
    Backtest.maxDrawdown s ∈ drawdown /\
    (Forall (fun d => PrimFloat.is_nan d = false) drawdown ->
       (Backtest.maxDrawdown s <=? 0)%float = true /\
       Forall (fun d => (Backtest.maxDrawdown s <=? d)%float = true) drawdown /\
       ((forall i a b, Backtest.equityCurve s !! i = Some a ->
           Backtest.equityCurve s !! S i = Some b -> (a <=? b)%float = true) ->
        (Backtest.maxDrawdown s =? 0)%float = true)) /\
    (Exists (fun d => PrimFloat.is_nan d = true) drawdown ->
       PrimFloat.is_nan (Backtest.maxDrawdown s) = true /\
       (Backtest.maxDrawdown s <=? 0)%float = false).
Proof.
  intros Hlen.
  destruct (simulate_trades_returns df predictions fee slippage funding Hlen)
    as (s & Hs & Hcurve & Hmd & _).
  destruct (equity_curve_shape df predictions fee slippage funding s Hlen Hs)
    as (Hlength & Hfirst & Hstep).
  exists s. split; [done|]. split; [done|]. split; [done|]. split; [done|].
  intros drawdown. change (np_min drawdown = Ok (Backtest.maxDrawdown s)) in Hmd.
  split; [done|].
  assert (exists rest, drawdown = 0%float :: rest) as (rest & Hd).
  { unfold drawdown. rewrite Hcurve. simpl. eexists. reflexivity. }
  pose proof Hmd as Hfold. rewrite Hd in Hfold. simpl in Hfold. injection Hfold as Hfold.
  assert (Backtest.maxDrawdown s ∈ drawdown) as Hmem.
  { rewrite Hd, <- Hfold. apply fold_np_minimum_elem. }
  split; [done|]. split.
  - intros Hnan. pose proof Hnan as Hnan'. rewrite Hd in Hnan'.
    apply Forall_cons in Hnan' as (H0 & Hrest).
    destruct (fold_np_minimum_float rest 0%float H0 Hrest) as (Hm & Hall).
    rewrite Hfold in Hm, Hall.
    split; [done|]. split; [rewrite Hd; by constructor|].
    intros Hmono.
    assert (Forall (fun d => (d =? 0)%float = true) drawdown) as Hzero.
    { apply drawdown_of_nondecreasing; [|done..].
      intros e0 He0. rewrite Hfirst in He0. by injection He0 as <-. }
    rewrite Forall_forall in Hzero. by apply Hzero.
  - intros Hex.
    assert (PrimFloat.is_nan (Backtest.maxDrawdown s) = true) as Hnan.
    { rewrite <- Hfold. apply fold_np_minimum_nan.
      rewrite Hd in Hex. apply Exists_cons in Hex as [H0|Hrest]; [by left|by right]. }
    split; [done|]. apply float_leb_nan. by left.
Qed.

Lemma equity_curve_and_drawdown_witness :
  exists s,
    Backtest.simulate_trades (Scenario.rows_float None None None None) Scenario.predictions
      Scenario.fee_float Scenario.slippage_float Scenario.funding_float = Ok s /\
    length (Backtest.equityCurve s) = 4%nat /\
    Backtest.maxDrawdown s ∈
      zip_with PrimFloat.sub (Backtest.equityCurve s)
               (np_maximum_accumulate (Backtest.equityCurve s)).
Proof.
  destruct (equity_curve_and_drawdown (Scenario.rows_float None None None None)
              Scenario.predictions Scenario.fee_float Scenario.slippage_float
              Scenario.funding_float ltac:(simpl; lia))
    as (s & Hs & Hlen & _ & _ & _ & Hmem & _).
  exists s. split; [exact Hs|]. split; [exact Hlen | exact Hmem].
Defined.

(** A NaN among the returns reaches the summary: the reported maximum
    drawdown is NaN, which is not below 0. *)
Lemma drawdown_can_be_nan :
  exists s,
    Backtest.simulate_trades NaNReturn.rows NaNReturn.predictions 0%float 0%float 0%float
      = Ok s /\
    PrimFloat.is_nan (Backtest.maxDrawdown s) = true /\
    (Backtest.maxDrawdown s <=? 0)%float = false.
Proof.
  eexists. split; [vm_compute; reflexivity|]. vm_compute. split; reflexivity.
Qed.

(** ** binary64: the selected class and the confidence *)

Lemma argmax_scan_max_binary64 (xs pre : list float) (mp : float) (max_ind : nat) :
  (pre ++ xs) !! max_ind = Some mp -> (max_ind < length pre)%nat ->
  Forall (fun q => PrimFloat.is_nan q = false) (pre ++ xs) ->
  Forall (fun q => (q <=? mp)%float = true) pre ->
  exists m, (pre ++ xs) !! App.argmax_scan mp max_ind (length pre) xs = Some m /\
            Forall (fun q => (q <=? m)%float = true) (pre ++ xs).
Proof.
  revert pre mp max_ind.
  induction xs as [|x xs IH]; intros pre mp max_ind Hmp Hlt Hnan Hall.
  - simpl. exists mp. split; [done|]. by rewrite app_nil_r.
  - assert (PrimFloat.is_nan mp = false) as Hmp_nan.
    { rewrite Forall_lookup in Hnan. by apply (Hnan max_ind). }
    assert (PrimFloat.is_nan x = false) as Hx_nan.
    { rewrite Forall_forall in Hnan. apply Hnan. set_solver. }
    simpl. change (fisnan mp) with (PrimFloat.is_nan mp). rewrite Hmp_nan.
    change (fleb x mp) with (x <=? mp)%float.
    rewrite (cons_middle x pre xs), app_assoc in Hmp, Hnan |- *.
    replace (S (length pre)) with (length (pre ++ [x]))
      by (rewrite length_app; simpl; lia).
    destruct (x <=? mp)%float eqn:Hle; simpl.
    + apply IH; [done|rewrite length_app; simpl; lia|done|].
      apply Forall_app. split; [done|]. by constructor.
    + pose proof (float_leb_total x mp Hx_nan Hmp_nan Hle) as Hgt.
      apply IH.
      * rewrite lookup_app_l by (rewrite length_app; simpl; lia).
        by rewrite lookup_app_r, Nat.sub_diag by lia.
      * rewrite length_app. simpl. lia.
      * done.
      * apply Forall_app. split.
        -- eapply Forall_impl; [exact Hall|]. intros q Hq. simpl in Hq.
           by apply (float_leb_trans _ mp).
        -- constructor; [by apply float_leb_refl|constructor].
Qed.

Lemma np_argmax_max_binary64 (probs : list float) (idx : nat) :
  Forall (fun q => PrimFloat.is_nan q = false) probs ->
  App.np_argmax probs = Ok idx ->
  exists m, probs !! idx = Some m /\ Forall (fun q => (q <=? m)%float = true) probs.
Proof.
  destruct probs as [|x rest]; simpl; [done|]. intros Hnan [= <-].
  apply (argmax_scan_max_binary64 rest [x] x 0); [done|simpl; lia|done|].
  apply Forall_cons in Hnan as [Hx _].
  constructor; [by apply float_leb_refl|constructor].
Qed.

(** C4, as the code computes it.  When the classifiers return probabilities,
    every prediction response of the service, which runs on binary64, has
    status 200 and carries a selected probability in [0,1] (the largest of
    the classifier's probabilities, at the position of the signal's class);
    a confidence that is [int(probability * 100)], the floor of the exact
    value of the rounded product, not negative; and a probability map whose
    keys are exactly BUY, SELL and HOLD: a label among the trained classes
    is mapped to the classifier's probability at the label's position, a
    number of [0,1], and any other label to null.  Building the entry of an
    untrained label never raises. *)
Theorem prediction_confidence_and_probabilities
    (data : App.Request (F:=float)) (p p' : App.Process (F:=float))
    (resp : App.Response (F:=float)) (r : App.Prediction (F:=float)) :
  calibrated_process_binary64 p ->
  App.predict data p = (resp, p') ->
  App.body resp = App.PredictionBody r ->
  App.status resp = 200%nat /\
  in_unit_binary64 (App.probability r) /\
  to_int (App.probability r * 100)%float = Ok (App.confidence r) /\
  (exists q, to_Q (App.probability r * 100)%float = Some q /\ (0 <= q)%Q /\
             App.confidence r = Qfloor q) /\
  (0 <= App.confidence r)%Z /\
  dom (App.probabilities r) = ({[ "BUY"; "SELL"; "HOLD" ]} : gset string) /\
  (exists bundle scaled probs,
     App.model_bundles p' !!
       App.os_getenv p "MODEL_BUNDLE_PATH" (App.DEFAULT_MODEL_PATH p) = Some bundle /\
     App.model bundle scaled = Ok probs /\
     (exists idx, probs !! idx = Some (App.probability r) /\
                  App.label_encoder bundle !! idx = Some (App.signal r)) /\
     Forall (fun q => (q <=? App.probability r)%float = true) probs /\
     forall label, label ∈ ["BUY"; "SELL"; "HOLD"] ->
       (label ∈ App.label_encoder bundle ->
          exists idx q, App.label_encoder bundle !! idx = Some label /\
                        probs !! idx = Some q /\ in_unit_binary64 q /\
                        App.probabilities r !! label = Some (Some q)) /\
       (label ∉ App.label_encoder bundle ->
          App.probabilities r !! label = Some None)) /\
  (forall classes (probs : list float) label,
     label ∉ classes -> App.class_probability classes probs label = Ok None).
Proof.
  intros (Hcache & Hfiles) Hpredict Hbody.
  destruct (predict_PredictionBody data p p' resp r Hpredict Hbody)
    as (bundle & explainer & trained & Hload & Hresp).
  apply respond_Ok in Hresp
    as (scaled & probs & idx & r' & buy & sell & hold &
        Hprobs & Hargmax & Hsignal & Hidx & Hconf & Hbuy & Hsell & Hhold & Hmap & ->).
  simpl in Hbody. injection Hbody as ->.
  apply load_model_Some in Hload as (Hreg & Hfrom).
  assert (calibrated_binary64 bundle) as Hcal.
  { destruct Hfrom as [(Hc & _)|(_ & Hf & _)]; [by eapply Hcache | by eapply Hfiles]. }
  pose proof (Hcal scaled probs Hprobs) as Hunit.
  assert (Forall (fun q => PrimFloat.is_nan q = false) probs) as Hnan.
  { eapply Forall_impl; [exact Hunit|]. intros q [Hq _]. simpl.
    by apply float_leb_not_nan in Hq as [_ Hq]. }
  rewrite Forall_lookup in Hunit.
  assert (in_unit_binary64 (App.probability r)) as Hp by (by eapply Hunit).
  change (to_int (App.probability r * 100)%float = Ok (App.confidence r)) in Hconf.
  destruct (product_sign_binary64 _ _ (proj1 Hp) Hconf) as (q & Hq & Hq0).
  assert (App.confidence r = Qfloor q) as Hfloor.
  { pose proof (to_int_floor_binary64 _ _ Hq Hq0) as Hint.
    change (to_int (App.probability r * 100)%float = Ok (Qfloor q)) in Hint.
    rewrite Hint in Hconf. by injection Hconf as <-. }
  split; [done|]. split; [done|]. split; [done|].
  split; [by exists q|]. split.
  { rewrite Hfloor. change 0%Z with (Qfloor 0). by apply Qfloor_resp_le. }
  split; [rewrite Hmap; rewrite !dom_insert_L, dom_singleton_L; set_solver|].
  split; [|intros classes probs' label; apply class_probability_untrained].
  exists bundle, scaled, probs. split; [done|]. split; [done|].
  split; [by exists idx|].
  split.
  { apply (np_argmax_max_binary64 probs idx Hnan) in Hargmax as (m & Hm & Hmax).
    rewrite Hidx in Hm. by injection Hm as <-. }
  intros label Hlabel.
  assert (exists v, App.class_probability (App.label_encoder bundle) probs label = Ok v /\
                    App.probabilities r !! label = Some v) as (v & Hv & Hlook).
  { rewrite Hmap. repeat (apply elem_of_cons in Hlabel as [->|Hlabel]).
    - exists buy. split; [done|]. by rewrite lookup_insert_eq.
    - exists sell. split; [done|]. by rewrite lookup_insert_ne, lookup_insert_eq.
    - exists hold. split; [done|].
      by rewrite !lookup_insert_ne, lookup_singleton_eq.
    - by apply elem_of_nil in Hlabel. }
  apply class_probability_Ok in Hv as (Htrained & Huntrained). split.
  - intros Hin. destruct (Htrained Hin) as (i & x & Hi & Hx & ->).
    exists i, x. split; [done|]. split; [done|]. split; [by eapply Hunit|done].
  - intros Hnin. by rewrite Hlook, (Huntrained Hnin).
Qed.

Lemma prediction_confidence_and_probabilities_witness :
  exists r,
    App.body (App.predict Service64.three_values Service64.fresh).1 = App.PredictionBody r /\
    to_int (App.probability r * 100)%float = Ok (App.confidence r) /\
    dom (App.probabilities r) = ({[ "BUY"; "SELL"; "HOLD" ]} : gset string).
Proof.
  assert (calibrated_process_binary64 Service64.fresh) as Hcal.
  { split; intros k b Hk.
    - simpl in Hk. rewrite lookup_empty in Hk. discriminate.
    - simpl in Hk. apply lookup_singleton_Some in Hk as [_ Hb].
      injection Hb as <-. intros x probs [= <-].
      repeat constructor. }
  destruct (App.predict Service64.three_values Service64.fresh) as [resp p'] eqn:Hpredict.
  assert (exists r, App.body resp = App.PredictionBody r) as [r Hr].
  { vm_compute in Hpredict. injection Hpredict as <- _. eexists. reflexivity. }
  destruct (prediction_confidence_and_probabilities Service64.three_values Service64.fresh
              p' resp r Hcal Hpredict Hr) as (_ & _ & Hconf & _ & _ & Hdom & _).
  exists r. split; [exact Hr|]. split; [exact Hconf | exact Hdom].
Defined.

(** The confidence is not the floor of the exact product: the classifier's
    0.7 is the double just below 0.7, so that the exact product lies below
    70 and its floor is 69, while the rounded product is 70. *)
Lemma confidence_is_not_the_exact_floor :
  exists r q,
    App.body (App.predict Service64.three_values Service64.fresh).1 = App.PredictionBody r /\
    to_Q (App.probability r) = Some q /\
    App.confidence r = 70%Z /\
    Qfloor (q * 100) = 69%Z.
Proof.
  eexists _, _. split; [vm_compute; reflexivity|].
  split; [vm_compute; reflexivity|]. split; vm_compute; reflexivity.
Qed.
